(** * SOS native bridge: [datatarget.cpp] and [hostcoreclr.cpp]

    A shallow embedding of the debug-target facade ([DataTarget]) and of
    the hosting / symbol-store / symbol-reader code of
    [src/SOS/Strike/hostcoreclr.cpp], followed by the properties proved
    about them.

    Conventions.
    - Fixed-width C integers are [Z] with the conversion written out
      ([ULONG32_of], [ULONG64_of], [int_of]).
    - [std::string], [LPCSTR] and [WCHAR*] values are [string]s holding
      the characters before the terminating NUL; a null pointer is [None].
    - Interfaces of the debugger engine, of the native symbol reader and
      of the hosted runtime are records of functions: what the outside
      answers is data of the model, what the code does with the answer
      is the embedding.
    - Process-wide variables are the fields of [Globals]; externally
      visible actions are appended to a trace of [Event]s. *)

From Stdlib Require Import ZArith Lia Ascii String DecimalString.
From stdpp Require Import base gmap sets list strings.

Local Open Scope Z_scope.

(* ================================================================== *)
(** * Part I. The embedding                                            *)
(* ================================================================== *)

(** ** Machine integers and result codes *)
Module Win32.

Definition HRESULT := Z.

Definition ULONG32_of (x : Z) : Z := x mod 2 ^ 32.
Definition ULONG64_of (x : Z) : Z := x mod 2 ^ 64.
Definition size_t_of (x : Z) : Z := x mod 2 ^ 64.
(** conversion to the 32-bit [int] *)
Definition int_of (x : Z) : Z := (x + 2 ^ 31) mod 2 ^ 32 - 2 ^ 31.

Definition HRESULT_of (code : Z) : HRESULT := int_of code.

Definition S_OK : HRESULT := 0.
Definition E_NOTIMPL : HRESULT := HRESULT_of 0x80004001.
Definition E_FAIL : HRESULT := HRESULT_of 0x80004005.
Definition E_UNEXPECTED : HRESULT := HRESULT_of 0x8000FFFF.
Definition E_ACCESSDENIED : HRESULT := HRESULT_of 0x80070005.
Definition E_OUTOFMEMORY : HRESULT := HRESULT_of 0x8007000E.
Definition E_INVALIDARG : HRESULT := HRESULT_of 0x80070057.

Definition FAILED (hr : HRESULT) : bool := hr <? 0.
Definition SUCCEEDED (hr : HRESULT) : bool := 0 <=? hr.

(** [HRESULT_FROM_WIN32] *)
Definition HRESULT_FROM_WIN32 (x : Z) : HRESULT :=
  if int_of x <=? 0 then int_of x
  else HRESULT_of (Z.lor (Z.lor (Z.land x 0x0000FFFF) (Z.shiftl 7 16)) 0x80000000).

End Win32.
Export Win32.

(** ** Strings as the code uses them *)
Module Str.

Definition strlen (s : string) : Z := Z.of_nat (String.length s).

(** [s.substr(0, n)]: at most [n] characters, fewer when [s] is shorter *)
Fixpoint take (n : nat) (s : string) : string :=
  match n, s with
  | S n', String c s' => String c (take n' s')
  | _, _ => EmptyString
  end.

(** the C string that starts [n] characters into [s] *)
Fixpoint drop (n : nat) (s : string) : string :=
  match n, s with
  | S n', String _ s' => drop n' s'
  | _, _ => s
  end.

(** the character at index [n] of the NUL-terminated buffer *)
Definition char_at (n : nat) (s : string) : ascii :=
  match String.get n s with
  | Some c => c
  | None => zero
  end.

Definition ends_with (suffix s : string) : bool :=
  (String.length suffix <=? String.length s)%nat
  && String.eqb (drop (String.length s - String.length suffix) s) suffix.

(** [s.rfind(c)]: index of the last occurrence *)
Fixpoint rfind (c : ascii) (s : string) : option nat :=
  match s with
  | EmptyString => None
  | String d s' =>
      match rfind c s' with
      | Some i => Some (S i)
      | None => if Ascii.eqb d c then Some 0%nat else None
      end
  end.

Definition towlower (c : ascii) : ascii :=
  let n := nat_of_ascii c in
  if ((65 <=? n) && (n <=? 90))%nat then ascii_of_nat (n + 32) else c.

Definition wchar_code (c : ascii) : Z := Z.of_nat (nat_of_ascii c).

(** [_wcsicmp]: compares the case-folded characters, the end of a
    string counting as the NUL character *)
Fixpoint _wcsicmp (a b : string) : Z :=
  match a, b with
  | EmptyString, EmptyString => 0
  | EmptyString, String d _ => 0 - wchar_code (towlower d)
  | String c _, EmptyString => wchar_code (towlower c)
  | String c a', String d b' =>
      if Ascii.eqb (towlower c) (towlower d) then _wcsicmp a' b'
      else wchar_code (towlower c) - wchar_code (towlower d)
  end.

End Str.

(** ** The native ("legacy") symbol reader and [SymbolReader] *)
Module SymbolReader.

(** [ISymUnmanagedDocument]. [GetURL cch] answers the result code, the
    character count needed (terminator included) and what was copied. *)
Record ISymUnmanagedDocument := {
  GetURL : Z -> HRESULT * Z * string;
  FindClosestLine : Z -> HRESULT * Z
}.

(** One entry of the parallel arrays filled by [GetSequencePoints]. *)
Record SequencePoint := {
  sp_offset : Z;
  sp_document : ISymUnmanagedDocument;
  sp_line : Z;
  sp_column : Z;
  sp_endline : Z;
  sp_endcolumn : Z
}.

Record ISymUnmanagedMethod := {
  GetSequencePointCount : HRESULT * Z;
  (** [GetSequencePoints cPoints]: result code and the entries
      written; their number is [realSeqPointCount] *)
  GetSequencePoints : Z -> HRESULT * list SequencePoint;
  GetToken : HRESULT * Z;
  GetOffset : ISymUnmanagedDocument -> Z -> Z -> HRESULT * Z
}.

Record ISymUnmanagedReader := {
  GetMethod : Z -> HRESULT * ISymUnmanagedMethod;
  (** [GetDocuments cDocs]: result code, count needed, documents *)
  GetDocuments : Z -> HRESULT * Z * list ISymUnmanagedDocument;
  GetMethodFromDocumentPosition :
    ISymUnmanagedDocument -> Z -> Z -> HRESULT * ISymUnmanagedMethod
}.

(** The operations of the hosted bridge a reader session calls. *)
Record PortableOps := {
  SysAllocStringLen_ok : bool;
  GetLineByILOffsetDelegate : Z -> Z -> Z -> bool * Z * string;
  WideCharToMultiByte : string -> option string;
  ResolveSequencePointDelegate : Z -> string -> Z -> bool * Z * Z
}.

Record t := {
  m_symbolReaderHandle : Z;
  m_pSymReader : option ISymUnmanagedReader
}.

Definition HiddenLine : Z := 0x00feefee.

(** The [for] loop of [GetLineByILOffset]: [i] is the loop index and
    [pts] the entries from index [i] up to [(int)realSeqPointCount]. *)
Fixpoint scan_sequence_points (ilOffset : Z) (pts : list SequencePoint)
    (i bestSoFar : Z) : Z :=
  match pts with
  | [] => bestSoFar
  | p :: rest =>
      if sp_offset p >? ilOffset then bestSoFar
      else scan_sequence_points ilOffset rest (i + 1)
             (if sp_line p =? HiddenLine then bestSoFar else i)
  end.

(** The table [GetSequencePoints] fills is ordered by offset. *)
Fixpoint offset_ordered (pts : list SequencePoint) : bool :=
  match pts with
  | p :: rest =>
      match rest with
      | q :: _ => (sp_offset p <=? sp_offset q) && offset_ordered rest
      | [] => true
      end
  | [] => true
  end.

Definition entry_at (pts : list SequencePoint) (i : Z) : option SequencePoint :=
  if i <? 0 then None else pts !! Z.to_nat i.

(** The block under [if (bestSoFar != -1)]: the URL of the entry's
    document is fetched into the caller's buffer, then the line is
    stored. *)
Definition answer_from (p : SequencePoint) (linenum0 cchFileName : Z)
    : HRESULT * Z * string :=
  let '(hr, _, url) := GetURL (sp_document p) cchFileName in
  if FAILED hr then (hr, linenum0, url) else (S_OK, sp_line p, url).

(** [SymbolReader::GetLineByILOffset]. [linenum0] and [file0] are the
    contents of [*pLinenum] and [pwszFileName] on entry; the result
    carries them as the call leaves them. *)
Definition GetLineByILOffset (FEATURE_PAL : bool) (ops : PortableOps)
    (this : t) (methodToken ilOffset : Z) (linenum0 : Z) (file0 : string)
    (cchFileName : Z) : HRESULT * Z * string :=
  let ilOffset := ULONG64_of ilOffset in
  if negb (m_symbolReaderHandle this =? 0) then
    if negb (SysAllocStringLen_ok ops) then (E_OUTOFMEMORY, linenum0, file0)
    else
      let '(ok, linenum, bstrFileName) :=
        GetLineByILOffsetDelegate ops (m_symbolReaderHandle this) methodToken ilOffset in
      if negb ok || (linenum =? 0) then (E_FAIL, linenum, file0)
      else (S_OK, linenum, bstrFileName)
  else if FEATURE_PAL then (E_FAIL, linenum0, file0)
  else
    match m_pSymReader this with
    | None => (E_FAIL, linenum0, file0)
    | Some reader =>
        let '(hr, pSymMethod) := GetMethod reader methodToken in
        if FAILED hr then (hr, linenum0, file0) else
        let '(hr, seqPointCount) := GetSequencePointCount pSymMethod in
        if FAILED hr then (hr, linenum0, file0) else
        if seqPointCount =? 0 then (E_FAIL, linenum0, file0) else
        let '(hr, pts) := GetSequencePoints pSymMethod seqPointCount in
        if FAILED hr then (hr, linenum0, file0) else
        let realSeqPointCount := ULONG32_of (Z.of_nat (length pts)) in
        let bestSoFar :=
          scan_sequence_points ilOffset
            (firstn (Z.to_nat (int_of realSeqPointCount)) pts) 0 (-1) in
        if negb (bestSoFar =? -1) then
          match entry_at pts bestSoFar with
          | Some p => answer_from p linenum0 cchFileName
          | None => (E_FAIL, linenum0, file0)
          end
        else (E_FAIL, linenum0, file0)
    end.


(** The filename test at the head of the document loop of
    [ResolveSequencePoint]: [true] when control reaches
    [FindClosestLine], [false] when the iteration [continue]s.
    [cchUrl] is the count the first [GetURL] asked for. *)
Definition url_matches (pFilename pUrl : string) (cchUrl : Z) : bool :=
  let filenameLen := ULONG32_of (Str.strlen pFilename) in
  if ULONG32_of (cchUrl - 1) =? filenameLen then
    Str._wcsicmp pUrl pFilename =? 0
  else if ULONG32_of (cchUrl - 1) >? filenameLen then
    let slashLocation := Z.to_nat (ULONG32_of (cchUrl - filenameLen - 2)) in
    let ch := Str.char_at slashLocation pUrl in
    if negb (Ascii.eqb ch "\") && negb (Ascii.eqb ch "/") then false
    else Str._wcsicmp (Str.drop (S slashLocation) pUrl) pFilename =? 0
  else false.

(** The document loop; [token0] and [off0] are [*pToken] and
    [*pIlOffset] on entry. *)
Fixpoint resolve_in_documents (reader : ISymUnmanagedReader)
    (pFilename : string) (lineNumber : Z)
    (pDocs : list ISymUnmanagedDocument) (token0 off0 : Z) : HRESULT * Z * Z :=
  match pDocs with
  | [] => (E_FAIL, token0, off0)
  | doc :: rest =>
      let '(hr, cchUrlNeeded, _) := GetURL doc 0 in
      if FAILED hr then (hr, token0, off0) else
      let cchUrl := cchUrlNeeded in
      let '(hr, _, pUrl) := GetURL doc cchUrl in
      if FAILED hr then (hr, token0, off0) else
      if negb (url_matches pFilename pUrl cchUrl)
      then resolve_in_documents reader pFilename lineNumber rest token0 off0
      else
        let '(hr, closestLine) := FindClosestLine doc lineNumber in
        if FAILED hr
        then resolve_in_documents reader pFilename lineNumber rest token0 off0
        else
          let '(hr, pSymUnmanagedMethod) :=
            GetMethodFromDocumentPosition reader doc closestLine 0 in
          if FAILED hr then (hr, token0, off0) else
          let '(hr, token) := GetToken pSymUnmanagedMethod in
          if FAILED hr then (hr, token, off0) else
          let '(hr, off) := GetOffset pSymUnmanagedMethod doc closestLine 0 in
          if FAILED hr then (hr, token, off) else
          if ULONG32_of off =? ULONG32_of (-1) then (E_FAIL, token, off)
          else (S_OK, token, off)
  end.

(** [SymbolReader::ResolveSequencePoint] *)
Definition ResolveSequencePoint (FEATURE_PAL : bool) (ops : PortableOps)
    (this : t) (pFilename : string) (lineNumber : Z) (token0 off0 : Z)
    : HRESULT * Z * Z :=
  if negb (m_symbolReaderHandle this =? 0) then
    match WideCharToMultiByte ops pFilename with
    | None => (E_FAIL, token0, off0)
    | Some szName =>
        let '(ok, token, off) :=
          ResolveSequencePointDelegate ops (m_symbolReaderHandle this) szName lineNumber in
        if negb ok then (E_FAIL, token, off) else (S_OK, token, off)
    end
  else if FEATURE_PAL then (E_FAIL, token0, off0)
  else
    match m_pSymReader this with
    | None => (E_FAIL, token0, off0)
    | Some reader =>
        let '(hr, cDocsNeeded, _) := GetDocuments reader 0 in
        if FAILED hr then (hr, token0, off0) else
        let cDocs := cDocsNeeded in
        let '(hr, _, pDocs) := GetDocuments reader cDocs in
        if FAILED hr then (hr, token0, off0) else
        resolve_in_documents reader pFilename lineNumber
          (firstn (Z.to_nat (ULONG32_of cDocs)) pDocs) token0 off0
    end.

End SymbolReader.

(** ** Build configuration and the file system *)
Module Platform.

Inductive OS := Windows | Linux | Apple | FreeBSD | NetBSD.

(** [FEATURE_PAL] is defined on every host but Windows. *)
Definition FEATURE_PAL (os : OS) : bool :=
  match os with Windows => false | _ => true end.

(** Names the build supplies from headers outside these two files. *)
Record Config := {
  os : OS;
  SOSManagedDllName : string;
  SymbolReaderClassName : string;
  MetadataHelperClassName : string;
  MAIN_CLR_DLL_NAME_A : string;
  MAIN_CLR_MODULE_NAME_A : string
}.

Definition DIRECTORY_SEPARATOR_CHAR_A (cfg : Config) : ascii :=
  if FEATURE_PAL (os cfg) then "/"%char else "\"%char.
Definition DIRECTORY_SEPARATOR_STR_A (cfg : Config) : string :=
  String (DIRECTORY_SEPARATOR_CHAR_A cfg) EmptyString.
Definition TPALIST_SEPARATOR_STR_A (cfg : Config) : string :=
  if FEATURE_PAL (os cfg) then ":" else ";".

End Platform.
Export Platform.

Module FileSystem.

(** What the code reads of a [WIN32_FIND_DATAA]. *)
Record WIN32_FIND_DATAA := {
  cFileName : string;
  (** [dwFileAttributes & FILE_ATTRIBUTE_DIRECTORY] is not zero *)
  isDirectory : bool
}.

(** A directory, named by its path with the final separator, lists its
    entries in the order the enumeration yields them. *)
Definition Listing := string -> list WIN32_FIND_DATAA.

(** The wildcard patterns of this code are a literal or [*] followed
    by a literal. *)
Definition glob (pattern name : string) : bool :=
  match pattern with
  | String "*"%char rest => Str.ends_with rest name
  | _ => String.eqb pattern name
  end.

(** [FindFirstFileA] followed by [FindNextFileA] until it answers 0:
    the entries that match, in order. No entry stands for
    [INVALID_HANDLE_VALUE]. *)
Definition FindFiles (sep : ascii) (fs : Listing) (pattern : string)
    : list WIN32_FIND_DATAA :=
  match Str.rfind sep pattern with
  | Some i =>
      List.filter (fun d => glob (Str.drop (S i) pattern) (cFileName d))
                  (fs (Str.take (S i) pattern))
  | None => List.filter (fun d => glob pattern (cFileName d)) (fs EmptyString)
  end.

End FileSystem.
Export FileSystem.

(** ** [hostcoreclr.cpp]: process-wide state and the outside world *)
Module Hosting.

(** The slots of [SOSNetCoreCallbacks] bound by [InitializeHosting]. *)
Inductive Slot :=
| InitializeSymbolStoreDelegate | DisplaySymbolStoreDelegate
| DisableSymbolStoreDelegate | LoadNativeSymbolsDelegate
| LoadSymbolsForModuleDelegate | DisposeDelegate
| ResolveSequencePointDelegate | GetLocalVariableNameDelegate
| GetLineByILOffsetDelegate | GetMetadataLocatorDelegate.

Definition Slot_eqb (a b : Slot) : bool :=
  match a, b with
  | InitializeSymbolStoreDelegate, InitializeSymbolStoreDelegate
  | DisplaySymbolStoreDelegate, DisplaySymbolStoreDelegate
  | DisableSymbolStoreDelegate, DisableSymbolStoreDelegate
  | LoadNativeSymbolsDelegate, LoadNativeSymbolsDelegate
  | LoadSymbolsForModuleDelegate, LoadSymbolsForModuleDelegate
  | DisposeDelegate, DisposeDelegate
  | ResolveSequencePointDelegate, ResolveSequencePointDelegate
  | GetLocalVariableNameDelegate, GetLocalVariableNameDelegate
  | GetLineByILOffsetDelegate, GetLineByILOffsetDelegate
  | GetMetadataLocatorDelegate, GetMetadataLocatorDelegate => true
  | _, _ => false
  end.

(** A bound operation is the address the hosted runtime handed out;
    0 is [nullptr]. *)
Definition SOSNetCoreCallbacks := Slot -> Z.

(** The arguments of [ICLRMetadataLocator::GetMetadata]. *)
Record MetadataRequest := {
  imagePath : string;
  imageTimestamp : Z;
  imageSize : Z;
  mvid : Z;
  mdRva : Z;
  flags : Z;
  bufferSize : Z
}.

(** Calls into the hosted runtime through a bound slot. *)
Inductive ManagedCall :=
| CallInitializeSymbolStore (logging msdl symweb : bool)
    (symbolServer cacheDirectory windowsSymbolPath : option string)
| CallDisableSymbolStore
| CallGetMetadataLocator (request : MetadataRequest).

(** Actions on the outside world, with the answer where there is one. *)
Inductive Event :=
| EvLoadLibrary (path : string) (loaded : bool)
| EvGetProcAddress (name : string) (found : bool)
| EvInitializeCoreCLR (exePath appDomain : string)
    (properties : list (string * string)) (hr : HRESULT)
| EvCreateDelegate (assembly className method : string) (hr : HRESULT)
| EvCreateDirectory (path : string)
| EvDeleteFile (path : string)
| EvRemoveDirectory (path : string)
| EvInvoke (slot : Slot) (address : Z) (call : ManagedCall).

(** The file-scope variables of [hostcoreclr.cpp] and the trace. *)
Record State := {
  g_hostingInitialized : bool;
  g_symbolStoreInitialized : bool;
  g_hostRuntimeDirectory : option string;
  g_dacFilePath : option string;
  g_dbiFilePath : option string;
  g_tmpPath : option string;
  g_SOSNetCoreCallbacks : SOSNetCoreCallbacks;
  trace : list Event
}.

Definition set_hostingInitialized (b : bool) (s : State) : State :=
  {| g_hostingInitialized := b;
     g_symbolStoreInitialized := g_symbolStoreInitialized s;
     g_hostRuntimeDirectory := g_hostRuntimeDirectory s;
     g_dacFilePath := g_dacFilePath s;
     g_dbiFilePath := g_dbiFilePath s;
     g_tmpPath := g_tmpPath s;
     g_SOSNetCoreCallbacks := g_SOSNetCoreCallbacks s;
     trace := trace s |}.

Definition set_symbolStoreInitialized (b : bool) (s : State) : State :=
  {| g_hostingInitialized := g_hostingInitialized s;
     g_symbolStoreInitialized := b;
     g_hostRuntimeDirectory := g_hostRuntimeDirectory s;
     g_dacFilePath := g_dacFilePath s;
     g_dbiFilePath := g_dbiFilePath s;
     g_tmpPath := g_tmpPath s;
     g_SOSNetCoreCallbacks := g_SOSNetCoreCallbacks s;
     trace := trace s |}.

Definition set_hostRuntimeDirectory (d : option string) (s : State) : State :=
  {| g_hostingInitialized := g_hostingInitialized s;
     g_symbolStoreInitialized := g_symbolStoreInitialized s;
     g_hostRuntimeDirectory := d;
     g_dacFilePath := g_dacFilePath s;
     g_dbiFilePath := g_dbiFilePath s;
     g_tmpPath := g_tmpPath s;
     g_SOSNetCoreCallbacks := g_SOSNetCoreCallbacks s;
     trace := trace s |}.

Definition set_dacFilePath (d : option string) (s : State) : State :=
  {| g_hostingInitialized := g_hostingInitialized s;
     g_symbolStoreInitialized := g_symbolStoreInitialized s;
     g_hostRuntimeDirectory := g_hostRuntimeDirectory s;
     g_dacFilePath := d;
     g_dbiFilePath := g_dbiFilePath s;
     g_tmpPath := g_tmpPath s;
     g_SOSNetCoreCallbacks := g_SOSNetCoreCallbacks s;
     trace := trace s |}.

Definition set_dbiFilePath (d : option string) (s : State) : State :=
  {| g_hostingInitialized := g_hostingInitialized s;
     g_symbolStoreInitialized := g_symbolStoreInitialized s;
     g_hostRuntimeDirectory := g_hostRuntimeDirectory s;
     g_dacFilePath := g_dacFilePath s;
     g_dbiFilePath := d;
     g_tmpPath := g_tmpPath s;
     g_SOSNetCoreCallbacks := g_SOSNetCoreCallbacks s;
     trace := trace s |}.

Definition set_tmpPath (d : option string) (s : State) : State :=
  {| g_hostingInitialized := g_hostingInitialized s;
     g_symbolStoreInitialized := g_symbolStoreInitialized s;
     g_hostRuntimeDirectory := g_hostRuntimeDirectory s;
     g_dacFilePath := g_dacFilePath s;
     g_dbiFilePath := g_dbiFilePath s;
     g_tmpPath := d;
     g_SOSNetCoreCallbacks := g_SOSNetCoreCallbacks s;
     trace := trace s |}.

Definition set_callbacks (c : SOSNetCoreCallbacks) (s : State) : State :=
  {| g_hostingInitialized := g_hostingInitialized s;
     g_symbolStoreInitialized := g_symbolStoreInitialized s;
     g_hostRuntimeDirectory := g_hostRuntimeDirectory s;
     g_dacFilePath := g_dacFilePath s;
     g_dbiFilePath := g_dbiFilePath s;
     g_tmpPath := g_tmpPath s;
     g_SOSNetCoreCallbacks := c;
     trace := trace s |}.

Definition log (e : Event) (s : State) : State :=
  {| g_hostingInitialized := g_hostingInitialized s;
     g_symbolStoreInitialized := g_symbolStoreInitialized s;
     g_hostRuntimeDirectory := g_hostRuntimeDirectory s;
     g_dacFilePath := g_dacFilePath s;
     g_dbiFilePath := g_dbiFilePath s;
     g_tmpPath := g_tmpPath s;
     g_SOSNetCoreCallbacks := g_SOSNetCoreCallbacks s;
     trace := trace s ++ [e] |}.

Definition bind_slot (slot : Slot) (address : Z) (c : SOSNetCoreCallbacks)
    : SOSNetCoreCallbacks :=
  fun k => if Slot_eqb k slot then address else c k.

(** What the operating system, the debugger and the hosted runtime
    answer during one call. *)
Record Host := {
  fs : Listing;
  access_F_OK : string -> bool;
  realpath : string -> option string;
  GetEnvironmentVariableA : string -> option string;
  GetTempPathA : option string;
  GetCurrentProcessId : Z;
  GetLastError : Z;
  (** the C runtime: what [sscanf_s] leaves in the [int] of a [%d]
      whose field does not fit an [int] *)
  sscanf_s_out_of_range : Z -> Z;
  (** [GetFileAttributesA] is not [INVALID_FILE_ATTRIBUTES] *)
  GetFileAttributesA_valid : string -> bool;
  (** [GetModuleFileName(NULL, ...)], [_NSGetExecutablePath], [sysctl] *)
  GetModuleFileName_exe : option string;
  NSGetExecutablePath : option string;
  sysctl_proc_pathname : option string;
  (** [PAL_GetPALDirectoryA], [GetModuleFileNameA(g_hInstance, ...)] *)
  PAL_GetPALDirectoryA : option string;
  GetModuleFileNameA_sos : option string;
  (** the debugger: [g_ExtServices], [g_ExtSymbols] *)
  ExtServices_GetCoreClrDirectory : option string;
  ExtSymbols_GetModuleByModuleName : string -> HRESULT * Z;
  ExtSymbols_GetModuleNames : Z -> HRESULT * string;
  ExtSymbols_GetSymbolPath : HRESULT * string;
  (** the loader and the hosting API *)
  LoadLibraryA : string -> bool;
  GetProcAddress : string -> bool;
  coreclr_initialize : string -> string -> list (string * string) -> HRESULT;
  coreclr_create_delegate : string -> string -> string -> HRESULT * Z;
  (** the managed side of the bound operations *)
  managed_InitializeSymbolStore :
    Z -> bool -> bool -> bool -> option string -> option string -> option string -> bool;
  managed_GetMetadataLocator : Z -> MetadataRequest -> HRESULT * list Z * Z
}.

(** *** Control flow: a function body either runs on with a value or
    executes [return] *)
Inductive Outcome (A : Type) :=
| Value (a : A)
| Return (hr : HRESULT).
Arguments Value {A} a.
Arguments Return {A} hr.

Definition M (A : Type) : Type := State -> Outcome A * State.

#[global] Instance M_ret : MRet M := fun A a s => (Value a, s).
#[global] Instance M_bind : MBind M := fun A B f m s =>
  match m s with
  | (Value a, s') => f a s'
  | (Return hr, s') => (Return hr, s')
  end.

Definition return_ {A} (hr : HRESULT) : M A := fun s => (Return hr, s).
Definition get : M State := fun s => (Value s, s).
Definition modify (f : State -> State) : M unit := fun s => (Value tt, f s).
Definition emit (e : Event) : M unit := modify (log e).

(** the whole body of a function that returns an [HRESULT] *)
Definition run (body : M HRESULT) (s : State) : HRESULT * State :=
  match body s with
  | (Value hr, s') => (hr, s')
  | (Return hr, s') => (hr, s')
  end.

(** a call of such a function from another body *)
Definition call (f : State -> HRESULT * State) : M HRESULT :=
  fun s => let '(hr, s') := f s in (Value hr, s').

(** [IfFailRet(EXPR)] *)
Definition IfFailRet (expr : M HRESULT) : M HRESULT :=
  Status ← expr; if FAILED Status then return_ Status else mret Status.


(** *** The trusted-assembly list *)

Definition tpaExtensions : list string := ["*.ni.dll"; "*.dll"].

(** The body of the [do ... while] for one entry found. *)
Definition add_found_file (cfg : Config) (directory : string) (extLength : Z)
    (acc : gset string * string) (data : WIN32_FIND_DATAA)
    : gset string * string :=
  let '(addedAssemblies, tpaList) := acc in
  if negb (isDirectory data) then
    let filename := cFileName data in
    let extPos := size_t_of (Str.strlen filename - extLength) in
    let filenameWithoutExt := Str.take (Z.to_nat extPos) filename in
    if bool_decide (filenameWithoutExt ∉ addedAssemblies) then
      ({[ filenameWithoutExt ]} ∪ addedAssemblies,
       tpaList +:+ directory +:+ DIRECTORY_SEPARATOR_STR_A cfg
               +:+ filename +:+ TPALIST_SEPARATOR_STR_A cfg)
    else acc
  else acc.

(** One turn of the loop over [tpaExtensions]. *)
Definition add_extension (cfg : Config) (host : Host) (directory : string)
    (acc : gset string * string) (ext : string) : gset string * string :=
  let extLength := size_t_of (Str.strlen ext - 1) in
  let assemblyPath := directory +:+ DIRECTORY_SEPARATOR_STR_A cfg +:+ ext in
  fold_left (add_found_file cfg directory extLength)
    (FindFiles (DIRECTORY_SEPARATOR_CHAR_A cfg) (fs host) assemblyPath) acc.

(** [AddFilesFromDirectoryToTpaList]: the list after the call. *)
Definition AddFilesFromDirectoryToTpaList (cfg : Config) (host : Host)
    (directory : string) (tpaList : string) : string :=
  let addedAssemblies : gset string := {[ SOSManagedDllName cfg ]} in
  snd (fold_left (add_extension cfg host directory) tpaExtensions
         (addedAssemblies, tpaList)).

(** *** Paths *)

Definition GetAbsolutePath (host : Host) (path : string) : option string :=
  match realpath host path with
  | Some realPath => if String.eqb realPath "" then None else Some realPath
  | None => None
  end.

Definition symlinkEntrypointExecutable (cfg : Config) : string :=
  match os cfg with
  | Linux => "/proc/self/exe"
  | _ => "/proc/curproc/exe"
  end.

Definition GetEntrypointExecutableAbsolutePath (cfg : Config) (host : Host)
    : option string :=
  match os cfg with
  | Windows => GetModuleFileName_exe host
  | Apple => NSGetExecutablePath host
  | FreeBSD | NetBSD => sysctl_proc_pathname host
  | Linux => GetAbsolutePath host (symlinkEntrypointExecutable cfg)
  end.

(** [GetCoreClrDirectory(std::string&)]: the result code and the
    string as the call leaves it. *)
Definition GetCoreClrDirectory (cfg : Config) (host : Host)
    (coreClrDirectory : string) : HRESULT * string :=
  if FEATURE_PAL (os cfg) then
    match ExtServices_GetCoreClrDirectory host with
    | None => (E_FAIL, coreClrDirectory)
    | Some directory =>
        match GetAbsolutePath host directory with
        | None => (E_FAIL, coreClrDirectory)
        | Some absolutePath => (S_OK, absolutePath)
        end
    end
  else
    let '(Status, index) :=
      ExtSymbols_GetModuleByModuleName host (MAIN_CLR_MODULE_NAME_A cfg) in
    if FAILED Status then (Status, coreClrDirectory) else
    let '(Status, szModuleName) := ExtSymbols_GetModuleNames host index in
    if FAILED Status then (Status, coreClrDirectory) else
    if negb (GetFileAttributesA_valid host szModuleName)
    then (HRESULT_FROM_WIN32 (GetLastError host), coreClrDirectory) else
    let coreClrDirectory := szModuleName in
    match Str.rfind (DIRECTORY_SEPARATOR_CHAR_A cfg) coreClrDirectory with
    | None => (E_FAIL, coreClrDirectory)
    | Some lastSlash => (S_OK, Str.take lastSlash coreClrDirectory)
    end.

(** *** [sscanf_s(name, "%d.%d.%d", &major, &minor, &revision)] *)

Definition isspace (c : ascii) : bool :=
  let n := nat_of_ascii c in ((n =? 32) || ((9 <=? n) && (n <=? 13)))%nat.

Fixpoint skip_spaces (s : string) : string :=
  match s with
  | String c rest => if isspace c then skip_spaces rest else s
  | EmptyString => s
  end.

Definition digit_value (c : ascii) : option Z :=
  let n := nat_of_ascii c in
  if ((48 <=? n) && (n <=? 57))%nat then Some (Z.of_nat n - 48) else None.

(** The run of digits of one field: its decimal value and the text
    that follows. *)
Fixpoint scan_digits (s : string) (acc : Z) : Z * string :=
  match s with
  | String c rest =>
      match digit_value c with
      | Some d => scan_digits rest (10 * acc + d)
      | None => (acc, s)
      end
  | EmptyString => (acc, s)
  end.

(** What a [%d] stores into its [int]: the value of the field when it
    fits. When it does not, C leaves the result to the runtime; what
    the runtime of [host] produces reaches the [int] in 32 bits. *)
Definition store_int (host : Host) (v : Z) : Z :=
  if (- 2 ^ 31 <=? v) && (v <? 2 ^ 31) then v
  else int_of (sscanf_s_out_of_range host v).

(** One [%d]: white space, an optional sign, at least one digit; the
    result is the [int] stored and the text that follows. *)
Definition scan_int (host : Host) (s : string) : option (Z * string) :=
  let s := skip_spaces s in
  let '(negative, s) :=
    match s with
    | String "-"%char rest => (true, rest)
    | String "+"%char rest => (false, rest)
    | _ => (false, s)
    end in
  match s with
  | String c rest =>
      match digit_value c with
      | Some d =>
          let '(v, rest) := scan_digits rest d in
          Some (store_int host (if negative : bool then - v else v), rest)
      | None => None
      end
  | EmptyString => None
  end.

Definition scan_dot (s : string) : option string :=
  match s with
  | String "."%char rest => Some rest
  | _ => None
  end.

(** [sscanf_s(name, "%d.%d.%d", &major, &minor, &revision) == 3]: the
    [int]s [major], [minor] and [revision] when all three fields were
    assigned. The caller looks at them in that case only. *)
Definition sscanf_s_version (host : Host) (name : string)
    : option (Z * Z * Z) :=
  '(major, s) ← scan_int host name;
  '(minor, s) ← scan_dot s ≫= scan_int host;
  '(revision, _) ← scan_dot s ≫= scan_int host;
  Some (major, minor, revision).

(** *** [FindDotNetVersion] *)

(** The body of the enumeration loop; the accumulator is
    [(highestRevision, versionFound)]. *)
Definition consider_version (host : Host) (majorFilter minorFilter : Z)
    (acc : Z * string) (data : WIN32_FIND_DATAA) : Z * string :=
  let '(highestRevision, versionFound) := acc in
  if isDirectory data then
    match sscanf_s_version host (cFileName data) with
    | Some (major, minor, revision) =>
        if (major =? majorFilter) && (minor =? minorFilter) then
          if revision >=? highestRevision then (revision, cFileName data)
          else acc
        else acc
    | None => acc
    end
  else acc.

(** Whether a version was found, and [hostRuntimeDirectory] after. *)
Definition FindDotNetVersion (cfg : Config) (host : Host)
    (majorFilter minorFilter : Z) (hostRuntimeDirectory : string)
    : bool * string :=
  let directory := hostRuntimeDirectory +:+ "*" in
  let '(_, versionFound) :=
    fold_left (consider_version host majorFilter minorFilter)
      (FindFiles (DIRECTORY_SEPARATOR_CHAR_A cfg) (fs host) directory)
      (0, EmptyString) in
  if 0 <? Str.strlen versionFound
  then (true, hostRuntimeDirectory +:+ versionFound)
  else (false, hostRuntimeDirectory).


(** *** [GetHostRuntime] *)

Definition g_linuxPaths : list string :=
  [ "/rh-dotnet21/root/usr/bin/dotnet/shared/Microsoft.NETCore.App";
    "/rh-dotnet20/root/usr/bin/dotnet/shared/Microsoft.NETCore.App";
    "/usr/share/dotnet/shared/Microsoft.NETCore.App" ].

(** The probing loop: each path is assigned, the first that exists
    ends the loop. *)
Fixpoint probe_paths (host : Host) (paths : list string)
    (hostRuntimeDirectory : string) : string :=
  match paths with
  | [] => hostRuntimeDirectory
  | path :: rest =>
      if access_F_OK host path then path else probe_paths host rest path
  end.

(** The install root the platform branch assigns, before the
    separator is appended; [None] where that branch returns [E_FAIL]. *)
Definition install_root (cfg : Config) (host : Host) : option string :=
  match os cfg with
  | Apple => Some "/usr/local/share/dotnet/shared/Microsoft.NETCore.App"
  | FreeBSD | NetBSD => None
  | Linux => Some (probe_paths host g_linuxPaths EmptyString)
  | Windows =>
      match GetEnvironmentVariableA host "PROGRAMFILES" with
      | None => None
      | Some programFiles =>
          Some (programFiles +:+ "\dotnet\shared\Microsoft.NETCore.App")
      end
  end.

(** The nested version search with its fallback: the result code and
    [hostRuntimeDirectory] after it. *)
Definition select_runtime (cfg : Config) (host : Host)
    (hostRuntimeDirectory : string) : HRESULT * string :=
  let '(found, hostRuntimeDirectory) :=
    FindDotNetVersion cfg host 2 1 hostRuntimeDirectory in
  if found then (S_OK, hostRuntimeDirectory) else
  let '(found, hostRuntimeDirectory) :=
    FindDotNetVersion cfg host 2 2 hostRuntimeDirectory in
  if found then (S_OK, hostRuntimeDirectory) else
  let '(found, hostRuntimeDirectory) :=
    FindDotNetVersion cfg host 3 0 hostRuntimeDirectory in
  if found then (S_OK, hostRuntimeDirectory) else
  GetCoreClrDirectory cfg host hostRuntimeDirectory.

(** [GetHostRuntime]: the value is [(coreClrPath, hostRuntimeDirectory)]. *)
Definition GetHostRuntime (cfg : Config) (host : Host) : M (string * string) :=
  s ← get;
  match g_hostRuntimeDirectory s with
  | None =>
      match install_root cfg host with
      | None => return_ E_FAIL
      | Some root =>
          let hostRuntimeDirectory := root +:+ DIRECTORY_SEPARATOR_STR_A cfg in
          let '(hr, hostRuntimeDirectory) :=
            select_runtime cfg host hostRuntimeDirectory in
          if FAILED hr then return_ hr
          else modify (set_hostRuntimeDirectory (Some hostRuntimeDirectory))
      end
  | Some _ => mret tt
  end;;
  s ← get;
  let hostRuntimeDirectory := default EmptyString (g_hostRuntimeDirectory s) in
  mret (hostRuntimeDirectory +:+ DIRECTORY_SEPARATOR_STR_A cfg
                             +:+ MAIN_CLR_DLL_NAME_A cfg,
        hostRuntimeDirectory).

(** *** The scratch directory *)

Definition decimal (n : Z) : string :=
  DecimalString.NilZero.string_of_int (Z.to_int (int_of n)).

(** [GetTempDirectory] *)
Definition GetTempDirectory (cfg : Config) (host : Host) (s : State)
    : option string * State :=
  match g_tmpPath s with
  | None =>
      let tmpPath :=
        match GetTempPathA host with
        | Some t => t
        | None => "." +:+ DIRECTORY_SEPARATOR_STR_A cfg
        end in
      let pidstr := "sos" +:+ decimal (GetCurrentProcessId host) in
      let tmpPath := tmpPath +:+ pidstr +:+ DIRECTORY_SEPARATOR_STR_A cfg in
      let s := log (EvCreateDirectory tmpPath) s in
      (Some tmpPath, set_tmpPath (Some tmpPath) s)
  | Some tmpPath => (Some tmpPath, s)
  end.

(** [InterlockedExchangePointer(&g_tmpPath, value)]: one atomic step *)
Definition InterlockedExchange_tmpPath (value : option string) (s : State)
    : option string * State :=
  (g_tmpPath s, set_tmpPath value s).

(** What [SOSShutdown] does with the pointer it exchanged out. *)
Definition remove_scratch (cfg : Config) (host : Host)
    (tmpPath : option string) (s : State) : State :=
  match tmpPath with
  | Some tmpPath =>
      let directory := tmpPath +:+ "*" in
      let s :=
        fold_left
          (fun s data =>
             if negb (isDirectory data)
             then log (EvDeleteFile (tmpPath +:+ cFileName data)) s
             else s)
          (FindFiles (DIRECTORY_SEPARATOR_CHAR_A cfg) (fs host) directory) s in
      log (EvRemoveDirectory tmpPath) s
  | None => s
  end.

(** [SOSShutdown] *)
Definition SOSShutdown (cfg : Config) (host : Host) (s : State) : State :=
  let '(tmpPath, s) := InterlockedExchange_tmpPath None s in
  remove_scratch cfg host tmpPath s.


(** *** [InitializeHosting] *)

(** [createDelegate(hostHandle, domainId, SOSManagedDllName, className,
    method, &g_SOSNetCoreCallbacks.slot)] *)
Definition createDelegate (cfg : Config) (host : Host)
    (className method : string) (slot : Slot) : M HRESULT :=
  let '(hr, address) :=
    coreclr_create_delegate host (SOSManagedDllName cfg) className method in
  emit (EvCreateDelegate (SOSManagedDllName cfg) className method hr);;
  s ← get;
  modify (set_callbacks (bind_slot slot address (g_SOSNetCoreCallbacks s)));;
  mret hr.

(** The ten [IfFailRet(createDelegate(...))] statements, in order:
    entry type, method, slot. *)
Definition bound_operations (cfg : Config) : list (string * string * Slot) :=
  let sym := SymbolReaderClassName cfg in
  [ (sym, "InitializeSymbolStore", InitializeSymbolStoreDelegate);
    (sym, "DisplaySymbolStore", DisplaySymbolStoreDelegate);
    (sym, "DisableSymbolStore", DisableSymbolStoreDelegate);
    (sym, "LoadNativeSymbols", LoadNativeSymbolsDelegate);
    (sym, "LoadSymbolsForModule", LoadSymbolsForModuleDelegate);
    (sym, "Dispose", DisposeDelegate);
    (sym, "ResolveSequencePoint", ResolveSequencePointDelegate);
    (sym, "GetLocalVariableName", GetLocalVariableNameDelegate);
    (sym, "GetLineByILOffset", GetLineByILOffsetDelegate);
    (MetadataHelperClassName cfg, "GetMetadataLocator", GetMetadataLocatorDelegate) ].

(** Their execution; [Status] is the variable of that name. *)
Fixpoint bind_operations (cfg : Config) (host : Host)
    (ops : list (string * string * Slot)) (Status : HRESULT) : M HRESULT :=
  match ops with
  | [] => mret Status
  | (className, method, slot) :: rest =>
      Status ← IfFailRet (createDelegate cfg host className method slot);
      bind_operations cfg host rest Status
  end.

Definition is_invoke (e : Event) : bool :=
  match e with
  | EvInvoke _ _ _ => true
  | _ => false
  end.

(** The directory of the extension's own module; [None] where the
    body returns [E_FAIL]. *)
Definition sos_module_directory (cfg : Config) (host : Host) : option string :=
  if FEATURE_PAL (os cfg) then PAL_GetPALDirectoryA host
  else
    match GetModuleFileNameA_sos host with
    | None => None
    | Some sosModuleDirectory =>
        match Str.rfind (DIRECTORY_SEPARATOR_CHAR_A cfg) sosModuleDirectory with
        | None => None
        | Some lastSlash => Some (Str.take lastSlash sosModuleDirectory)
        end
    end.

Definition InitializeHosting_body (cfg : Config) (host : Host) : M HRESULT :=
  s ← get;
  if g_hostingInitialized s then return_ S_OK else
  '(coreClrPath, hostRuntimeDirectory) ← GetHostRuntime cfg host;
  match sos_module_directory cfg host with
  | None => return_ E_FAIL
  | Some sosModuleDirectory =>
  let coreclrLib := LoadLibraryA host coreClrPath in
  emit (EvLoadLibrary coreClrPath coreclrLib);;
  if negb coreclrLib then return_ E_FAIL else
  let initializeCoreCLR := GetProcAddress host "coreclr_initialize" in
  emit (EvGetProcAddress "coreclr_initialize" initializeCoreCLR);;
  let createDelegate_found := GetProcAddress host "coreclr_create_delegate" in
  emit (EvGetProcAddress "coreclr_create_delegate" createDelegate_found);;
  if negb initializeCoreCLR || negb createDelegate_found then return_ E_FAIL else
  let tpaList := EmptyString in
  let tpaList := AddFilesFromDirectoryToTpaList cfg host sosModuleDirectory tpaList in
  let tpaList := AddFilesFromDirectoryToTpaList cfg host hostRuntimeDirectory tpaList in
  let appPaths :=
    sosModuleDirectory +:+ TPALIST_SEPARATOR_STR_A cfg +:+ hostRuntimeDirectory in
  let properties :=
    [ ("TRUSTED_PLATFORM_ASSEMBLIES", tpaList);
      ("APP_PATHS", appPaths);
      ("APP_NI_PATHS", hostRuntimeDirectory);
      ("NATIVE_DLL_SEARCH_DIRECTORIES", appPaths);
      ("AppDomainCompatSwitch", "UseLatestBehaviorWhenTFMNotSpecified") ] in
  match GetEntrypointExecutableAbsolutePath cfg host with
  | None => return_ E_FAIL
  | Some entryPointExecutablePath =>
  let Status := coreclr_initialize host entryPointExecutablePath "sos" properties in
  emit (EvInitializeCoreCLR entryPointExecutablePath "sos" properties Status);;
  if FAILED Status then return_ Status else
  Status ← bind_operations cfg host (bound_operations cfg) Status;
  modify (set_hostingInitialized true);;
  mret Status
  end
  end.

Definition InitializeHosting (cfg : Config) (host : Host)
    : State -> HRESULT * State :=
  run (InitializeHosting_body cfg host).

(** *** The symbol store *)

(** [InitializeSymbolStore(logging, msdl, symweb, symbolServer,
    cacheDirectory)] *)
Definition InitializeSymbolStore (cfg : Config) (host : Host)
    (logging msdl symweb : bool) (symbolServer cacheDirectory : option string)
    : State -> HRESULT * State :=
  run (
    IfFailRet (call (InitializeHosting cfg host));;
    s ← get;
    let address := g_SOSNetCoreCallbacks s InitializeSymbolStoreDelegate in
    emit (EvInvoke InitializeSymbolStoreDelegate address
            (CallInitializeSymbolStore logging msdl symweb
               symbolServer cacheDirectory None));;
    if negb (managed_InitializeSymbolStore host address logging msdl symweb
               symbolServer cacheDirectory None)
    then return_ E_FAIL
    else modify (set_symbolStoreInitialized true);; mret S_OK).

(** What the [.sympath] variant does once it has set the flag. *)
Definition parse_symbol_path (host : Host) (s : State) : State :=
  let '(hr, symbolPath) := ExtSymbols_GetSymbolPath host in
  if SUCCEEDED hr then
    if 0 <? Str.strlen symbolPath then
      let address := g_SOSNetCoreCallbacks s InitializeSymbolStoreDelegate in
      let s :=
        log (EvInvoke InitializeSymbolStoreDelegate address
               (CallInitializeSymbolStore false false false
                  None None (Some symbolPath))) s in
      if negb (managed_InitializeSymbolStore host address false false false
                 None None (Some symbolPath))
      then s (* only an error message is printed *)
      else s
    else s
  else s.

(** [InitializeSymbolStore()], the variant that reads [.sympath] *)
Definition InitializeSymbolStore_sympath (cfg : Config) (host : Host)
    (s : State) : State :=
  if FEATURE_PAL (os cfg) then s
  else if negb (g_symbolStoreInitialized s) then
    let s := set_symbolStoreInitialized true s in
    parse_symbol_path host s
  else s.

(** [DisableSymbolStore] *)
Definition DisableSymbolStore (s : State) : State :=
  if g_symbolStoreInitialized s then
    let s := set_symbolStoreInitialized false s in
    log (EvInvoke DisableSymbolStoreDelegate
           (g_SOSNetCoreCallbacks s DisableSymbolStoreDelegate)
           CallDisableSymbolStore) s
  else s.

(** *** Observations used to state the properties *)

(** One initialization of the symbol store, of either variant, as a
    later caller may issue it. *)
Inductive StoreInitialization :=
| FromSympath (host : Host)
| FromArguments (host : Host) (logging msdl symweb : bool)
    (symbolServer cacheDirectory : option string).

Definition initialize_store (cfg : Config) (s : State)
    (init : StoreInitialization) : State :=
  match init with
  | FromSympath host => InitializeSymbolStore_sympath cfg host s
  | FromArguments host logging msdl symweb symbolServer cacheDirectory =>
      snd (InitializeSymbolStore cfg host logging msdl symweb
             symbolServer cacheDirectory s)
  end.

Definition from_arguments (init : StoreInitialization) : bool :=
  match init with
  | FromSympath _ => false
  | FromArguments _ _ _ _ _ _ => true
  end.

(** The event one [createDelegate] statement leaves, and whether the
    hosted runtime bound the operation. *)
Definition create_delegate_event (cfg : Config) (host : Host)
    (op : string * string * Slot) : Event :=
  let '(className, method, _) := op in
  EvCreateDelegate (SOSManagedDllName cfg) className method
    (fst (coreclr_create_delegate host (SOSManagedDllName cfg) className method)).

Definition operation_binds (cfg : Config) (host : Host)
    (op : string * string * Slot) : bool :=
  let '(className, method, _) := op in
  negb (FAILED (fst (coreclr_create_delegate host (SOSManagedDllName cfg)
                       className method))).

(** From [s] to [s'] nothing changed but the bound operations and the
    trace. *)
Definition same_settings (s s' : State) : Prop :=
  g_hostingInitialized s' = g_hostingInitialized s
  /\ g_symbolStoreInitialized s' = g_symbolStoreInitialized s
  /\ g_hostRuntimeDirectory s' = g_hostRuntimeDirectory s
  /\ g_dacFilePath s' = g_dacFilePath s
  /\ g_dbiFilePath s' = g_dbiFilePath s
  /\ g_tmpPath s' = g_tmpPath s.

(** The trace of [s'] is that of [s] followed by [events]. *)
Definition extends_trace (s s' : State) (events : list Event) : Prop :=
  trace s' = trace s ++ events.

(** What [GetHostRuntime] leaves as it was. *)
Definition only_directory_cached (s s1 : State) : Prop :=
  g_hostingInitialized s1 = g_hostingInitialized s
  /\ g_symbolStoreInitialized s1 = g_symbolStoreInitialized s
  /\ g_dacFilePath s1 = g_dacFilePath s
  /\ g_dbiFilePath s1 = g_dbiFilePath s
  /\ g_tmpPath s1 = g_tmpPath s
  /\ g_SOSNetCoreCallbacks s1 = g_SOSNetCoreCallbacks s
  /\ trace s1 = trace s.

(** The events of a bootstrap that ran to its end. *)
Definition bootstrap_events (cfg : Config) (host : Host) (coreClrPath exe : string)
    (properties : list (string * string)) (hr0 : HRESULT) : list Event :=
  [ EvLoadLibrary coreClrPath true;
    EvGetProcAddress "coreclr_initialize" true;
    EvGetProcAddress "coreclr_create_delegate" true;
    EvInitializeCoreCLR exe "sos" properties hr0 ]
  ++ map (create_delegate_event cfg host) (bound_operations cfg).

(** Between [s] and [s'] the runtime was loaded, both entry points were
    found, the runtime started and every operation was bound, in that
    order and with nothing else logged. *)
Definition bootstrap_succeeded (cfg : Config) (host : Host) (s s' : State) : Prop :=
  exists coreClrPath exe properties,
    LoadLibraryA host coreClrPath = true
    /\ GetProcAddress host "coreclr_initialize" = true
    /\ GetProcAddress host "coreclr_create_delegate" = true
    /\ FAILED (coreclr_initialize host exe "sos" properties) = false
    /\ forallb (operation_binds cfg host) (bound_operations cfg) = true
    /\ trace s' = trace s ++ bootstrap_events cfg host coreClrPath exe properties
                              (coreclr_initialize host exe "sos" properties).

(** In state [s] the host would let every step of the bootstrap succeed. *)
Definition every_step_succeeds (cfg : Config) (host : Host) (s : State) : Prop :=
  (exists v s1, GetHostRuntime cfg host s = (Value v, s1)
                /\ LoadLibraryA host (fst v) = true)
  /\ sos_module_directory cfg host <> None
  /\ GetProcAddress host "coreclr_initialize" = true
  /\ GetProcAddress host "coreclr_create_delegate" = true
  /\ GetEntrypointExecutableAbsolutePath cfg host <> None
  /\ (forall exe properties,
        FAILED (coreclr_initialize host exe "sos" properties) = false)
  /\ forallb (operation_binds cfg host) (bound_operations cfg) = true.

(** The [DeleteFileA] calls [SOSShutdown] makes for the scratch
    directory [tmpPath]. *)
Definition scratch_deletions (cfg : Config) (host : Host) (tmpPath : string)
    : list Event :=
  map (fun data => EvDeleteFile (tmpPath +:+ cFileName data))
      (List.filter (fun data => negb (isDirectory data))
         (FindFiles (DIRECTORY_SEPARATOR_CHAR_A cfg) (fs host) (tmpPath +:+ "*"))).

Definition is_remove_directory (e : Event) : bool :=
  match e with
  | EvRemoveDirectory _ => true
  | _ => false
  end.

(** How many times a directory was removed. *)
Definition removals (events : list Event) : nat :=
  length (List.filter is_remove_directory events).

(** *** [SOSShutdown] on two threads

    An invocation has not started, or has exchanged the pointer out and
    holds what it got, or has finished. *)
Inductive Progress :=
| NotStarted
| Exchanged (tmpPath : option string)
| Finished.

Definition shutdown_step (cfg : Config) (host : Host) (p : Progress) (s : State)
    : Progress * State :=
  match p with
  | NotStarted =>
      let '(tmpPath, s) := InterlockedExchange_tmpPath None s in
      (Exchanged tmpPath, s)
  | Exchanged tmpPath => (Finished, remove_scratch cfg host tmpPath s)
  | Finished => (Finished, s)
  end.

(** A schedule names, step by step, the invocation that moves:
    [true] the first, [false] the second. *)
Fixpoint interleave (cfg : Config) (host : Host) (schedule : list bool)
    (a b : Progress) (s : State) : Progress * Progress * State :=
  match schedule with
  | [] => (a, b, s)
  | true :: rest =>
      let '(a, s) := shutdown_step cfg host a s in
      interleave cfg host rest a b s
  | false :: rest =>
      let '(b, s) := shutdown_step cfg host b s in
      interleave cfg host rest a b s
  end.

(** A removal an invocation still owes, and one the pointer still
    stands for. *)
Definition owed (p : Progress) : nat :=
  match p with
  | Exchanged (Some _) => 1
  | _ => 0
  end.

Definition standing (s : State) : nat :=
  match g_tmpPath s with
  | Some _ => 1
  | None => 0
  end.

(** A subdirectory whose name [sscanf_s] reads as the three [int]s
    [major], [minor] and [revision]. *)
Definition version_directory (host : Host) (major minor : Z)
    (data : WIN32_FIND_DATAA) (revision : Z) : Prop :=
  isDirectory data = true
  /\ sscanf_s_version host (cFileName data) = Some (major, minor, revision).

(** [name] is a version directory of [entries] for [major.minor] whose
    revision is not negative and is the highest among them. *)
Definition highest_revision_match (host : Host) (major minor : Z)
    (entries : list WIN32_FIND_DATAA) (name : string) : Prop :=
  exists data revision,
    In data entries /\ version_directory host major minor data revision
    /\ 0 <= revision /\ cFileName data = name
    /\ forall data' revision',
         In data' entries -> version_directory host major minor data' revision' ->
         revision' <= revision.

(** No version directory of [entries] for [major.minor] has a revision
    that is not negative. *)
Definition no_match (host : Host) (major minor : Z)
    (entries : list WIN32_FIND_DATAA) : Prop :=
  forall data revision,
    In data entries -> version_directory host major minor data revision ->
    revision < 0.

(** The name [add_found_file] looks up: the file name less the
    extension of the pass. *)
Definition logical_name (extLength : Z) (filename : string) : string :=
  Str.take (Z.to_nat (size_t_of (Str.strlen filename - extLength))) filename.

(** [add_found_file] with the files listed kept apart: file name and
    logical name of each entry appended, in order. *)
Definition note_found_file (extLength : Z)
    (acc : gset string * list (string * string)) (data : WIN32_FIND_DATAA)
    : gset string * list (string * string) :=
  let '(addedAssemblies, listed) := acc in
  if negb (isDirectory data) then
    let filename := cFileName data in
    let filenameWithoutExt := logical_name extLength filename in
    if bool_decide (filenameWithoutExt ∉ addedAssemblies) then
      ({[ filenameWithoutExt ]} ∪ addedAssemblies,
       listed ++ [(filename, filenameWithoutExt)])
    else acc
  else acc.

Definition note_extension (cfg : Config) (host : Host) (directory : string)
    (acc : gset string * list (string * string)) (ext : string)
    : gset string * list (string * string) :=
  let extLength := size_t_of (Str.strlen ext - 1) in
  let assemblyPath := directory +:+ DIRECTORY_SEPARATOR_STR_A cfg +:+ ext in
  fold_left (note_found_file extLength)
    (FindFiles (DIRECTORY_SEPARATOR_CHAR_A cfg) (fs host) assemblyPath) acc.

(** The files one call of [AddFilesFromDirectoryToTpaList] appends. *)
Definition listed_files (cfg : Config) (host : Host) (directory : string)
    : list (string * string) :=
  snd (fold_left (note_extension cfg host directory) tpaExtensions
         ({[ SOSManagedDllName cfg ]}, [])).

(** The names of the files one call writes to the list, in order. *)
Definition written_files (cfg : Config) (host : Host) (directory : string)
    : list string :=
  map fst (listed_files cfg host directory).





End Hosting.

(** ** The debugger engine as [datatarget.cpp] sees it *)
Module DbgEng.

(** Every service acts on the engine's own state, of type [E]. *)
Record IDebugSystemObjects (E : Type) := {
  GetCurrentThreadId : E -> HRESULT * Z * E;
  GetThreadIdBySystemId : Z -> E -> HRESULT * Z * E;
  SetCurrentThreadId : Z -> E -> HRESULT * E;
  GetCurrentThreadSystemId : E -> HRESULT * Z * E
}.

Record IDebugAdvanced (E : Type) := {
  GetThreadContext : list Z -> Z -> E -> HRESULT * list Z * E
}.

Record IDebugDataSpaces (E : Type) := {
  (** result code, buffer contents, bytes done *)
  ReadVirtual : Z -> list Z -> Z -> E -> HRESULT * list Z * Z * E;
  WriteVirtual : Z -> list Z -> Z -> E -> HRESULT * Z * E
}.

Record ILLDBServices (E : Type) := {
  GetThreadContextById : Z -> Z -> Z -> list Z -> E -> HRESULT * list Z * E
}.

(** The extension's global interface pointers. *)
Record Globals (E : Type) := {
  g_ExtData : option (IDebugDataSpaces E);
  g_ExtSystem : option (IDebugSystemObjects E);
  g_ExtAdvanced : option (IDebugAdvanced E);
  g_ExtServices : option (ILLDBServices E);
  (** [g_sos], the runtime's data-access interface *)
  g_sos : option unit;
  (** the metadata regions [IsMetadataMemory] consults, as
      [(start, end)] with [end] excluded *)
  metadataRegions : list (Z * Z)
}.

Arguments GetCurrentThreadId {E}.
Arguments GetThreadIdBySystemId {E}.
Arguments SetCurrentThreadId {E}.
Arguments GetCurrentThreadSystemId {E}.
Arguments GetThreadContext {E}.
Arguments ReadVirtual {E}.
Arguments WriteVirtual {E}.
Arguments GetThreadContextById {E}.
Arguments g_ExtData {E}.
Arguments g_ExtSystem {E}.
Arguments g_ExtAdvanced {E}.
Arguments g_ExtServices {E}.
Arguments g_sos {E}.
Arguments metadataRegions {E}.

End DbgEng.

(** ** [datatarget.cpp] *)
Module DataTarget.

Import DbgEng.

(** Modelled from the spec: [IsMetadataMemory] is defined outside these
    two files; the spec describes it as telling whether a read
    overlaps a known per-module metadata range. *)
Definition IsMetadataMemory (regions : list (Z * Z)) (address size : Z) : bool :=
  existsb (fun r => Z.max (fst r) address <? Z.min (snd r) (address + size))
          regions.

(** [DataTarget::ReadVirtual]: result code, buffer, [*done] *)
Definition ReadVirtual {E} (FEATURE_PAL : bool) (g : Globals E)
    (address : Z) (buffer : list Z) (request : Z) (done0 : Z) (e : E)
    : HRESULT * list Z * Z * E :=
  match g_ExtData g with
  | None => (E_UNEXPECTED, buffer, done0, e)
  | Some ExtData =>
      if FEATURE_PAL && bool_decide (g_sos g ≠ None)
         && IsMetadataMemory (metadataRegions g) address request
      then (E_ACCESSDENIED, buffer, done0, e)
      else DbgEng.ReadVirtual ExtData address buffer request e
  end.

(** [DataTarget::WriteVirtual] *)
Definition WriteVirtual {E} (g : Globals E)
    (address : Z) (buffer : list Z) (request : Z) (done0 : Z) (e : E)
    : HRESULT * Z * E :=
  match g_ExtData g with
  | None => (E_UNEXPECTED, done0, e)
  | Some ExtData => DbgEng.WriteVirtual ExtData address buffer request e
  end.

(** [DataTarget::GetCurrentThreadID] *)
Definition GetCurrentThreadID {E} (g : Globals E) (threadID0 : Z) (e : E)
    : HRESULT * Z * E :=
  match g_ExtSystem g with
  | None => (E_UNEXPECTED, threadID0, e)
  | Some ExtSystem => GetCurrentThreadSystemId ExtSystem e
  end.

(** A 32-bit store, least significant byte first; the bytes of a
    store past the end of the buffer are not modelled. *)
Definition store32 (offset : nat) (v : Z) (buffer : list Z) : list Z :=
  <[(offset + 3)%nat := Z.land (Z.shiftr v 24) 255]>
    (<[(offset + 2)%nat := Z.land (Z.shiftr v 16) 255]>
       (<[(offset + 1)%nat := Z.land (Z.shiftr v 8) 255]>
          (<[offset := Z.land v 255]> buffer))).

(** [ZeroMemory(context, contextSize)] and the store to the
    [ContextFlags] field of the [CONTEXT] at [context]; the offset of
    that field comes with the target architecture. *)
Definition prepare_context (ContextFlags_offset : nat)
    (contextFlags contextSize : Z) (context : list Z) : list Z :=
  let n := Z.to_nat (ULONG32_of contextSize) in
  store32 ContextFlags_offset (ULONG32_of contextFlags)
    (replicate (Nat.min n (length context)) 0 ++ drop n context).

(** [DataTarget::GetThreadContext] *)
Definition GetThreadContext {E} (FEATURE_PAL : bool)
    (ContextFlags_offset : nat) (g : Globals E)
    (threadID contextFlags contextSize : Z) (context : list Z) (e : E)
    : HRESULT * list Z * E :=
  if FEATURE_PAL then
    match g_ExtServices g with
    | None => (E_UNEXPECTED, context, e)
    | Some ExtServices =>
        GetThreadContextById ExtServices threadID contextFlags contextSize context e
    end
  else
    match g_ExtSystem g, g_ExtAdvanced g with
    | Some ExtSystem, Some ExtAdvanced =>
        let '(hr, ulThreadIDOrig, e) := GetCurrentThreadId ExtSystem e in
        if FAILED hr then (hr, context, e) else
        let '(hr, ulThreadIDRequested, e) :=
          GetThreadIdBySystemId ExtSystem threadID e in
        if FAILED hr then (hr, context, e) else
        let '(hr, e) := SetCurrentThreadId ExtSystem ulThreadIDRequested e in
        if FAILED hr then (hr, context, e) else
        let context :=
          prepare_context ContextFlags_offset contextFlags contextSize context in
        let '(hr, context, e) :=
          DbgEng.GetThreadContext ExtAdvanced context contextSize e in
        let '(_, e) := SetCurrentThreadId ExtSystem ulThreadIDOrig e in
        (hr, context, e)
    | _, _ => (E_UNEXPECTED, context, e)
    end.

(** [DataTarget::GetMetadata]: result code, buffer, [*dataSize] *)
Definition GetMetadata (cfg : Config) (host : Hosting.Host)
    (request : Hosting.MetadataRequest) (buffer0 : list Z) (dataSize0 : Z)
    (s : Hosting.State) : HRESULT * list Z * Z * Hosting.State :=
  let '(hr, s) := Hosting.InitializeHosting cfg host s in
  if FAILED hr then (hr, buffer0, dataSize0, s) else
  let s := Hosting.InitializeSymbolStore_sympath cfg host s in
  let address := Hosting.g_SOSNetCoreCallbacks s Hosting.GetMetadataLocatorDelegate in
  let s :=
    Hosting.log (Hosting.EvInvoke Hosting.GetMetadataLocatorDelegate address
                   (Hosting.CallGetMetadataLocator request)) s in
  let '(hr, buffer, dataSize) :=
    Hosting.managed_GetMetadataLocator host address request in
  (hr, buffer, dataSize, s).

End DataTarget.

(** ** Data for the worked examples *)
Module Fixtures.

Import SymbolReader.

Definition doc (url : string) : ISymUnmanagedDocument :=
  {| GetURL := fun _ => (S_OK, Str.strlen url + 1, url);
     FindClosestLine := fun line => (S_OK, line) |}.

Definition point (offset line : Z) : SequencePoint :=
  {| sp_offset := offset; sp_document := doc "a.cs"; sp_line := line;
     sp_column := 0; sp_endline := line; sp_endcolumn := 0 |}.

(** offsets [0,5,10], lines [1,HIDDEN,3] *)
Definition table : list SequencePoint :=
  [point 0 1; point 5 HiddenLine; point 10 3].

Definition method_a : ISymUnmanagedMethod :=
  {| GetSequencePointCount := (S_OK, 3);
     GetSequencePoints := fun _ => (S_OK, table);
     GetToken := (S_OK, 0x06000001);
     GetOffset := fun _ _ _ => (S_OK, 0) |}.

Definition reader_a : ISymUnmanagedReader :=
  {| GetMethod := fun _ => (S_OK, method_a);
     GetDocuments := fun _ => (S_OK, 1, [doc "a.cs"]);
     GetMethodFromDocumentPosition := fun _ _ _ => (S_OK, method_a) |}.

Definition legacy_session : SymbolReader.t :=
  {| m_symbolReaderHandle := 0; m_pSymReader := Some reader_a |}.

Definition unbound_ops : PortableOps :=
  {| SysAllocStringLen_ok := true;
     GetLineByILOffsetDelegate := fun _ _ _ => (false, 0, EmptyString);
     WideCharToMultiByte := fun s => Some s;
     ResolveSequencePointDelegate := fun _ _ _ => (false, 0, 0) |}.

Import Hosting.

Definition cfg_linux : Config :=
  {| os := Linux;
     SOSManagedDllName := "SOS.NETCore";
     SymbolReaderClassName := "SOS.SymbolReader";
     MetadataHelperClassName := "SOS.MetadataHelper";
     MAIN_CLR_DLL_NAME_A := "libcoreclr.so";
     MAIN_CLR_MODULE_NAME_A := "libcoreclr.so" |}.

Definition cfg_windows : Config :=
  {| os := Windows;
     SOSManagedDllName := "SOS.NETCore";
     SymbolReaderClassName := "SOS.SymbolReader";
     MetadataHelperClassName := "SOS.MetadataHelper";
     MAIN_CLR_DLL_NAME_A := "coreclr.dll";
     MAIN_CLR_MODULE_NAME_A := "coreclr" |}.

Definition file_entry (name : string) : WIN32_FIND_DATAA :=
  {| cFileName := name; isDirectory := false |}.
Definition dir_entry (name : string) : WIN32_FIND_DATAA :=
  {| cFileName := name; isDirectory := true |}.

(** A Linux machine: three runtime lines installed, the extension in
    [/opt/sos], a scratch directory left by process 4242. *)
Definition disk : Listing := fun directory =>
  if String.eqb directory "/usr/share/dotnet/shared/Microsoft.NETCore.App/" then
    [ dir_entry "."; dir_entry ".."; dir_entry "2.1.5"; dir_entry "2.1.11";
      file_entry "2.1.99"; dir_entry "2.2.0"; dir_entry "3.0.0" ]
  else if String.eqb directory "/usr/share/dotnet/shared/Microsoft.NETCore.App/2.1.11/" then
    [ file_entry "System.Private.CoreLib.dll";
      file_entry "System.Private.CoreLib.ni.dll";
      file_entry "System.Collections.Immutable.ni.dll";
      file_entry "System.Reflection.Metadata.dll";
      file_entry "SOS.NETCore.dll";
      file_entry "libcoreclr.so" ]
  else if String.eqb directory "/opt/sos/" then
    [ file_entry "SOS.NETCore.dll";
      file_entry "System.Reflection.Metadata.dll";
      file_entry "System.Collections.Immutable.dll";
      dir_entry "x64" ]
  else if String.eqb directory "/tmp/sos4242/" then
    [ dir_entry "."; file_entry "libmscordaccore.so"; file_entry "a.pdb" ]
  else [].

(** A host over [disk]; the parameters choose what may go wrong. *)
Definition make_host (library_loads : bool) (binding : string -> HRESULT)
    (symbol_path : HRESULT * string) (store_initializes : bool) : Host :=
  {| fs := disk;
     access_F_OK := fun path =>
       String.eqb path "/usr/share/dotnet/shared/Microsoft.NETCore.App";
     realpath := fun path => Some path;
     GetEnvironmentVariableA := fun _ => Some "C:\Program Files";
     GetTempPathA := Some "/tmp/";
     GetCurrentProcessId := 4242;
     GetLastError := 2;
     sscanf_s_out_of_range := fun v => Z.max (- 2 ^ 63) (Z.min v (2 ^ 63 - 1));
     GetFileAttributesA_valid := fun _ => true;
     GetModuleFileName_exe := Some "C:\dbg\windbg.exe";
     NSGetExecutablePath := Some "/usr/bin/lldb";
     sysctl_proc_pathname := Some "/usr/bin/lldb";
     PAL_GetPALDirectoryA := Some "/opt/sos";
     GetModuleFileNameA_sos := Some "C:\sos\sos.dll";
     ExtServices_GetCoreClrDirectory := Some "/app/runtime";
     ExtSymbols_GetModuleByModuleName := fun _ => (S_OK, 3);
     ExtSymbols_GetModuleNames := fun _ => (S_OK, "C:\app\coreclr.dll");
     ExtSymbols_GetSymbolPath := symbol_path;
     LoadLibraryA := fun _ => library_loads;
     GetProcAddress := fun _ => true;
     coreclr_initialize := fun _ _ _ => S_OK;
     coreclr_create_delegate := fun _ _ method => (binding method, 0x7f0000001000);
     managed_InitializeSymbolStore := fun _ _ _ _ _ _ _ => store_initializes;
     managed_GetMetadataLocator := fun _ request => (S_OK, [0x42; 0x53; 0x4a; 0x42], 4) |}.

Definition healthy_host : Host :=
  make_host true (fun _ => S_OK) (S_OK, "srv*https://msdl.microsoft.com") true.

(** The runtime library cannot be loaded. *)
Definition host_without_runtime : Host :=
  make_host false (fun _ => S_OK) (S_OK, EmptyString) true.

(** The process before any call. *)
Definition initial_state : State :=
  {| g_hostingInitialized := false;
     g_symbolStoreInitialized := false;
     g_hostRuntimeDirectory := None;
     g_dacFilePath := None;
     g_dbiFilePath := None;
     g_tmpPath := None;
     g_SOSNetCoreCallbacks := fun _ => 0;
     trace := [] |}.

Definition a_request : MetadataRequest :=
  {| imagePath := "/app/App.dll"; imageTimestamp := 0x5c000000;
     imageSize := 0x8000; mvid := 0; mdRva := 0x2050; flags := 0;
     bufferSize := 4 |}.

(** A small debugger engine: a current thread, the threads it knows as
    (engine id, system id), and whether register contexts can be read. *)
Record engine := {
  current_thread : Z;
  known_threads : list (Z * Z);
  registers_readable : bool
}.

Definition select_thread (id : Z) (e : engine) : engine :=
  {| current_thread := id;
     known_threads := known_threads e;
     registers_readable := registers_readable e |}.

Definition sim_system : DbgEng.IDebugSystemObjects engine :=
  {| DbgEng.GetCurrentThreadId := fun e => (S_OK, current_thread e, e);
     DbgEng.GetThreadIdBySystemId := fun systemId e =>
       match List.find (fun t => snd t =? systemId) (known_threads e) with
       | Some t => (S_OK, fst t, e)
       | None => (E_INVALIDARG, 0, e)
       end;
     DbgEng.SetCurrentThreadId := fun id e =>
       if existsb (fun t => fst t =? id) (known_threads e)
       then (S_OK, select_thread id e) else (E_INVALIDARG, e);
     DbgEng.GetCurrentThreadSystemId := fun e =>
       match List.find (fun t => fst t =? current_thread e) (known_threads e) with
       | Some t => (S_OK, snd t, e)
       | None => (E_UNEXPECTED, 0, e)
       end |}.

Definition sim_advanced : DbgEng.IDebugAdvanced engine :=
  {| DbgEng.GetThreadContext := fun context _ e =>
       if registers_readable e then (S_OK, context, e) else (E_FAIL, context, e) |}.

(** Memory reads answer zeros, as a core-dump reader does for pages
    the dump does not hold. *)
Definition sim_data : DbgEng.IDebugDataSpaces engine :=
  {| DbgEng.ReadVirtual := fun _ _ request e =>
       (S_OK, replicate (Z.to_nat request) 0, request, e);
     DbgEng.WriteVirtual := fun _ _ request e => (S_OK, request, e) |}.

Definition sim_services : DbgEng.ILLDBServices engine :=
  {| DbgEng.GetThreadContextById := fun _ _ _ context e => (S_OK, context, e) |}.

Definition sim_globals (data : bool) (sos : option unit) : DbgEng.Globals engine :=
  {| DbgEng.g_ExtData := if data then Some sim_data else None;
     DbgEng.g_ExtSystem := Some sim_system;
     DbgEng.g_ExtAdvanced := Some sim_advanced;
     DbgEng.g_ExtServices := Some sim_services;
     DbgEng.g_sos := sos;
     DbgEng.metadataRegions := [(0x7f0000000000, 0x7f0000010000)] |}.

(** Thread 0 is current; the context of no thread can be read. *)
Definition stopped_engine : engine :=
  {| current_thread := 0;
     known_threads := [(0, 4240); (1, 4241); (2, 4242)];
     registers_readable := false |}.

End Fixtures.

(** ** Readings of strings, buffers and documents used by the properties *)
Module Readings.

Import SymbolReader.

(** A string with every character case-folded as [_wcsicmp] folds it. *)
Fixpoint fold_case (s : string) : string :=
  match s with
  | EmptyString => EmptyString
  | String c s' => String (Str.towlower c) (fold_case s')
  end.

(** No character of the string is the terminator. *)
Fixpoint nul_free (s : string) : bool :=
  match s with
  | EmptyString => true
  | String c s' => negb (Ascii.eqb c zero) && nul_free s'
  end.

(** A 32-bit load, least significant byte first. *)
Definition load32 (offset : nat) (buffer : list Z) : Z :=
  default 0 (buffer !! offset)
  + 2 ^ 8 * default 0 (buffer !! (offset + 1)%nat)
  + 2 ^ 16 * default 0 (buffer !! (offset + 2)%nat)
  + 2 ^ 24 * default 0 (buffer !! (offset + 3)%nat).

(** The decimal numeral with the digits [ds], most significant first,
    and the number it denotes. *)
Fixpoint numeral (ds : list nat) : string :=
  match ds with
  | [] => EmptyString
  | d :: rest => String (ascii_of_nat (48 + d)) (numeral rest)
  end.

Definition numeral_value (ds : list nat) : Z :=
  fold_left (fun acc d => 10 * acc + Z.of_nat d) ds 0.

(** A numeral of at least one digit whose number fits an [int]. *)
Definition int_numeral (ds : list nat) : Prop :=
  ds <> [] /\ Forall (fun d => (d < 10)%nat) ds /\ numeral_value ds < 2 ^ 31.

(** The text does not go on with a digit. *)
Definition no_digit_ahead (s : string) : bool :=
  match s with
  | String c _ =>
      match Hosting.digit_value c with
      | Some _ => false
      | None => true
      end
  | EmptyString => true
  end.

(** The document loop of [ResolveSequencePoint] passes over a document
    when both [GetURL] calls succeed and the name does not match or
    [FindClosestLine] fails. *)
Definition passed_over (pFilename : string) (lineNumber : Z)
    (doc : ISymUnmanagedDocument) : Prop :=
  FAILED (fst (fst (GetURL doc 0))) = false
  /\ FAILED (fst (fst (GetURL doc (snd (fst (GetURL doc 0)))))) = false
  /\ (url_matches pFilename (snd (GetURL doc (snd (fst (GetURL doc 0)))))
        (snd (fst (GetURL doc 0))) = false
      \/ FAILED (fst (FindClosestLine doc lineNumber)) = true).

(** The loop ends at a document when both [GetURL] calls succeed, the
    name matches and [FindClosestLine] succeeds. *)
Definition decides (pFilename : string) (lineNumber : Z)
    (doc : ISymUnmanagedDocument) : Prop :=
  FAILED (fst (fst (GetURL doc 0))) = false
  /\ FAILED (fst (fst (GetURL doc (snd (fst (GetURL doc 0)))))) = false
  /\ url_matches pFilename (snd (GetURL doc (snd (fst (GetURL doc 0)))))
       (snd (fst (GetURL doc 0))) = true
  /\ FAILED (fst (FindClosestLine doc lineNumber)) = false.

End Readings.

(** ** [hostcoreclr.cpp]: native symbols, the DAC and DBI paths, and
    initialization by a managed host *)
Module NativeSymbols.

Import Hosting.

(** What these functions use of the outside beyond [Host]. *)
Record Services := {
  (** [MAKEDLLNAME_A], a macro of the platform headers *)
  MAKEDLLNAME_A : string -> string;
  (** [symlink(target, linkpath)] answered 0 *)
  symlink : string -> string -> bool;
  (** [g_ExtServices->QueryInterface(__uuidof(ILLDBServices2), ...)] *)
  QueryInterface_ILLDBServices2 : HRESULT;
  (** [ILLDBServices2::LoadNativeSymbols(runtimeOnly, callback)]: the
      result code and the modules it calls the callback for, each with
      [param], path, address and size *)
  services2_LoadNativeSymbols : bool -> HRESULT * list (Z * string * Z * Z);
  (** the base address [GetModuleByModuleName] stores *)
  ExtSymbols_module_base : string -> Z;
  (** [GetModuleParameters(1, &base, 0, &params)]: the code and
      [params.Size] *)
  ExtSymbols_GetModuleParameters : Z -> HRESULT * Z;
  (** the managed side of [LoadNativeSymbolsDelegate]: the calls it
      makes to the symbol-file callback, as (module file name, symbol
      file path) *)
  managed_LoadNativeSymbols :
    Z -> Z -> option string -> string -> Z -> Z -> list (string * string);
  (** [memcpy_s(&g_SOSNetCoreCallbacks, sizeof(g_SOSNetCoreCallbacks),
      callbacks, callbacksSize)]: what it returns and the table after *)
  memcpy_s : SOSNetCoreCallbacks -> SOSNetCoreCallbacks -> Z
             -> Z * SOSNetCoreCallbacks
}.

(** Actions on the outside world these functions add to those of
    [Event]. *)
Inductive Effect :=
| EfSymlink (target linkpath : string) (created : bool)
| EfAddModuleSymbol (param : Z) (symbolFilePath : string)
| EfLoadNativeSymbols (address param : Z) (tempDirectory : option string)
    (moduleFilePath : string) (moduleAddress moduleSize : Z)
| EfDisplaySymbolStore (address : Z).

(** The process: the file-scope variables with their trace, the
    effects above in the order they happened, and [GetExpression]. *)
Record Process := {
  hosting : State;
  effects : list Effect;
  GetExpression : Z
}.

Definition with_hosting (h : State) (p : Process) : Process :=
  {| hosting := h; effects := effects p; GetExpression := GetExpression p |}.

Definition effect (e : Effect) (p : Process) : Process :=
  {| hosting := hosting p; effects := effects p ++ [e];
     GetExpression := GetExpression p |}.

Definition set_GetExpression (address : Z) (p : Process) : Process :=
  {| hosting := hosting p; effects := effects p; GetExpression := address |}.

(** [SymbolFileCallback] *)
Definition SymbolFileCallback (cfg : Config) (sv : Services) (param : Z)
    (moduleFileName symbolFilePath : string) (p : Process) : Process :=
  if String.eqb moduleFileName (MAIN_CLR_DLL_NAME_A cfg) then p
  else if String.eqb moduleFileName (MAKEDLLNAME_A sv "mscordaccore") then
    match g_dacFilePath (hosting p) with
    | None => with_hosting (set_dacFilePath (Some symbolFilePath) (hosting p)) p
    | Some _ => p
    end
  else if String.eqb moduleFileName (MAKEDLLNAME_A sv "mscordbi") then
    match g_dbiFilePath (hosting p) with
    | None => with_hosting (set_dbiFilePath (Some symbolFilePath) (hosting p)) p
    | Some _ => p
    end
  else if FEATURE_PAL (os cfg) then
    let Status := QueryInterface_ILLDBServices2 sv in
    if SUCCEEDED Status then effect (EfAddModuleSymbol param symbolFilePath) p
    else p
  else p.

(** [LoadNativeSymbolsCallback]: the scratch directory is obtained for
    the argument list, the operation is called, and the operation
    calls [SymbolFileCallback] for the symbol files it found. *)
Definition LoadNativeSymbolsCallback (cfg : Config) (host : Host) (sv : Services)
    (param : Z) (moduleFilePath : string) (moduleAddress moduleSize : Z)
    (p : Process) : Process :=
  let '(tempDirectory, h) := GetTempDirectory cfg host (hosting p) in
  let p := with_hosting h p in
  let address := g_SOSNetCoreCallbacks (hosting p) LoadNativeSymbolsDelegate in
  let p :=
    effect (EfLoadNativeSymbols address param tempDirectory moduleFilePath
              moduleAddress moduleSize) p in
  fold_left
    (fun p found => SymbolFileCallback cfg sv param (fst found) (snd found) p)
    (managed_LoadNativeSymbols sv address param tempDirectory moduleFilePath
       moduleAddress moduleSize)
    p.

(** [LoadNativeSymbols]. Under dbgeng the block declares an [hr] of its
    own, so the [hr] returned stays [S_OK]. *)
Definition LoadNativeSymbols (cfg : Config) (host : Host) (sv : Services)
    (runtimeOnly : bool) (p : Process) : HRESULT * Process :=
  let hr := S_OK in
  if g_symbolStoreInitialized (hosting p) then
    if FEATURE_PAL (os cfg) then
      let hr := QueryInterface_ILLDBServices2 sv in
      if SUCCEEDED hr then
        let '(hr, modules) := services2_LoadNativeSymbols sv runtimeOnly in
        (hr,
         fold_left
           (fun p m =>
              let '(param, moduleFilePath, moduleAddress, moduleSize) := m in
              LoadNativeSymbolsCallback cfg host sv param moduleFilePath
                moduleAddress moduleSize p)
           modules p)
      else (hr, p)
    else if runtimeOnly then
      let '(hr', index) :=
        ExtSymbols_GetModuleByModuleName host (MAIN_CLR_MODULE_NAME_A cfg) in
      let moduleAddress := ExtSymbols_module_base sv (MAIN_CLR_MODULE_NAME_A cfg) in
      if SUCCEEDED hr' then
        let '(hr', moduleFilePath) := ExtSymbols_GetModuleNames host index in
        if SUCCEEDED hr' then
          let '(hr', moduleSize) := ExtSymbols_GetModuleParameters sv moduleAddress in
          if SUCCEEDED hr' then
            (hr, LoadNativeSymbolsCallback cfg host sv 0 moduleFilePath
                   moduleAddress moduleSize p)
          else (hr, p)
        else (hr, p)
      else (hr, p)
    else (hr, p)
  else (hr, p).

(** The [__linux__] block of [GetDacFilePath]: the path to store and
    the process after the link was attempted. *)
Definition link_into_scratch (cfg : Config) (host : Host) (sv : Services)
    (dacModulePath : string) (p : Process) : string * Process :=
  match os cfg with
  | Linux =>
      let '(tmpPath, h) := GetTempDirectory cfg host (hosting p) in
      let p := with_hosting h p in
      match tmpPath with
      | Some tmpPath =>
          let dacSymLink := tmpPath +:+ MAKEDLLNAME_A sv "mscordaccore" in
          let created := symlink sv dacModulePath dacSymLink in
          let p := effect (EfSymlink dacModulePath dacSymLink created) p in
          (if created then dacSymLink else dacModulePath, p)
      | None => (dacModulePath, p)
      end
  | _ => (dacModulePath, p)
  end.

(** [GetDacFilePath] *)
Definition GetDacFilePath (cfg : Config) (host : Host) (sv : Services)
    (p : Process) : option string * Process :=
  match g_dacFilePath (hosting p) with
  | None =>
      let '(hr, dacModulePath) := GetCoreClrDirectory cfg host EmptyString in
      let p :=
        if SUCCEEDED hr then
          let dacModulePath :=
            dacModulePath +:+ DIRECTORY_SEPARATOR_STR_A cfg
                          +:+ MAKEDLLNAME_A sv "mscordaccore" in
          if negb (FEATURE_PAL (os cfg)) || access_F_OK host dacModulePath then
            let '(dacModulePath, p) :=
              link_into_scratch cfg host sv dacModulePath p in
            with_hosting (set_dacFilePath (Some dacModulePath) (hosting p)) p
          else p
        else p in
      let p :=
        match g_dacFilePath (hosting p) with
        | None => snd (LoadNativeSymbols cfg host sv true p)
        | Some _ => p
        end in
      (g_dacFilePath (hosting p), p)
  | Some _ => (g_dacFilePath (hosting p), p)
  end.

(** [GetDbiFilePath] *)
Definition GetDbiFilePath (cfg : Config) (host : Host) (sv : Services)
    (p : Process) : option string * Process :=
  match g_dbiFilePath (hosting p) with
  | None =>
      let '(hr, dbiModulePath) := GetCoreClrDirectory cfg host EmptyString in
      let p :=
        if SUCCEEDED hr then
          let dbiModulePath :=
            dbiModulePath +:+ DIRECTORY_SEPARATOR_STR_A cfg
                          +:+ MAKEDLLNAME_A sv "mscordbi" in
          if negb (FEATURE_PAL (os cfg)) || access_F_OK host dbiModulePath then
            with_hosting (set_dbiFilePath (Some dbiModulePath) (hosting p)) p
          else p
        else p in
      let p :=
        match g_dbiFilePath (hosting p) with
        | None => snd (LoadNativeSymbols cfg host sv true p)
        | Some _ => p
        end in
      (g_dbiFilePath (hosting p), p)
  | Some _ => (g_dbiFilePath (hosting p), p)
  end.

(** The table a managed host passes in: the operations of
    [SOSNetCoreCallbacks] and [GetExpressionDelegate]. *)
Record HostCallbacks := {
  operations : SOSNetCoreCallbacks;
  GetExpressionDelegate : Z
}.

(** An argument that is stored when it is not null. *)
Definition store_if_given (given : option string) (current : option string)
    : option string :=
  match given with
  | Some value => Some value
  | None => current
  end.

(** [SOSInitializeByHost]; [callbacks] points to a table. *)
Definition SOSInitializeByHost (cfg : Config) (sv : Services)
    (callbacks : HostCallbacks) (callbacksSize : Z)
    (tempDirectory dacFilePath dbiFilePath : option string)
    (symbolStoreEnabled : bool) (p : Process) : HRESULT * Process :=
  let '(error, table) :=
    memcpy_s sv (g_SOSNetCoreCallbacks (hosting p)) (operations callbacks)
      callbacksSize in
  let p := with_hosting (set_callbacks table (hosting p)) p in
  if negb (error =? 0) then (E_INVALIDARG, p) else
  let h := hosting p in
  let h := set_tmpPath (store_if_given tempDirectory (g_tmpPath h)) h in
  let h := set_dacFilePath (store_if_given dacFilePath (g_dacFilePath h)) h in
  let h := set_dbiFilePath (store_if_given dbiFilePath (g_dbiFilePath h)) h in
  let p := with_hosting h p in
  let p :=
    if FEATURE_PAL (os cfg) then p
    else set_GetExpression (GetExpressionDelegate callbacks) p in
  let h := set_symbolStoreInitialized symbolStoreEnabled (hosting p) in
  let h := set_hostingInitialized true h in
  (S_OK, with_hosting h p).

(** [IsHostingInitialized] *)
Definition IsHostingInitialized (p : Process) : bool :=
  g_hostingInitialized (hosting p).

(** [DisplaySymbolStore] *)
Definition DisplaySymbolStore (p : Process) : Process :=
  if g_symbolStoreInitialized (hosting p) then
    effect (EfDisplaySymbolStore
              (g_SOSNetCoreCallbacks (hosting p) DisplaySymbolStoreDelegate)) p
  else p.

(** *** Observations *)

(** The first symbol file, if any, reported for the module named
    [name]. *)
Definition first_reported (name : string) (found : list (string * string))
    : option string :=
  snd <$> List.find (fun f => String.eqb (fst f) name) found.

(** Between [h] and [h'] only the DAC and DBI paths may differ. *)
Definition only_paths_differ (h h' : State) : Prop :=
  g_hostingInitialized h' = g_hostingInitialized h
  /\ g_symbolStoreInitialized h' = g_symbolStoreInitialized h
  /\ g_hostRuntimeDirectory h' = g_hostRuntimeDirectory h
  /\ g_tmpPath h' = g_tmpPath h
  /\ g_SOSNetCoreCallbacks h' = g_SOSNetCoreCallbacks h
  /\ trace h' = trace h.

(** A symbol file of a module other than the runtime, the DAC and the
    DBI: those are registered with the debugger. *)
Definition other_module (cfg : Config) (sv : Services) (f : string * string)
    : bool :=
  negb (String.eqb (fst f) (MAIN_CLR_DLL_NAME_A cfg))
  && negb (String.eqb (fst f) (MAKEDLLNAME_A sv "mscordaccore"))
  && negb (String.eqb (fst f) (MAKEDLLNAME_A sv "mscordbi")).

(** What is pinned stays pinned: the hosting and symbol-store flags and
    any DAC or DBI path already set. *)
Definition keeps_pinned (p p' : Process) : Prop :=
  g_hostingInitialized (hosting p') = g_hostingInitialized (hosting p)
  /\ g_symbolStoreInitialized (hosting p') = g_symbolStoreInitialized (hosting p)
  /\ (forall path, g_dacFilePath (hosting p) = Some path ->
                   g_dacFilePath (hosting p') = Some path)
  /\ (forall path, g_dbiFilePath (hosting p) = Some path ->
                   g_dbiFilePath (hosting p') = Some path).

End NativeSymbols.

(** ** [datatarget.cpp]: the object and its remaining methods *)
Module DataTargetObject.

Definition E_NOINTERFACE : HRESULT := HRESULT_of 0x80004002.

(** The interface identifiers [QueryInterface] compares with, and any
    other identifier. *)
Inductive IID :=
| IID_IUnknown
| IID_ICLRDataTarget
| IID_ICorDebugDataTarget4
| IID_ICLRMetadataLocator
| IID_other (guid : Z).

(** What [*Interface] receives: [this] as one of its interfaces. *)
Inductive InterfacePointer :=
| AsICLRDataTarget
| AsICorDebugDataTarget4
| AsICLRMetadataLocator.

(** The object: the [LONG m_ref], and whether [delete this] has run. *)
Record t := {
  m_ref : Z;
  destroyed : bool
}.

(** [DataTarget::DataTarget] *)
Definition DataTarget : t := {| m_ref := 0; destroyed := false |}.

(** [DataTarget::AddRef]: [InterlockedIncrement] is one atomic step. *)
Definition AddRef (this : t) : Z * t :=
  let ref := int_of (m_ref this + 1) in
  (ULONG32_of ref, {| m_ref := ref; destroyed := destroyed this |}).

(** [DataTarget::Release] *)
Definition Release (this : t) : Z * t :=
  let ref := int_of (m_ref this - 1) in
  (ULONG32_of ref,
   {| m_ref := ref; destroyed := if ref =? 0 then true else destroyed this |}).

(** [DataTarget::QueryInterface]: result code, [*Interface], the object *)
Definition QueryInterface (InterfaceId : IID) (this : t)
    : HRESULT * option InterfacePointer * t :=
  match InterfaceId with
  | IID_IUnknown | IID_ICLRDataTarget =>
      (S_OK, Some AsICLRDataTarget, snd (AddRef this))
  | IID_ICorDebugDataTarget4 =>
      (S_OK, Some AsICorDebugDataTarget4, snd (AddRef this))
  | IID_ICLRMetadataLocator =>
      (S_OK, Some AsICLRMetadataLocator, snd (AddRef this))
  | IID_other _ => (E_NOINTERFACE, None, this)
  end.

(** The debugger service [GetImageBase] uses beside those of
    [DbgEng.Globals]. *)
Record IDebugSymbols (E : Type) := {
  (** [GetModuleByModuleName(name, 0, NULL, base)] *)
  GetModuleByModuleName : string -> Z -> E -> HRESULT * Z * E
}.

Arguments GetModuleByModuleName {E}.

(** [DataTarget::GetImageBase]. [WideCharToMultiByte] answers the
    converted name, or [None] where it returns 0. *)
Definition GetImageBase {E} (FEATURE_PAL : bool)
    (g_ExtSymbols : option (IDebugSymbols E))
    (WideCharToMultiByte : string -> option string)
    (name : string) (base0 : Z) (e : E) : HRESULT * Z * E :=
  match g_ExtSymbols with
  | None => (E_UNEXPECTED, base0, e)
  | Some ExtSymbols =>
      match WideCharToMultiByte name with
      | None => (E_FAIL, base0, e)
      | Some lpstr =>
          let lpstr :=
            if FEATURE_PAL then lpstr
            else
              match Str.rfind "." lpstr with
              | Some lp => Str.take lp lpstr
              | None => lpstr
              end in
          GetModuleByModuleName ExtSymbols lpstr 0 e
      end
  end.

(** *** Release on several threads

    A thread that releases has not started, or has decremented and
    holds the count it got, or has finished. *)
Inductive Releasing :=
| Pending
| Decremented (ref : Z)
| Done.

(** One step of a releasing thread: the atomic decrement, then the
    test and the [delete]. *)
Definition release_step (r : Releasing) (this : t) : Releasing * t :=
  match r with
  | Pending =>
      let ref := int_of (m_ref this - 1) in
      (Decremented ref, {| m_ref := ref; destroyed := destroyed this |})
  | Decremented ref =>
      (Done,
       {| m_ref := m_ref this;
          destroyed := if ref =? 0 then true else destroyed this |})
  | Done => (Done, this)
  end.

(** How many times [delete this] has run, counted along a schedule
    that names the thread that moves at each step. *)
Fixpoint release_schedule (schedule : list nat) (threads : list Releasing)
    (this : t) (deletes : nat) : list Releasing * t * nat :=
  match schedule with
  | [] => (threads, this, deletes)
  | i :: rest =>
      match threads !! i with
      | Some r =>
          let '(r', this') := release_step r this in
          let deletes' :=
            match r with
            | Decremented ref => if ref =? 0 then S deletes else deletes
            | _ => deletes
            end in
          release_schedule rest (<[i := r']> threads) this' deletes'
      | None => release_schedule rest threads this deletes
      end
  end.

(** *** Observations on a schedule *)

Definition is_pending (r : Releasing) : bool :=
  match r with Pending => true | _ => false end.

Definition holds_zero (r : Releasing) : bool :=
  match r with Decremented ref => ref =? 0 | _ => false end.

Definition is_done (r : Releasing) : bool :=
  match r with Done => true | _ => false end.

Definition count (f : Releasing -> bool) (threads : list Releasing) : nat :=
  length (List.filter f threads).

(** What holds at every point of a schedule: the count is the number
    of threads yet to decrement; while there is one, nothing was
    destroyed and nobody holds a zero; once there is none, the thread
    that got zero has deleted or is about to, and no other. *)
Definition release_invariant (threads : list Releasing) (this : t)
    (deletes : nat) : Prop :=
  m_ref this = Z.of_nat (count is_pending threads)
  /\ Z.of_nat (length threads) < 2 ^ 31
  /\ destroyed this = bool_decide (deletes = 1%nat)
  /\ ((0 < count is_pending threads)%nat ->
      deletes = 0%nat /\ count holds_zero threads = 0%nat)
  /\ (count is_pending threads = 0%nat ->
      (deletes + count holds_zero threads = 1)%nat).

End DataTargetObject.

(** ** [hostcoreclr.cpp]: loading symbols and naming local variables *)
Module SymbolSession.

Import SymbolReader.

(** [ISymUnmanagedVariable] *)
Record ISymUnmanagedVariable := {
  GetAddressField1 : HRESULT * Z;
  (** [GetName cchName]: result code and the name copied *)
  GetName : Z -> HRESULT * string
}.

(** [ISymUnmanagedScope]: each of [GetLocals] and [GetChildren] is
    called for the count and then, with that count, for the items. *)
#[local] Unset Elimination Schemes.
Inductive ISymUnmanagedScope :=
| Scope (GetLocals_count : HRESULT * Z)
        (GetLocals : Z -> HRESULT * list ISymUnmanagedVariable)
        (GetChildren_count : HRESULT * Z)
        (GetChildren : Z -> HRESULT * list ISymUnmanagedScope).
#[local] Set Elimination Schemes.

(** [ICorDebugILFrame::GetLocalVariable]: result code and the value
    pointer, 0 for [NULL]. *)
Record ICorDebugILFrame := {
  GetLocalVariable : Z -> HRESULT * Z
}.

(** The loop over the locals of one scope: [Some] what the body
    returns, [None] when the loop runs to its end. [swprintf_s] and
    [GetName] are taken to write names that fit [paramNameLen]. *)
Fixpoint find_local (pILFrame : ICorDebugILFrame) (localIndex paramNameLen : Z)
    (pLocals : list ISymUnmanagedVariable) : option (HRESULT * string * Z) :=
  match pLocals with
  | [] => None
  | local :: rest =>
      let '(hr, varIndexInMethod) := GetAddressField1 local in
      if SUCCEEDED hr then
        if negb (ULONG32_of varIndexInMethod =? ULONG32_of localIndex)
        then find_local pILFrame localIndex paramNameLen rest
        else
          let '(hrName, name) := GetName local paramNameLen in
          let paramName :=
            if FAILED hrName then "local_" +:+ Hosting.decimal localIndex
            else name in
          let '(hrValue, value) := GetLocalVariable pILFrame varIndexInMethod in
          if SUCCEEDED hrValue && negb (value =? 0)
          then Some (S_OK, paramName, value)
          else Some (E_FAIL, paramName, 0)
      else find_local pILFrame localIndex paramNameLen rest
  end.

(** The [else] branch of the legacy path of [GetNamedLocalVariable]: a
    scope is searched, then its children in order, each with the whole
    of its subtree. [paramName0] and [value0] are [paramName] and
    [*ppValue] on entry. *)
Fixpoint search_scope (pILFrame : ICorDebugILFrame) (localIndex paramNameLen : Z)
    (pScope : ISymUnmanagedScope) (paramName0 : string) (value0 : Z)
    : HRESULT * string * Z :=
  match pScope with
  | Scope GetLocals_count GetLocals GetChildren_count GetChildren =>
      let '(Status, numVars) := GetLocals_count in
      if FAILED Status then (Status, paramName0, value0) else
      let '(Status, pLocals) := GetLocals numVars in
      if FAILED Status then (Status, paramName0, value0) else
      match find_local pILFrame localIndex paramNameLen pLocals with
      | Some answer => answer
      | None =>
          let '(Status, numChildren) := GetChildren_count in
          if FAILED Status then (Status, paramName0, value0) else
          let '(Status, pChildren) := GetChildren numChildren in
          if FAILED Status then (Status, paramName0, value0) else
          (fix search_children (children : list ISymUnmanagedScope)
               (paramName : string) (value : Z) : HRESULT * string * Z :=
             match children with
             | [] => (E_FAIL, paramName, value)
             | child :: rest =>
                 let '(hr, paramName, value) :=
                   search_scope pILFrame localIndex paramNameLen child
                     paramName value in
                 if SUCCEEDED hr then (S_OK, paramName, value)
                 else search_children rest paramName value
             end) pChildren paramName0 value0
      end
  end.

(** The loop over the children, as a function of its own. *)
Fixpoint search_children (pILFrame : ICorDebugILFrame)
    (localIndex paramNameLen : Z) (children : list ISymUnmanagedScope)
    (paramName : string) (value : Z) : HRESULT * string * Z :=
  match children with
  | [] => (E_FAIL, paramName, value)
  | child :: rest =>
      let '(hr, paramName, value) :=
        search_scope pILFrame localIndex paramNameLen child paramName value in
      if SUCCEEDED hr then (S_OK, paramName, value)
      else search_children pILFrame localIndex paramNameLen rest paramName value
  end.

(** What the session uses beside [PortableOps] and the reader. *)
Record LocalsOps := {
  (** [GetLocalVariableNameDelegate(handle, methodToken, localIndex,
      &wszParamName)] *)
  GetLocalVariableNameDelegate : Z -> Z -> Z -> bool * string;
  (** [ISymUnmanagedMethod::GetRootScope]; a success yields a scope *)
  GetRootScope : ISymUnmanagedMethod -> HRESULT * ISymUnmanagedScope
}.

(** [SymbolReader::GetNamedLocalVariable(pScope, pILFrame, methodToken,
    localIndex, paramName, paramNameLen, ppValue)]: result code,
    [paramName] and [*ppValue] after the call. The name [wcscpy_s]
    copies is taken to fit [paramNameLen]. *)
Definition GetNamedLocalVariable (FEATURE_PAL : bool) (ops : PortableOps)
    (lops : LocalsOps) (this : SymbolReader.t)
    (pScope : option ISymUnmanagedScope) (pILFrame : ICorDebugILFrame)
    (methodToken localIndex : Z) (paramName0 : string) (paramNameLen : Z)
    (value0 : Z) : HRESULT * string * Z :=
  if negb (m_symbolReaderHandle this =? 0) then
    if negb (SysAllocStringLen_ok ops) then (E_OUTOFMEMORY, paramName0, value0)
    else
      let '(ok, wszParamName) :=
        GetLocalVariableNameDelegate lops (m_symbolReaderHandle this)
          methodToken localIndex in
      if negb ok then (E_FAIL, paramName0, value0) else
      let '(hr, value) := GetLocalVariable pILFrame localIndex in
      if FAILED hr || (value =? 0) then (E_FAIL, wszParamName, 0)
      else (S_OK, wszParamName, value)
  else if FEATURE_PAL then (E_FAIL, paramName0, value0)
  else
    match m_pSymReader this with
    | None => (E_FAIL, paramName0, value0)
    | Some reader =>
        match pScope with
        | None =>
            let '(Status, pSymMethod) := GetMethod reader methodToken in
            if FAILED Status then (Status, paramName0, value0) else
            let '(Status, pScope) := GetRootScope lops pSymMethod in
            if FAILED Status then (Status, paramName0, value0) else
            search_scope pILFrame localIndex paramNameLen pScope paramName0 value0
        | Some pScope =>
            search_scope pILFrame localIndex paramNameLen pScope paramName0 value0
        end
    end.

(** [ICorDebugFrame], as the second overload uses it. *)
Record ICorDebugFrame := {
  QueryInterface_ILFrame : HRESULT * ICorDebugILFrame;
  GetFunction : HRESULT;
  GetClass : HRESULT;
  GetModule : HRESULT;
  GetToken_function : HRESULT * Z
}.

(** [SymbolReader::GetNamedLocalVariable(pFrame, localIndex, paramName,
    paramNameLen, ppValue)] *)
Definition GetNamedLocalVariable_frame (FEATURE_PAL : bool) (ops : PortableOps)
    (lops : LocalsOps) (this : SymbolReader.t) (pFrame : ICorDebugFrame)
    (localIndex : Z) (paramNameLen : Z) : HRESULT * string * Z :=
  let value := 0 in
  let paramName := EmptyString in
  let '(Status, pILFrame) := QueryInterface_ILFrame pFrame in
  if FAILED Status then (Status, paramName, value) else
  let Status := GetFunction pFrame in
  if FAILED Status then (Status, paramName, value) else
  let Status := GetClass pFrame in
  if FAILED Status then (Status, paramName, value) else
  let Status := GetModule pFrame in
  if FAILED Status then (Status, paramName, value) else
  let '(Status, methodDef) := GetToken_function pFrame in
  if FAILED Status then (Status, paramName, value) else
  GetNamedLocalVariable FEATURE_PAL ops lops this None pILFrame methodDef
    localIndex paramName paramNameLen value.

(** An answer is a success with the frame's value for the index, which
    is not null, or a failure with the value as it was or null. *)
Definition answer_sound (pILFrame : ICorDebugILFrame) (localIndex value0 : Z)
    (answer : HRESULT * string * Z) : Prop :=
  (fst (fst answer) = S_OK
   /\ snd answer <> 0
   /\ exists index,
        ULONG32_of index = ULONG32_of localIndex
        /\ snd (GetLocalVariable pILFrame index) = snd answer
        /\ FAILED (fst (GetLocalVariable pILFrame index)) = false)
  \/ (FAILED (fst (fst answer)) = true
      /\ (snd answer = value0 \/ snd answer = 0)).

(** A local the loop goes past: its index cannot be read or is
    another. *)
Definition other_local (localIndex : Z) (local : ISymUnmanagedVariable) : Prop :=
  SUCCEEDED (fst (GetAddressField1 local)) = false
  \/ ULONG32_of (snd (GetAddressField1 local)) <> ULONG32_of localIndex.

(** *** [LoadSymbols] *)

(** The fields of [DacpGetModuleData] that are passed on. *)
Record DacpGetModuleData := {
  IsInMemory : bool;
  IsFileLayout : bool;
  LoadedPEAddress : Z;
  LoadedPESize : Z;
  InMemoryPdbAddress : Z;
  InMemoryPdbSize : Z
}.

(** [IXCLRDataModule], with [DacpGetModuleData::Request] on it. *)
Record IXCLRDataModule := {
  GetFlags : HRESULT * Z;
  Request_moduleData : HRESULT * DacpGetModuleData;
  GetFileName : HRESULT * string
}.

(** [ICorDebugModule], with [GetModuleFromAddress] for its base. *)
Record ICorDebugModule := {
  IsDynamic : HRESULT * bool;
  GetBaseAddress : HRESULT * Z;
  GetModuleFromAddress : Z -> HRESULT * IXCLRDataModule
}.

(** What loading symbols uses of the outside. *)
Record LoaderOps := {
  (** the flag bit of [xclrdata.h] *)
  CLRDATA_MODULE_IS_DYNAMIC : Z;
  (** [CreateInstanceCustom(CLSID_CorSymBinder_SxS, ...)] *)
  CreateInstanceCustom : HRESULT;
  (** [g_ExtSymbols->QueryInterface(__uuidof(IDebugSymbols3), ...)] *)
  QueryInterface_IDebugSymbols3 : HRESULT;
  (** [GetSymbolPathWide(NULL, 0, &pathSize)] and
      [GetSymbolPathWide(symbolPath, pathSize, NULL)] *)
  GetSymbolPathWide_size : HRESULT * Z;
  GetSymbolPathWide : Z -> HRESULT * string;
  (** [ISymUnmanagedBinder3::GetReaderFromCallback]: module name,
      symbol path, whether the reader is by file offset, the address;
      the result code and what [m_pSymReader] receives *)
  GetReaderFromCallback :
    string -> string -> bool -> Z -> HRESULT * option ISymUnmanagedReader;
  (** [WideCharToMultiByte] of the module name: [None] where it
      returns 0 *)
  WideCharToMultiByte_module : string -> option string;
  (** the managed side of [LoadSymbolsForModuleDelegate]: the handle *)
  managed_LoadSymbolsForModule :
    Z -> option string -> bool -> Z -> Z -> Z -> Z -> Z
}.

Definition set_reader (reader : option ISymUnmanagedReader) (this : SymbolReader.t)
    : SymbolReader.t :=
  {| m_symbolReaderHandle := m_symbolReaderHandle this; m_pSymReader := reader |}.

Definition set_handle (handle : Z) (this : SymbolReader.t) : SymbolReader.t :=
  {| m_symbolReaderHandle := handle; m_pSymReader := m_pSymReader this |}.

(** [SymbolReader::LoadSymbolsForWindowsPDB] *)
Definition LoadSymbolsForWindowsPDB (lo : LoaderOps) (this : SymbolReader.t)
    (peAddress : Z) (pModuleName : string) (isFileLayout : bool)
    : HRESULT * SymbolReader.t :=
  match m_pSymReader this with
  | Some _ => (S_OK, this)
  | None =>
      let Status := CreateInstanceCustom lo in
      if FAILED Status then (Status, this) else
      let Status := QueryInterface_IDebugSymbols3 lo in
      if FAILED Status then (Status, this) else
      let '(Status, pathSize) := GetSymbolPathWide_size lo in
      if FAILED Status then (Status, this) else
      let '(Status, symbolPath) := GetSymbolPathWide lo pathSize in
      if negb (Status =? S_OK) then (Status, this) else
      let '(Status, reader) :=
        GetReaderFromCallback lo pModuleName symbolPath isFileLayout peAddress in
      if FAILED Status then (Status, set_reader None this)
      else (Status, set_reader reader this)
  end.

(** [int] conversion of a 64-bit size *)
Definition int_cast (x : Z) : Z := int_of x.

(** [SymbolReader::LoadSymbolsForPortablePDB]; the module name is
    never a null pointer here. *)
Definition LoadSymbolsForPortablePDB (cfg : Config) (host : Hosting.Host)
    (lo : LoaderOps) (this : SymbolReader.t) (pModuleName : string)
    (isInMemory isFileLayout : bool)
    (peAddress peSize inMemoryPdbAddress inMemoryPdbSize : Z)
    (s : Hosting.State) : HRESULT * SymbolReader.t * Hosting.State :=
  let '(Status, s) := Hosting.InitializeHosting cfg host s in
  if FAILED Status then (Status, this, s) else
  let s := Hosting.InitializeSymbolStore_sympath cfg host s in
  let converted :=
    if negb isInMemory
    then
      match WideCharToMultiByte_module lo pModuleName with
      | Some szModuleName => Some (Some szModuleName)
      | None => None
      end
    else Some None in
  match converted with
  | None => (E_FAIL, this, s)
  | Some szModuleName =>
      let handle :=
        managed_LoadSymbolsForModule lo
          (Hosting.g_SOSNetCoreCallbacks s Hosting.LoadSymbolsForModuleDelegate)
          szModuleName isFileLayout peAddress (int_cast peSize)
          inMemoryPdbAddress (int_cast inMemoryPdbSize) in
      let this := set_handle handle this in
      if handle =? 0 then (E_FAIL, this, s) else (Status, this, s)
  end.

(** [SymbolReader::LoadSymbols], the overload for an [IXCLRDataModule] *)
Definition LoadSymbols (cfg : Config) (host : Hosting.Host) (lo : LoaderOps)
    (this : SymbolReader.t) (pModule : IXCLRDataModule) (s : Hosting.State)
    : HRESULT * SymbolReader.t * Hosting.State :=
  let '(hr, flags) := GetFlags pModule in
  if FAILED hr then (hr, this, s) else
  if negb (Z.land flags (CLRDATA_MODULE_IS_DYNAMIC lo) =? 0)
  then (E_FAIL, this, s) else
  let '(hr, moduleData) := Request_moduleData pModule in
  if FAILED hr then (hr, this, s) else
  let '(hr, pModuleName) := GetFileName pModule in
  if FAILED hr then (hr, this, s) else
  let '(hr, this) :=
    if FEATURE_PAL (os cfg) then (E_FAIL, this)
    else LoadSymbolsForWindowsPDB lo this (LoadedPEAddress moduleData)
           pModuleName (IsFileLayout moduleData) in
  if negb (FEATURE_PAL (os cfg)) && SUCCEEDED hr then (hr, this, s) else
  LoadSymbolsForPortablePDB cfg host lo this pModuleName
    (IsInMemory moduleData) (IsFileLayout moduleData)
    (LoadedPEAddress moduleData) (LoadedPESize moduleData)
    (InMemoryPdbAddress moduleData) (InMemoryPdbSize moduleData) s.

(** [SymbolReader::LoadSymbols], the overload for an [ICorDebugModule] *)
Definition LoadSymbols_debug (cfg : Config) (host : Hosting.Host) (lo : LoaderOps)
    (this : SymbolReader.t) (pModule : ICorDebugModule) (s : Hosting.State)
    : HRESULT * SymbolReader.t * Hosting.State :=
  let '(Status, isDynamic) := IsDynamic pModule in
  if FAILED Status then (Status, this, s) else
  if isDynamic then (E_FAIL, this, s) else
  let '(Status, peAddress) := GetBaseAddress pModule in
  if FAILED Status then (Status, this, s) else
  let '(Status, pClrModule) := GetModuleFromAddress pModule peAddress in
  if FAILED Status then (Status, this, s) else
  LoadSymbols cfg host lo this pClrModule s.

(** The session holds no reader of either kind. *)
Definition unbound (this : SymbolReader.t) : Prop :=
  m_symbolReaderHandle this = 0 /\ m_pSymReader this = None.

(** What loading symbols, started in hosting state [s], may leave: on
    failure no reader; a portable reader only with a success, an
    initialized hosting bridge and no native reader; a native reader
    only under dbgeng, with a success and the hosting state as it
    was. *)
Definition one_reader (cfg : Config) (s : Hosting.State)
    (r : HRESULT * SymbolReader.t * Hosting.State) : Prop :=
  let hr := fst (fst r) in
  let this' := snd (fst r) in
  let s' := snd r in
  (FAILED hr = true -> unbound this')
  /\ (m_symbolReaderHandle this' <> 0 ->
      FAILED hr = false /\ m_pSymReader this' = None
      /\ Hosting.g_hostingInitialized s' = true)
  /\ (m_pSymReader this' <> None ->
      m_symbolReaderHandle this' = 0 /\ FEATURE_PAL (os cfg) = false
      /\ FAILED hr = false /\ s' = s).

End SymbolSession.

(** ** More data for the worked examples *)
Module Examples.

Import Hosting Fixtures.

(** [host] with other answers for file existence and for the
    addresses of the bound operations. *)
Definition host_with (access : string -> bool)
    (create_delegate : string -> string -> string -> HRESULT * Z) (host : Host)
    : Host :=
  {| fs := fs host;
     access_F_OK := access;
     realpath := realpath host;
     GetEnvironmentVariableA := GetEnvironmentVariableA host;
     GetTempPathA := GetTempPathA host;
     GetCurrentProcessId := GetCurrentProcessId host;
     GetLastError := GetLastError host;
     sscanf_s_out_of_range := sscanf_s_out_of_range host;
     GetFileAttributesA_valid := GetFileAttributesA_valid host;
     GetModuleFileName_exe := GetModuleFileName_exe host;
     NSGetExecutablePath := NSGetExecutablePath host;
     sysctl_proc_pathname := sysctl_proc_pathname host;
     PAL_GetPALDirectoryA := PAL_GetPALDirectoryA host;
     GetModuleFileNameA_sos := GetModuleFileNameA_sos host;
     ExtServices_GetCoreClrDirectory := ExtServices_GetCoreClrDirectory host;
     ExtSymbols_GetModuleByModuleName := ExtSymbols_GetModuleByModuleName host;
     ExtSymbols_GetModuleNames := ExtSymbols_GetModuleNames host;
     ExtSymbols_GetSymbolPath := ExtSymbols_GetSymbolPath host;
     LoadLibraryA := LoadLibraryA host;
     GetProcAddress := GetProcAddress host;
     coreclr_initialize := coreclr_initialize host;
     coreclr_create_delegate := create_delegate;
     managed_InitializeSymbolStore := managed_InitializeSymbolStore host;
     managed_GetMetadataLocator := managed_GetMetadataLocator host |}.

(** Every operation is bound at an address of its own, 16 bytes per
    character of its name above a common base. *)
Definition host_with_addresses : Host :=
  host_with (access_F_OK healthy_host)
    (fun _ _ method => (S_OK, 0x7f0000001000 + 16 * Str.strlen method))
    healthy_host.

(** [host] over another disk. *)
Definition host_over (disk : FileSystem.Listing) (host : Host) : Host :=
  {| fs := disk;
     access_F_OK := access_F_OK host;
     realpath := realpath host;
     GetEnvironmentVariableA := GetEnvironmentVariableA host;
     GetTempPathA := GetTempPathA host;
     GetCurrentProcessId := GetCurrentProcessId host;
     GetLastError := GetLastError host;
     sscanf_s_out_of_range := sscanf_s_out_of_range host;
     GetFileAttributesA_valid := GetFileAttributesA_valid host;
     GetModuleFileName_exe := GetModuleFileName_exe host;
     NSGetExecutablePath := NSGetExecutablePath host;
     sysctl_proc_pathname := sysctl_proc_pathname host;
     PAL_GetPALDirectoryA := PAL_GetPALDirectoryA host;
     GetModuleFileNameA_sos := GetModuleFileNameA_sos host;
     ExtServices_GetCoreClrDirectory := ExtServices_GetCoreClrDirectory host;
     ExtSymbols_GetModuleByModuleName := ExtSymbols_GetModuleByModuleName host;
     ExtSymbols_GetModuleNames := ExtSymbols_GetModuleNames host;
     ExtSymbols_GetSymbolPath := ExtSymbols_GetSymbolPath host;
     LoadLibraryA := LoadLibraryA host;
     GetProcAddress := GetProcAddress host;
     coreclr_initialize := coreclr_initialize host;
     coreclr_create_delegate := coreclr_create_delegate host;
     managed_InitializeSymbolStore := managed_InitializeSymbolStore host;
     managed_GetMetadataLocator := managed_GetMetadataLocator host |}.

(** An install root with a directory whose revision does not fit an
    [int]. *)
Definition host_with_long_names : Host :=
  host_over
    (fun directory =>
       if String.eqb directory "/usr/share/dotnet/shared/Microsoft.NETCore.App/"
       then [ dir_entry "."; dir_entry ".."; dir_entry "2.1.5";
              dir_entry "2.1.4294967297" ]
       else [])
    healthy_host.

(** The extension's directory after its assemblies were compiled to
    optimized images. *)
Definition host_with_native_images : Host :=
  host_over
    (fun directory =>
       if String.eqb directory "/opt/sos/" then
         [ file_entry "SOS.NETCore.dll"; file_entry "SOS.NETCore.ni.dll";
           file_entry "System.Reflection.Metadata.dll";
           file_entry "System.Reflection.Metadata.ni.dll" ]
       else [])
    healthy_host.

(** The target's runtime directory holds a DAC. *)
Definition host_with_dac : Host :=
  host_with
    (fun path => String.eqb path "/app/runtime/libmscordaccore.so")
    (coreclr_create_delegate healthy_host) healthy_host.

(** lldb with its second service; the symbol downloader finds the
    runtime's own symbol file, the DAC in two places, the DBI and the
    C library. *)
Definition downloaded : list (string * string) :=
  [ ("libcoreclr.so", "/cache/libcoreclr.so.dbg");
    ("libmscordaccore.so", "/cache/a/libmscordaccore.so");
    ("libc.so.6", "/cache/libc.so.6.dbg");
    ("libmscordaccore.so", "/cache/b/libmscordaccore.so");
    ("libmscordbi.so", "/cache/a/libmscordbi.so") ].

Definition lldb_services : NativeSymbols.Services :=
  {| NativeSymbols.MAKEDLLNAME_A := fun name => "lib" +:+ name +:+ ".so";
     NativeSymbols.symlink := fun _ _ => true;
     NativeSymbols.QueryInterface_ILLDBServices2 := S_OK;
     NativeSymbols.services2_LoadNativeSymbols := fun _ =>
       (S_OK, [(1, "/app/runtime/libcoreclr.so", 0x7f0000000000, 0x700000)]);
     NativeSymbols.ExtSymbols_module_base := fun _ => 0x7f0000000000;
     NativeSymbols.ExtSymbols_GetModuleParameters := fun _ => (S_OK, 0x700000);
     NativeSymbols.managed_LoadNativeSymbols := fun _ _ _ _ _ _ => downloaded;
     NativeSymbols.memcpy_s := fun _ table _ => (0, table) |}.

Definition initial_process : NativeSymbols.Process :=
  {| NativeSymbols.hosting := initial_state;
     NativeSymbols.effects := [];
     NativeSymbols.GetExpression := 0 |}.

(** The modules the debugger knows, by name, with their bases. *)
Definition sim_symbols : DataTargetObject.IDebugSymbols engine :=
  {| DataTargetObject.GetModuleByModuleName := fun name _ e =>
       if String.eqb name "System.Private.CoreLib" then (S_OK, 0x7f0000400000, e)
       else if String.eqb name "coreclr" then (S_OK, 0x7f0000000000, e)
       else (E_INVALIDARG, 0, e) |}.

Import SymbolReader SymbolSession.

(** A local variable with its index, named or not. *)
Definition variable (index : Z) (name : option string) : ISymUnmanagedVariable :=
  {| GetAddressField1 := (S_OK, index);
     GetName := fun _ =>
       match name with
       | Some name => (S_OK, name)
       | None => (E_FAIL, EmptyString)
       end |}.

Definition scope (locals : list ISymUnmanagedVariable)
    (children : list ISymUnmanagedScope) : ISymUnmanagedScope :=
  Scope (S_OK, Z.of_nat (length locals)) (fun _ => (S_OK, locals))
        (S_OK, Z.of_nat (length children)) (fun _ => (S_OK, children)).

(** A method whose body declares [args] and an unnamed local 1, and
    whose inner block declares [i], again with index 1. *)
Definition method_scope : ISymUnmanagedScope :=
  scope [variable 0 (Some "args"); variable 1 None]
        [scope [variable 1 (Some "i")] []].

(** A frame in which local 0 has a value and local 1 has none. *)
Definition frame_a : ICorDebugILFrame :=
  {| GetLocalVariable := fun index =>
       if index =? 0 then (S_OK, 0x1000)
       else if index =? 1 then (S_OK, 0)
       else (E_INVALIDARG, 0) |}.

(** A static module on disk; no native reader is to be had, the
    hosted runtime opens its portable PDB. *)
Definition app_module : IXCLRDataModule :=
  {| GetFlags := (S_OK, 0);
     Request_moduleData :=
       (S_OK, {| IsInMemory := false; IsFileLayout := false;
                 LoadedPEAddress := 0x7f0000400000; LoadedPESize := 0x8000;
                 InMemoryPdbAddress := 0; InMemoryPdbSize := 0 |});
     GetFileName := (S_OK, "/app/App.dll") |}.

(** The same module as the debugging interface shows it. *)
Definition debug_module : ICorDebugModule :=
  {| IsDynamic := (S_OK, false);
     GetBaseAddress := (S_OK, 0x7f0000400000);
     GetModuleFromAddress := fun _ => (S_OK, app_module) |}.

Definition portable_loader : LoaderOps :=
  {| CLRDATA_MODULE_IS_DYNAMIC := 1;
     CreateInstanceCustom := E_FAIL;
     QueryInterface_IDebugSymbols3 := S_OK;
     GetSymbolPathWide_size := (S_OK, 1);
     GetSymbolPathWide := fun _ => (S_OK, EmptyString);
     GetReaderFromCallback := fun _ _ _ _ => (E_FAIL, None);
     WideCharToMultiByte_module := fun name => Some name;
     managed_LoadSymbolsForModule := fun _ _ _ _ _ _ _ => 0x5000 |}.

Definition no_session : SymbolReader.t :=
  {| m_symbolReaderHandle := 0; m_pSymReader := None |}.

End Examples.

(* ================================================================== *)
(** * Part II. Properties                                              *)
(* ================================================================== *)

(** ** Integer conversions *)

Lemma ULONG32_of_small (x : Z) : 0 <= x < 2 ^ 32 -> ULONG32_of x = x.
Proof. intros H. unfold ULONG32_of. apply Z.mod_small. exact H. Qed.

Lemma ULONG64_of_small (x : Z) : 0 <= x < 2 ^ 64 -> ULONG64_of x = x.
Proof. intros H. unfold ULONG64_of. apply Z.mod_small. exact H. Qed.


Lemma int_of_small (x : Z) : - 2 ^ 31 <= x < 2 ^ 31 -> int_of x = x.
Proof.
  intros H. unfold int_of.
  rewrite Z.mod_small by lia. lia.
Qed.

Lemma FAILED_SUCCEEDED (hr : HRESULT) : SUCCEEDED hr = negb (FAILED hr).
Proof. unfold SUCCEEDED, FAILED. destruct (Z.ltb_spec hr 0); lia. Qed.

(** ** The sequence-point scan of [GetLineByILOffset] *)
Section SequencePointScan.

Import SymbolReader.

Variable ilOffset : Z.

(** Nothing the scan reaches qualifies: the best index stays. *)
Lemma scan_keeps pts : forall i best,
  (forall k q, pts !! k = Some q ->
               sp_offset q <= ilOffset -> sp_line q = HiddenLine) ->
  scan_sequence_points ilOffset pts i best = best.
Proof.
  induction pts as [|a rest IH]; intros i best Hhid; simpl; [reflexivity|].
  destruct (Z.gtb_spec (sp_offset a) ilOffset) as [Hgt|Hle]; [reflexivity|].
  rewrite (Hhid 0%nat a eq_refl Hle), Z.eqb_refl.
  apply IH. intros k q Hk. exact (Hhid (S k) q Hk).
Qed.

(** The scan ends on the last entry of the reached prefix whose line
    is not hidden. *)
Lemma scan_finds pts : forall i best (j : nat) p,
  pts !! j = Some p ->
  (forall k q, (k <= j)%nat -> pts !! k = Some q -> sp_offset q <= ilOffset) ->
  sp_line p <> HiddenLine ->
  (forall k q, (j < k)%nat -> pts !! k = Some q ->
               sp_offset q <= ilOffset -> sp_line q = HiddenLine) ->
  scan_sequence_points ilOffset pts i best = i + Z.of_nat j.
Proof.
  induction pts as [|a rest IH]; intros i best j p Hj Hpre Hvis Hlater.
  - discriminate.
  - simpl.
    assert (Ha : sp_offset a <= ilOffset) by (apply (Hpre 0%nat a); [lia|reflexivity]).
    destruct (Z.gtb_spec (sp_offset a) ilOffset) as [Hgt|_]; [lia|].
    destruct j as [|j'].
    + simpl in Hj. injection Hj as ->.
      destruct (Z.eqb_spec (sp_line p) HiddenLine) as [Heq|_]; [contradiction|].
      rewrite scan_keeps; [lia|].
      intros k q Hk. apply (Hlater (S k) q); [lia|exact Hk].
    + simpl in Hj.
      rewrite (IH (i + 1) _ j' p Hj); [lia| |exact Hvis|].
      * intros k q Hkj Hk. apply (Hpre (S k) q); [lia|exact Hk].
      * intros k q Hkj Hk. apply (Hlater (S k) q); [lia|exact Hk].
Qed.

End SequencePointScan.

Lemma firstn_int_length {A} (l : list A) :
  Z.of_nat (length l) < 2 ^ 31 ->
  firstn (Z.to_nat (int_of (ULONG32_of (Z.of_nat (length l))))) l = l.
Proof.
  intros H.
  rewrite ULONG32_of_small by lia.
  rewrite int_of_small by lia.
  rewrite Nat2Z.id. apply firstn_all.
Qed.

Lemma entry_at_index pts (j : nat) :
  SymbolReader.entry_at pts (Z.of_nat j) = pts !! j.
Proof.
  unfold SymbolReader.entry_at.
  destruct (Z.ltb_spec (Z.of_nat j) 0); [lia|].
  now rewrite Nat2Z.id.
Qed.

(** ** C3: the legacy path of [GetLineByILOffset] *)
Section GetLineByILOffset.

Import SymbolReader.

Lemma offset_ordered_head a rest :
  offset_ordered (a :: rest) = true ->
  forall k q, rest !! k = Some q -> sp_offset a <= sp_offset q.
Proof.
  revert a. induction rest as [|b rest IH]; intros a Hord k q Hk.
  - discriminate.
  - simpl in Hord. apply andb_prop in Hord as [Hab Hrest].
    apply Z.leb_le in Hab.
    destruct k as [|k]; simpl in Hk.
    + injection Hk as <-. exact Hab.
    + specialize (IH b Hrest k q Hk). lia.
Qed.

Lemma offset_ordered_tail a rest :
  offset_ordered (a :: rest) = true -> offset_ordered rest = true.
Proof.
  destruct rest as [|b rest]; [reflexivity|].
  simpl. intros H. apply andb_prop in H. tauto.
Qed.

Lemma offset_ordered_lookup pts : forall (i j : nat) p q,
  offset_ordered pts = true -> (i <= j)%nat ->
  pts !! i = Some p -> pts !! j = Some q -> sp_offset p <= sp_offset q.
Proof.
  induction pts as [|a rest IH]; intros i j p q Hord Hij Hi Hj.
  - discriminate.
  - destruct i as [|i], j as [|j]; simpl in Hi, Hj.
    + injection Hi as <-. injection Hj as <-. lia.
    + injection Hi as <-. exact (offset_ordered_head a rest Hord j q Hj).
    + lia.
    + apply (IH i j p q); [exact (offset_ordered_tail a rest Hord)|lia|exact Hi|exact Hj].
Qed.

(** C3, as amended. On the legacy path, with an offset-ordered table,
    [GetLineByILOffset] answers from the last entry whose offset is at
    most the offset it received, read as an unsigned 64-bit value, and
    whose line is not the hidden sentinel; when no entry qualifies it
    fails with [E_FAIL]. *)
Theorem GetLineByILOffset_legacy_scan
    (ops : PortableOps) (this : SymbolReader.t) (reader : ISymUnmanagedReader)
    (method : ISymUnmanagedMethod) (pts : list SequencePoint)
    (methodToken ilOffset linenum0 cchFileName count : Z) (file0 : string)
    (hr1 hr2 hr3 : HRESULT) :
  m_symbolReaderHandle this = 0 ->
  m_pSymReader this = Some reader ->
  GetMethod reader methodToken = (hr1, method) -> FAILED hr1 = false ->
  GetSequencePointCount method = (hr2, count) -> FAILED hr2 = false ->
  count <> 0 ->
  GetSequencePoints method count = (hr3, pts) -> FAILED hr3 = false ->
  Z.of_nat (length pts) < 2 ^ 31 ->
  offset_ordered pts = true ->
  (forall (j : nat) p,
      pts !! j = Some p ->
      sp_offset p <= ULONG64_of ilOffset -> sp_line p <> HiddenLine ->
      (forall (k : nat) q, (j < k)%nat -> pts !! k = Some q ->
         sp_offset q <= ULONG64_of ilOffset -> sp_line q = HiddenLine) ->
      GetLineByILOffset false ops this methodToken ilOffset linenum0 file0 cchFileName
      = answer_from p linenum0 cchFileName)
  /\ ((forall (k : nat) q, pts !! k = Some q ->
         sp_offset q <= ULONG64_of ilOffset -> sp_line q = HiddenLine) ->
      GetLineByILOffset false ops this methodToken ilOffset linenum0 file0 cchFileName
      = (E_FAIL, linenum0, file0)).
Proof.
  intros Hh Hr Hm Hf1 Hc Hf2 Hcount Hp Hf3 Hlen Hord.
  assert (Hunfold :
    GetLineByILOffset false ops this methodToken ilOffset linenum0 file0 cchFileName
    = let best := scan_sequence_points (ULONG64_of ilOffset) pts 0 (-1) in
      if negb (best =? -1) then
        match entry_at pts best with
        | Some p => answer_from p linenum0 cchFileName
        | None => (E_FAIL, linenum0, file0)
        end
      else (E_FAIL, linenum0, file0)).
  { unfold GetLineByILOffset. rewrite Hh, Hr. simpl.
    rewrite Hm, Hf1, Hc, Hf2.
    destruct (Z.eqb_spec count 0) as [Hz|_]; [contradiction|].
    rewrite Hp, Hf3. rewrite firstn_int_length by exact Hlen.
    reflexivity. }
  split.
  - intros j p Hj Hle Hvis Hlater.
    rewrite Hunfold. cbv zeta.
    rewrite (scan_finds (ULONG64_of ilOffset) pts 0 (-1) j p Hj); [|  |exact Hvis|exact Hlater].
    + destruct (Z.eqb_spec (0 + Z.of_nat j) (-1)) as [Hbad|_]; [lia|]. simpl.
      replace (0 + Z.of_nat j) with (Z.of_nat j) by lia.
      rewrite entry_at_index, Hj. reflexivity.
    + intros k q Hkj Hk.
      pose proof (offset_ordered_lookup pts k j q p Hord Hkj Hk Hj). lia.
  - intros Hnone. rewrite Hunfold. cbv zeta.
    rewrite scan_keeps by exact Hnone. reflexivity.
Qed.

(** The table of the example, queried at offset 7, answers line 1. *)
Lemma GetLineByILOffset_legacy_scan_witness :
  GetLineByILOffset false Fixtures.unbound_ops Fixtures.legacy_session
    0x06000001 7 0 EmptyString 260
  = (S_OK, 1, "a.cs").
Proof.
  refine (proj1 (GetLineByILOffset_legacy_scan
            Fixtures.unbound_ops Fixtures.legacy_session Fixtures.reader_a
            Fixtures.method_a Fixtures.table 0x06000001 7 0 260 3 EmptyString
            S_OK S_OK S_OK _ _ _ _ _ _ _ _ _ _ _)
            0%nat (Fixtures.point 0 1) _ _ _ _);
    try reflexivity; try (vm_compute; congruence).
  intros [|[|[|k]]] q Hk Hq; simpl in Hq; try lia; try discriminate.
  - injection Hq as <-. reflexivity.
  - injection Hq as <-. vm_compute. congruence.
Defined.

(** The offset is an unsigned 64-bit parameter: -1 arrives as
    [2^64 - 1], every entry is reached and the last visible one,
    line 3, is the answer. *)
Lemma GetLineByILOffset_minus_one_found :
  GetLineByILOffset false Fixtures.unbound_ops Fixtures.legacy_session
    0x06000001 (-1) 0 EmptyString 260
  = (S_OK, 3, "a.cs")
  /\ (S_OK, 3, "a.cs") <> (E_FAIL, 0, EmptyString).
Proof. split; [reflexivity|discriminate]. Qed.

End GetLineByILOffset.

(** ** C7: the filename test of [ResolveSequencePoint] *)
Section ResolveSequencePoint.

Import SymbolReader.

(** C7. With the URL count as [GetURL] reports it (the length plus the
    terminator), a document's URL passes the filename test exactly
    when it has the length of the filename and [_wcsicmp] finds them
    equal, or it is longer, its last characters compare equal to the
    filename under [_wcsicmp] and the character before them is a
    backslash or a slash. ["foo.cs"] matches ["foo.cs"] and
    ["/src/foo.cs"] and does not match ["barfoo.cs"]. *)
Theorem ResolveSequencePoint_filename_match (pFilename pUrl : string) :
  Str.strlen pFilename < 2 ^ 32 ->
  Str.strlen pUrl + 1 < 2 ^ 32 ->
  (url_matches pFilename pUrl (Str.strlen pUrl + 1) = true <->
     (String.length pUrl = String.length pFilename
      /\ Str._wcsicmp pUrl pFilename = 0)
     \/ ((String.length pFilename < String.length pUrl)%nat
         /\ Str._wcsicmp
              (Str.drop (String.length pUrl - String.length pFilename) pUrl)
              pFilename = 0
         /\ (Str.char_at (String.length pUrl - String.length pFilename - 1) pUrl
             = "\"%char
             \/ Str.char_at (String.length pUrl - String.length pFilename - 1) pUrl
                = "/"%char)))
  /\ url_matches "foo.cs" "foo.cs" (Str.strlen "foo.cs" + 1) = true
  /\ url_matches "foo.cs" "/src/foo.cs" (Str.strlen "/src/foo.cs" + 1) = true
  /\ url_matches "foo.cs" "barfoo.cs" (Str.strlen "barfoo.cs" + 1) = false.
Proof.
  intros Hf Hu.
  split; [|repeat split; reflexivity].
  unfold url_matches, Str.strlen in *.
  set (lu := String.length pUrl) in *.
  set (lf := String.length pFilename) in *.
  replace (Z.of_nat lu + 1 - 1) with (Z.of_nat lu) by lia.
  rewrite !(ULONG32_of_small (Z.of_nat lu)) by lia.
  rewrite !(ULONG32_of_small (Z.of_nat lf)) by lia.
  destruct (Z.eqb_spec (Z.of_nat lu) (Z.of_nat lf)) as [Heq|Hne].
  - rewrite Z.eqb_eq. split.
    + intros H. left. split; [lia|exact H].
    + intros [[_ H]|[Hlt _]]; [exact H|lia].
  - destruct (Z.gtb_spec (Z.of_nat lu) (Z.of_nat lf)) as [Hgt|Hle].
    + rewrite ULONG32_of_small by lia.
      replace (Z.to_nat (Z.of_nat lu + 1 - Z.of_nat lf - 2))
        with (lu - lf - 1)%nat by lia.
      replace (S (lu - lf - 1)) with (lu - lf)%nat by lia.
      destruct (Ascii.eqb_spec (Str.char_at (lu - lf - 1) pUrl) "\"%char) as [Hb|Hb];
        destruct (Ascii.eqb_spec (Str.char_at (lu - lf - 1) pUrl) "/"%char) as [Hs|Hs];
        simpl; rewrite ?Z.eqb_eq; split;
        try (intros H; right; split; [lia|split; [exact H|tauto]]);
        try (intros [[Hl _]|[_ [H _]]]; [lia|exact H]);
        try discriminate.
      intros [[Hl _]|[_ [_ [H|H]]]]; [lia|contradiction|contradiction].
    + split; [discriminate|].
      intros [[Hl _]|[Hl _]]; lia.
Qed.

Lemma ResolveSequencePoint_filename_match_witness :
  url_matches "foo.cs" "/src/foo.cs" (Str.strlen "/src/foo.cs" + 1) = true <->
    (String.length "/src/foo.cs" = String.length "foo.cs"
      /\ Str._wcsicmp "/src/foo.cs" "foo.cs" = 0)
     \/ ((String.length "foo.cs" < String.length "/src/foo.cs")%nat
         /\ Str._wcsicmp
              (Str.drop (String.length "/src/foo.cs" - String.length "foo.cs") "/src/foo.cs")
              "foo.cs" = 0
         /\ (Str.char_at (String.length "/src/foo.cs" - String.length "foo.cs" - 1) "/src/foo.cs"
             = "\"%char
             \/ Str.char_at (String.length "/src/foo.cs" - String.length "foo.cs" - 1) "/src/foo.cs"
                = "/"%char)).
Proof.
  apply (ResolveSequencePoint_filename_match "foo.cs" "/src/foo.cs");
    vm_compute; reflexivity.
Defined.

End ResolveSequencePoint.

(** ** The bootstrap: [GetHostRuntime], [bind_operations], [InitializeHosting] *)
Section Bootstrap.

Import Hosting.

Variable cfg : Config.
Variable host : Host.

Lemma same_settings_refl s : same_settings s s.
Proof. unfold same_settings. tauto. Qed.

Lemma same_settings_trans s1 s2 s3 :
  same_settings s1 s2 -> same_settings s2 s3 -> same_settings s1 s3.
Proof. unfold same_settings. intuition congruence. Qed.

Lemma same_settings_log e s : same_settings s (log e s).
Proof. unfold same_settings. simpl. tauto. Qed.

Lemma same_settings_callbacks c s : same_settings s (set_callbacks c s).
Proof. unfold same_settings. simpl. tauto. Qed.

(** One [createDelegate] statement: the slot is written and one event
    is logged, whatever the result. *)
Lemma createDelegate_run className method slot s :
  createDelegate cfg host className method slot s
  = (Value (fst (coreclr_create_delegate host (SOSManagedDllName cfg) className method)),
     set_callbacks
       (bind_slot slot
          (snd (coreclr_create_delegate host (SOSManagedDllName cfg) className method))
          (g_SOSNetCoreCallbacks s))
       (log (create_delegate_event cfg host (className, method, slot)) s)).
Proof.
  unfold createDelegate, create_delegate_event.
  destruct (coreclr_create_delegate host (SOSManagedDllName cfg) className method)
    as [hr address].
  reflexivity.
Qed.

(** When every operation binds, the ten statements run to the end:
    the events are theirs, in order, and [Status] stays a success. *)
Lemma bind_operations_all ops : forall Status s,
  forallb (operation_binds cfg host) ops = true ->
  exists hr s',
    bind_operations cfg host ops Status s = (Value hr, s')
    /\ (FAILED Status = false -> FAILED hr = false)
    /\ same_settings s s'
    /\ extends_trace s s' (map (create_delegate_event cfg host) ops).
Proof.
  induction ops as [|[[className method] slot] rest IH]; intros Status s Hall.
  - exists Status, s. split; [reflexivity|]. split; [tauto|].
    split; [apply same_settings_refl|].
    unfold extends_trace. simpl. now rewrite app_nil_r.
  - simpl in Hall. apply andb_prop in Hall as [Hop Hrest].
    cbn [bind_operations]. unfold IfFailRet, mbind, M_bind.
    rewrite createDelegate_run.
    cbn [operation_binds] in Hop. apply negb_true_iff in Hop.
    rewrite Hop. cbn [mret M_ret].
    match goal with
    | |- context [bind_operations cfg host rest ?st ?s1] =>
        destruct (IH st s1 Hrest) as (hr & s' & Hrun & Hok & Hset & Htr)
    end.
    exists hr, s'. split; [exact Hrun|]. split; [intros _; exact (Hok Hop)|].
    split.
    + eapply same_settings_trans; [|exact Hset].
      eapply same_settings_trans;
        [apply same_settings_log|apply same_settings_callbacks].
    + unfold extends_trace in *. rewrite Htr. simpl.
      now rewrite <- app_assoc.
Qed.

(** When one of them does not bind, the body returns there with a
    failure; only delegate-creation events were logged. *)
Lemma bind_operations_some_fails ops : forall Status s,
  forallb (operation_binds cfg host) ops = false ->
  exists hr s' events,
    bind_operations cfg host ops Status s = (Return hr, s')
    /\ FAILED hr = true
    /\ same_settings s s'
    /\ extends_trace s s' events
    /\ Forall (fun e => is_invoke e = false) events.
Proof.
  induction ops as [|[[className method] slot] rest IH]; intros Status s Hsome.
  - discriminate.
  - cbn [bind_operations]. unfold IfFailRet, mbind, M_bind.
    rewrite createDelegate_run.
    simpl in Hsome.
    destruct (FAILED (fst (coreclr_create_delegate host (SOSManagedDllName cfg)
                             className method))) eqn:Hop.
    + eexists _, _, [_]. split; [reflexivity|].
      split; [exact Hop|]. split.
      * eapply same_settings_trans;
          [apply same_settings_log|apply same_settings_callbacks].
      * split; [reflexivity|]. constructor; [reflexivity|constructor].
    + simpl in Hsome. cbn [mret M_ret].
      match goal with
      | |- context [bind_operations cfg host rest ?st ?s1] =>
          destruct (IH st s1 Hsome) as (hr & s' & events & Hrun & Hf & Hset & Htr & Hev)
      end.
      exists hr, s', (create_delegate_event cfg host (className, method, slot) :: events).
      split; [exact Hrun|]. split; [exact Hf|]. split.
      * eapply same_settings_trans; [|exact Hset].
        eapply same_settings_trans;
          [apply same_settings_log|apply same_settings_callbacks].
      * split.
        -- unfold extends_trace in *. rewrite Htr. simpl. now rewrite <- app_assoc.
        -- constructor; [reflexivity|exact Hev].
Qed.

Lemma GetHostRuntime_run s :
  (exists dir s1,
     GetHostRuntime cfg host s
     = (Value (dir +:+ DIRECTORY_SEPARATOR_STR_A cfg +:+ MAIN_CLR_DLL_NAME_A cfg, dir), s1)
     /\ g_hostRuntimeDirectory s1 = Some dir
     /\ only_directory_cached s s1)
  \/ (exists hr, GetHostRuntime cfg host s = (Return hr, s) /\ FAILED hr = true).
Proof.
  unfold GetHostRuntime, mbind, M_bind, get, only_directory_cached.
  destruct (g_hostRuntimeDirectory s) as [dir|] eqn:Hdir.
  - left. exists dir, s. cbn. rewrite Hdir. cbn. tauto.
  - destruct (install_root cfg host) as [root|].
    + destruct (select_runtime cfg host (root +:+ DIRECTORY_SEPARATOR_STR_A cfg))
        as [hr dir] eqn:Hsel.
      destruct (FAILED hr) eqn:Hf.
      * right. exists hr. cbn. split; [reflexivity|exact Hf].
      * left. exists dir, (set_hostRuntimeDirectory (Some dir) s). cbn. tauto.
    + right. exists E_FAIL. cbn. split; reflexivity.
Qed.

Lemma Forall_not_invoke_delegates ops :
  Forall (fun e => is_invoke e = false) (map (create_delegate_event cfg host) ops).
Proof.
  induction ops as [|[[c m] sl] rest IH]; constructor; [reflexivity|exact IH].
Qed.

Lemma InitializeHosting_unset s hr s' :
  g_hostingInitialized s = false ->
  InitializeHosting cfg host s = (hr, s') ->
  g_symbolStoreInitialized s' = g_symbolStoreInitialized s
  /\ g_tmpPath s' = g_tmpPath s
  /\ (exists events, trace s' = trace s ++ events
                     /\ Forall (fun e => is_invoke e = false) events)
  /\ ((FAILED hr = true /\ g_hostingInitialized s' = false)
      \/ (FAILED hr = false /\ g_hostingInitialized s' = true
          /\ bootstrap_succeeded cfg host s s')).
Proof.
  intros Hflag Hrun.
  unfold InitializeHosting, run, InitializeHosting_body in Hrun.
  unfold mbind at 1, M_bind at 1, get in Hrun. rewrite Hflag in Hrun.
  unfold mbind at 1, M_bind at 1 in Hrun.
  destruct (GetHostRuntime_run s) as [(dir & s1 & Hr & Hdir & Hsame)|(hr0 & Hr & Hf)];
    rewrite Hr in Hrun.
  2:{ injection Hrun as <- <-. repeat split; [exists []; split; [now rewrite app_nil_r|constructor]|].
      left. split; assumption. }
  destruct Hsame as (Hs1 & Hs2 & Hs3 & Hs4 & Hs5 & Hs6 & Hs7).
  destruct (sos_module_directory cfg host) as [sosdir|].
  2:{ injection Hrun as <- <-. rewrite Hs1, Hs2, Hs5, Hs7.
      repeat split; [exists []; split; [now rewrite app_nil_r|constructor]|].
      left. split; [reflexivity|assumption]. }
  unfold emit, modify, mbind, M_bind in Hrun.
  destruct (LoadLibraryA host _) eqn:Hload; cbn [negb] in Hrun.
  2:{ injection Hrun as <- <-. cbn. rewrite Hs1, Hs2, Hs5, Hs7.
      repeat split; [eexists [_]; split; [reflexivity|repeat constructor]|].
      left. split; [reflexivity|assumption]. }
  destruct (GetProcAddress host "coreclr_initialize") eqn:Hp1;
    destruct (GetProcAddress host "coreclr_create_delegate") eqn:Hp2;
    cbn [negb orb] in Hrun.
  2,3,4:
    (injection Hrun as <- <-; cbn; rewrite Hs1, Hs2, Hs5, Hs7;
     repeat split; [eexists [_; _; _]; split; [now rewrite <- !app_assoc|repeat constructor]|];
     left; split; [reflexivity|assumption]).
  destruct (GetEntrypointExecutableAbsolutePath cfg host) as [exe|].
  2:{ injection Hrun as <- <-. cbn. rewrite Hs1, Hs2, Hs5, Hs7.
      repeat split; [eexists [_; _; _]; split; [now rewrite <- !app_assoc|repeat constructor]|].
      left. split; [reflexivity|assumption]. }
  match type of Hrun with
  | context [coreclr_initialize host exe "sos" ?props] =>
      set (properties := props) in *
  end.
  destruct (FAILED (coreclr_initialize host exe "sos" properties)) eqn:Hinit.
  { injection Hrun as <- <-. cbn. rewrite Hs1, Hs2, Hs5, Hs7.
    repeat split; [eexists [_; _; _; _]; split; [now rewrite <- !app_assoc|repeat constructor]|].
    left. split; assumption. }
  destruct (forallb (operation_binds cfg host) (bound_operations cfg)) eqn:Hops.
  - match type of Hrun with
    | context [bind_operations cfg host (bound_operations cfg) ?st ?s2] =>
        destruct (bind_operations_all (bound_operations cfg) st s2 Hops)
          as (hrN & sN & HrunN & HokN & HsetN & HtrN)
    end.
    rewrite HrunN in Hrun. cbn in Hrun. injection Hrun as <- <-.
    destruct HsetN as (Hn1 & Hn2 & Hn3 & Hn4 & Hn5 & Hn6).
    cbn in Hn1, Hn2, Hn3, Hn4, Hn5, Hn6.
    unfold extends_trace in HtrN. cbn [trace log] in HtrN.
    cbn [fst snd g_symbolStoreInitialized g_tmpPath g_hostingInitialized trace set_hostingInitialized].
    rewrite Hn2, Hn6, Hs2, Hs5, HtrN, Hs7.
    repeat split.
    + exists (bootstrap_events cfg host
                (dir +:+ DIRECTORY_SEPARATOR_STR_A cfg +:+ MAIN_CLR_DLL_NAME_A cfg)
                exe properties (coreclr_initialize host exe "sos" properties)).
      split; [unfold bootstrap_events; now rewrite <- !app_assoc|].
      unfold bootstrap_events. apply Forall_app. split.
      * repeat constructor.
      * apply Forall_not_invoke_delegates.
    + right. split; [exact (HokN Hinit)|]. split; [reflexivity|].
      exists (dir +:+ DIRECTORY_SEPARATOR_STR_A cfg +:+ MAIN_CLR_DLL_NAME_A cfg), exe, properties.
      repeat split; try assumption.
      cbn [trace set_hostingInitialized]. rewrite HtrN, Hs7.
      unfold bootstrap_events. now rewrite <- !app_assoc.
  - apply not_true_iff_false in Hops. apply not_true_iff_false in Hops.
    match type of Hrun with
    | context [bind_operations cfg host (bound_operations cfg) ?st ?s2] =>
        destruct (bind_operations_some_fails (bound_operations cfg) st s2 Hops)
          as (hrN & sN & events & HrunN & HfN & HsetN & HtrN & HevN)
    end.
    rewrite HrunN in Hrun. injection Hrun as <- <-.
    destruct HsetN as (Hn1 & Hn2 & Hn3 & Hn4 & Hn5 & Hn6).
    cbn in Hn1, Hn2, Hn3, Hn4, Hn5, Hn6.
    unfold extends_trace in HtrN. cbn [trace log] in HtrN.
    rewrite Hn1, Hn2, Hn6, Hs1, Hs2, Hs5, HtrN, Hs7.
    repeat split.
    + eexists ([_; _; _; _] ++ events).
      split; [now rewrite <- !app_assoc|].
      apply Forall_app. split; [repeat constructor|exact HevN].
    + left. split; assumption.
Qed.

(** When the host lets every step succeed, a bootstrap that starts with
    the flag unset runs to its end. *)
Lemma InitializeHosting_every_step s :
  g_hostingInitialized s = false ->
  every_step_succeeds cfg host s ->
  exists hr s',
    InitializeHosting cfg host s = (hr, s')
    /\ FAILED hr = false /\ g_hostingInitialized s' = true.
Proof.
  intros Hflag ((v & s1 & Hr & Hload) & Hsos & Hp1 & Hp2 & Hexe & Hinit & Hops).
  unfold InitializeHosting, run, InitializeHosting_body.
  unfold mbind at 1, M_bind at 1, get. rewrite Hflag.
  unfold mbind at 1, M_bind at 1. rewrite Hr.
  destruct v as [coreClrPath dir]. cbn [fst] in Hload.
  destruct (sos_module_directory cfg host) as [sosdir|]; [|contradiction].
  unfold emit, modify, mbind, M_bind. rewrite Hload, Hp1, Hp2. cbn [negb orb].
  destruct (GetEntrypointExecutableAbsolutePath cfg host) as [exe|]; [|contradiction].
  rewrite Hinit.
  match goal with
  | |- context [bind_operations cfg host (bound_operations cfg) ?st ?s2] =>
      destruct (bind_operations_all (bound_operations cfg) st s2 Hops)
        as (hrN & sN & HrunN & HokN & _ & _)
  end.
  rewrite HrunN. eexists _, _. split; [reflexivity|].
  split; [apply HokN, Hinit|reflexivity].
Qed.

(** Once the flag is set the call answers [S_OK] and touches nothing,
    whatever the host would have answered. *)
Lemma InitializeHosting_set s :
  g_hostingInitialized s = true -> InitializeHosting cfg host s = (S_OK, s).
Proof.
  intros Hflag.
  unfold InitializeHosting, run, InitializeHosting_body.
  unfold mbind at 1, M_bind at 1, get. now rewrite Hflag.
Qed.

(** Whatever its outcome, [InitializeHosting] leaves the symbol-store
    flag and the scratch path alone and calls no bound operation. *)
Lemma InitializeHosting_frame s hr s' :
  InitializeHosting cfg host s = (hr, s') ->
  g_symbolStoreInitialized s' = g_symbolStoreInitialized s
  /\ g_tmpPath s' = g_tmpPath s
  /\ exists events, trace s' = trace s ++ events
                    /\ Forall (fun e => is_invoke e = false) events.
Proof.
  intros Hrun.
  destruct (g_hostingInitialized s) eqn:Hflag.
  - rewrite (InitializeHosting_set s Hflag) in Hrun. injection Hrun as <- <-.
    repeat split. exists []. split; [now rewrite app_nil_r|constructor].
  - destruct (InitializeHosting_unset s hr s' Hflag Hrun) as (H1 & H2 & H3 & _).
    repeat split; assumption.
Qed.

(** A failure of [InitializeHosting] leaves the hosting flag as it was:
    unset. *)
Lemma InitializeHosting_failed s hr s' :
  InitializeHosting cfg host s = (hr, s') -> FAILED hr = true ->
  g_hostingInitialized s = false /\ g_hostingInitialized s' = false.
Proof.
  intros Hrun Hf.
  destruct (g_hostingInitialized s) eqn:Hflag.
  - rewrite (InitializeHosting_set s Hflag) in Hrun. injection Hrun as <- <-.
    discriminate.
  - destruct (InitializeHosting_unset s hr s' Hflag Hrun)
      as (_ & _ & _ & [[_ Hunset]|(Hok & _)]); [tauto|congruence].
Qed.

End Bootstrap.

(** ** C2: the "initialized" flag of the hosting bootstrap *)
Section InitializedFlag.

Import Hosting.

(** C2. A call that finds the flag set returns [S_OK] at once and leaves
    state and trace as they were, whatever the host. A call that finds
    it unset leaves it set only when the runtime was loaded, both entry
    points were found, the runtime started and each of the ten
    operations was bound, and then it reports success; a call that
    fails leaves the flag unset, so that the next call runs the
    bootstrap again and, when the host then lets every step succeed,
    completes it. *)
Theorem InitializeHosting_flag (cfg : Config) (host : Host) (s : State) :
  (g_hostingInitialized s = true ->
   forall host', InitializeHosting cfg host' s = (S_OK, s))
  /\ (g_hostingInitialized s = false ->
      forall hr s', InitializeHosting cfg host s = (hr, s') ->
        (g_hostingInitialized s' = true ->
         FAILED hr = false /\ bootstrap_succeeded cfg host s s')
        /\ (FAILED hr = true ->
            g_hostingInitialized s' = false
            /\ forall host2, every_step_succeeds cfg host2 s' ->
                 exists hr2 s2,
                   InitializeHosting cfg host2 s' = (hr2, s2)
                   /\ FAILED hr2 = false
                   /\ g_hostingInitialized s2 = true
                   /\ bootstrap_succeeded cfg host2 s' s2)).
Proof.
  split.
  - intros Hflag host'. now apply InitializeHosting_set.
  - intros Hflag hr s' Hrun.
    destruct (InitializeHosting_unset cfg host s hr s' Hflag Hrun)
      as (_ & _ & _ & [[Hf Hunset]|(Hok & Hset & Hdone)]).
    + split; [intros Habs; congruence|].
      intros _. split; [exact Hunset|].
      intros host2 Hall.
      destruct (InitializeHosting_every_step cfg host2 s' Hunset Hall)
        as (hr2 & s2 & Hrun2 & Hok2 & Hset2).
      exists hr2, s2. repeat split; try assumption.
      destruct (InitializeHosting_unset cfg host2 s' hr2 s2 Hunset Hrun2)
        as (_ & _ & _ & [[Hf2 _]|(_ & _ & Hdone2)]); [congruence|exact Hdone2].
    + split; [intros _; split; assumption|].
      intros Hf. congruence.
Qed.

(** On the Linux machine of the examples: the first bootstrap cannot
    load the runtime and fails; the next call, against a host that
    loads it, runs the bootstrap to its end. *)
Lemma InitializeHosting_flag_witness :
  g_hostingInitialized
    (snd (InitializeHosting Fixtures.cfg_linux Fixtures.host_without_runtime
            Fixtures.initial_state)) = false
  /\ exists hr2 s2,
       InitializeHosting Fixtures.cfg_linux Fixtures.healthy_host
         (snd (InitializeHosting Fixtures.cfg_linux Fixtures.host_without_runtime
                 Fixtures.initial_state)) = (hr2, s2)
       /\ FAILED hr2 = false
       /\ g_hostingInitialized s2 = true
       /\ bootstrap_succeeded Fixtures.cfg_linux Fixtures.healthy_host
            (snd (InitializeHosting Fixtures.cfg_linux Fixtures.host_without_runtime
                    Fixtures.initial_state)) s2.
Proof.
  destruct (proj2 (InitializeHosting_flag Fixtures.cfg_linux
                     Fixtures.host_without_runtime Fixtures.initial_state)
              eq_refl E_FAIL
              (snd (InitializeHosting Fixtures.cfg_linux Fixtures.host_without_runtime
                      Fixtures.initial_state)) eq_refl)
    as [_ Hfail].
  destruct (Hfail eq_refl) as [Hunset Hretry].
  split; [exact Hunset|].
  apply Hretry.
  repeat split; try reflexivity; try discriminate.
  eexists _, _. split; reflexivity.
Defined.

End InitializedFlag.

(** ** C1: [DataTarget::GetThreadContext] *)
Section GetThreadContext.

Import DbgEng.

(** C1. On the path that switches the engine's current thread, once
    the switch to the requested thread has succeeded the call ends by
    asking the engine to make the original thread current again, on the
    state the context fetch left, whether the fetch succeeded or
    failed; the result code and the context returned are the fetch's.
    An engine that accepts the request and makes the thread it is given
    current then has the original thread current on return. *)
Theorem GetThreadContext_restores_thread {E : Type}
    (ContextFlags_offset : nat) (g : Globals E)
    (ExtSystem : IDebugSystemObjects E) (ExtAdvanced : IDebugAdvanced E)
    (threadID contextFlags contextSize : Z) (context : list Z)
    (e e1 e2 e3 : E) (hr0 hr1 hr2 : HRESULT) (orig requested : Z) :
  g_ExtSystem g = Some ExtSystem ->
  g_ExtAdvanced g = Some ExtAdvanced ->
  GetCurrentThreadId ExtSystem e = (hr0, orig, e1) -> FAILED hr0 = false ->
  GetThreadIdBySystemId ExtSystem threadID e1 = (hr1, requested, e2) ->
  FAILED hr1 = false ->
  SetCurrentThreadId ExtSystem requested e2 = (hr2, e3) -> FAILED hr2 = false ->
  let fetch :=
    DbgEng.GetThreadContext ExtAdvanced
      (DataTarget.prepare_context ContextFlags_offset contextFlags contextSize context)
      contextSize e3 in
  let restore := SetCurrentThreadId ExtSystem orig (snd fetch) in
  DataTarget.GetThreadContext false ContextFlags_offset g
    threadID contextFlags contextSize context e
  = (fst (fst fetch), snd (fst fetch), snd restore)
  /\ forall current : E -> Z,
       (forall id x, FAILED (fst (SetCurrentThreadId ExtSystem id x)) = false ->
                     current (snd (SetCurrentThreadId ExtSystem id x)) = id) ->
       FAILED (fst restore) = false ->
       current (snd restore) = orig.
Proof.
  intros Hsys Hadv H0 Hf0 H1 Hf1 H2 Hf2 fetch restore.
  split.
  - unfold DataTarget.GetThreadContext. rewrite Hsys, Hadv.
    rewrite H0, Hf0, H1, Hf1, H2, Hf2.
    subst restore fetch.
    destruct (DbgEng.GetThreadContext ExtAdvanced _ contextSize e3)
      as [[hr context'] e4].
    cbn [fst snd].
    destruct (SetCurrentThreadId ExtSystem orig e4) as [hr5 e5].
    reflexivity.
  - intros current Hlaw Hok. exact (Hlaw orig (snd fetch) Hok).
Qed.

(** Thread 4242 is asked for while thread 0 is current and no context
    can be read: the call fails with the fetch's code and thread 0 is
    current again. *)
Lemma GetThreadContext_restores_thread_witness :
  fst (fst (DataTarget.GetThreadContext false 48 (Fixtures.sim_globals true None)
              4242 0x10000b 1232 (replicate 1232 0xcc) Fixtures.stopped_engine))
  = E_FAIL
  /\ Fixtures.current_thread
       (snd (DataTarget.GetThreadContext false 48 (Fixtures.sim_globals true None)
               4242 0x10000b 1232 (replicate 1232 0xcc) Fixtures.stopped_engine))
     = Fixtures.current_thread Fixtures.stopped_engine.
Proof.
  destruct (GetThreadContext_restores_thread 48 (Fixtures.sim_globals true None)
              Fixtures.sim_system Fixtures.sim_advanced
              4242 0x10000b 1232 (replicate 1232 0xcc)
              Fixtures.stopped_engine Fixtures.stopped_engine Fixtures.stopped_engine
              (Fixtures.select_thread 2 Fixtures.stopped_engine)
              S_OK S_OK S_OK 0 2
              eq_refl eq_refl eq_refl eq_refl eq_refl eq_refl eq_refl eq_refl)
    as [Hrun Hcurrent].
  rewrite Hrun. split; [reflexivity|].
  apply (Hcurrent Fixtures.current_thread); [|reflexivity].
  intros id x. cbn.
  destruct (existsb (fun t => fst t =? id) (Fixtures.known_threads x));
    [reflexivity|discriminate].
Defined.

End GetThreadContext.

(** ** C6: [DataTarget::ReadVirtual] *)
Section ReadVirtual.

Import DbgEng.

(** C6, as amended. Where the core-dump reader synthesizes zero pages
    ([FEATURE_PAL]), with the memory service attached and the runtime's
    data-access interface [g_sos] available, a read that overlaps a
    known metadata range fails with [E_ACCESSDENIED] and the memory
    service is not asked; a read that overlaps none is the memory
    service's answer. Without [g_sos] every read is forwarded; without
    the memory service every read fails with [E_UNEXPECTED]. *)
Theorem ReadVirtual_metadata_guard {E : Type} (g : Globals E)
    (address : Z) (buffer : list Z) (request done0 : Z) (e : E) :
  (g_ExtData g = None ->
   forall pal, DataTarget.ReadVirtual pal g address buffer request done0 e
               = (E_UNEXPECTED, buffer, done0, e))
  /\ forall ExtData, g_ExtData g = Some ExtData ->
       (g_sos g <> None ->
        DataTarget.IsMetadataMemory (metadataRegions g) address request = true ->
        DataTarget.ReadVirtual true g address buffer request done0 e
        = (E_ACCESSDENIED, buffer, done0, e))
       /\ (g_sos g = None
           \/ DataTarget.IsMetadataMemory (metadataRegions g) address request = false ->
           DataTarget.ReadVirtual true g address buffer request done0 e
           = DbgEng.ReadVirtual ExtData address buffer request e)
       /\ DataTarget.ReadVirtual false g address buffer request done0 e
          = DbgEng.ReadVirtual ExtData address buffer request e.
Proof.
  unfold DataTarget.ReadVirtual. split.
  - intros Hnone pal. now rewrite Hnone.
  - intros ExtData Hdata. rewrite Hdata. repeat split.
    + intros Hsos Hmeta. rewrite Hmeta.
      rewrite bool_decide_eq_true_2 by exact Hsos. reflexivity.
    + intros [Hsos|Hmeta].
      * rewrite bool_decide_eq_false_2 by (intros H; apply H; exact Hsos).
        reflexivity.
      * rewrite Hmeta. now rewrite andb_false_r.
Qed.

(** With [g_sos] available, a read inside the metadata range of the
    example is refused although the memory service would have answered
    zeros. *)
Lemma ReadVirtual_metadata_guard_witness :
  DataTarget.ReadVirtual true (Fixtures.sim_globals true (Some tt))
    0x7f0000000100 [] 16 0 Fixtures.stopped_engine
  = (E_ACCESSDENIED, [], 0, Fixtures.stopped_engine).
Proof.
  apply (proj2 (ReadVirtual_metadata_guard (Fixtures.sim_globals true (Some tt))
                  0x7f0000000100 [] 16 0 Fixtures.stopped_engine)
           Fixtures.sim_data eq_refl);
    [discriminate|reflexivity].
Defined.

(** The same read with [g_sos] null is forwarded and answers zeros;
    with no memory service it fails with [E_UNEXPECTED]. *)
Lemma ReadVirtual_overlap_not_refused :
  DataTarget.IsMetadataMemory
    (metadataRegions (Fixtures.sim_globals true None)) 0x7f0000000100 16 = true
  /\ DataTarget.ReadVirtual true (Fixtures.sim_globals true None)
       0x7f0000000100 [] 16 0 Fixtures.stopped_engine
     = (S_OK, replicate 16 0, 16, Fixtures.stopped_engine)
  /\ DataTarget.ReadVirtual true (Fixtures.sim_globals false (Some tt))
       0x7f0000000100 [] 16 0 Fixtures.stopped_engine
     = (E_UNEXPECTED, [], 0, Fixtures.stopped_engine)
  /\ E_UNEXPECTED <> E_ACCESSDENIED.
Proof. repeat split. discriminate. Qed.

End ReadVirtual.

(** ** C8: [DataTarget::GetMetadata] *)
Section GetMetadata.

Import Hosting.

(** C8, as amended. [GetMetadata] first calls [InitializeHosting]. When
    that fails the call returns its result code unchanged, the buffer
    and the size are left as they were, the symbol store is not touched
    and no bound operation has been called. When it succeeds the
    [.sympath] initialization of the symbol store runs and the request
    is then forwarded to the metadata-locator operation, whose answer
    is returned. *)
Theorem GetMetadata_after_bootstrap (cfg : Config) (host : Host)
    (request : MetadataRequest) (buffer0 : list Z) (dataSize0 : Z) (s : State) :
  let hr := fst (InitializeHosting cfg host s) in
  let s1 := snd (InitializeHosting cfg host s) in
  (FAILED hr = true ->
   DataTarget.GetMetadata cfg host request buffer0 dataSize0 s
   = (hr, buffer0, dataSize0, s1)
   /\ g_hostingInitialized s1 = false
   /\ g_symbolStoreInitialized s1 = g_symbolStoreInitialized s
   /\ exists events, trace s1 = trace s ++ events
                     /\ Forall (fun e => is_invoke e = false) events)
  /\ (FAILED hr = false ->
      let s2 := InitializeSymbolStore_sympath cfg host s1 in
      let address := g_SOSNetCoreCallbacks s2 GetMetadataLocatorDelegate in
      DataTarget.GetMetadata cfg host request buffer0 dataSize0 s
      = (managed_GetMetadataLocator host address request,
         log (EvInvoke GetMetadataLocatorDelegate address
                (CallGetMetadataLocator request)) s2)).
Proof.
  intros hr s1. subst hr s1.
  unfold DataTarget.GetMetadata.
  destruct (InitializeHosting cfg host s) as [hr s1] eqn:Hrun. cbn [fst snd].
  split.
  - intros Hf. rewrite Hf. split; [reflexivity|].
    destruct (InitializeHosting_failed cfg host s hr s1 Hrun Hf) as [_ Hunset].
    destruct (InitializeHosting_frame cfg host s hr s1 Hrun) as (Hsym & _ & Hev).
    repeat split; assumption.
  - intros Hok. rewrite Hok. cbv zeta.
    destruct (managed_GetMetadataLocator host _ request) as [[hr' buffer] dataSize].
    reflexivity.
Qed.

(** The runtime library cannot be loaded: the request comes back with
    [E_FAIL], nothing was written and no operation was called. *)
Lemma GetMetadata_after_bootstrap_witness :
  DataTarget.GetMetadata Fixtures.cfg_linux Fixtures.host_without_runtime
    Fixtures.a_request [] 0 Fixtures.initial_state
  = (E_FAIL, [], 0,
     snd (InitializeHosting Fixtures.cfg_linux Fixtures.host_without_runtime
            Fixtures.initial_state)).
Proof.
  apply (proj1 (GetMetadata_after_bootstrap Fixtures.cfg_linux
                  Fixtures.host_without_runtime Fixtures.a_request [] 0
                  Fixtures.initial_state)).
  reflexivity.
Defined.

(** The code a failed bootstrap hands back is the bootstrap's own,
    here [E_FAIL], not [E_UNEXPECTED]. *)
Lemma GetMetadata_bootstrap_failure_code :
  fst (fst (fst (DataTarget.GetMetadata Fixtures.cfg_linux
                   Fixtures.host_without_runtime Fixtures.a_request [] 0
                   Fixtures.initial_state)))
  = E_FAIL
  /\ E_FAIL <> E_UNEXPECTED.
Proof. split; [reflexivity|discriminate]. Qed.

End GetMetadata.

(** ** C10: the two initializations of the symbol store *)
Section SymbolStore.

Import Hosting.

Lemma parse_symbol_path_flag host s :
  g_symbolStoreInitialized (parse_symbol_path host s) = g_symbolStoreInitialized s.
Proof.
  unfold parse_symbol_path.
  destruct (ExtSymbols_GetSymbolPath host) as [hr symbolPath].
  destruct (SUCCEEDED hr); [|reflexivity].
  destruct (0 <? Str.strlen symbolPath); [|reflexivity].
  destruct (negb _); reflexivity.
Qed.

(** The explicit variant leaves the flag as it was when it fails and
    has it set when it succeeds. *)
Lemma InitializeSymbolStore_result_flag cfg host logging msdl symweb
    symbolServer cacheDirectory s hr s' :
  InitializeSymbolStore cfg host logging msdl symweb symbolServer cacheDirectory s
  = (hr, s') ->
  (FAILED hr = true ->
   g_symbolStoreInitialized s' = g_symbolStoreInitialized s)
  /\ (FAILED hr = false ->
      g_symbolStoreInitialized s' = true
      /\ managed_InitializeSymbolStore host
           (g_SOSNetCoreCallbacks s' InitializeSymbolStoreDelegate)
           logging msdl symweb symbolServer cacheDirectory None = true).
Proof.
  intros Hrun.
  unfold InitializeSymbolStore, run, IfFailRet, call in Hrun.
  unfold mbind, M_bind, get, emit, modify, return_, mret, M_ret in Hrun.
  destruct (InitializeHosting cfg host s) as [hr0 s0] eqn:Hboot.
  destruct (InitializeHosting_frame cfg host s hr0 s0 Hboot) as (Hsym & _ & _).
  destruct (FAILED hr0) eqn:Hf0.
  - injection Hrun as <- <-. split; [intros _; exact Hsym|congruence].
  - destruct (managed_InitializeSymbolStore host _ logging msdl symweb
                symbolServer cacheDirectory None) eqn:Hinit;
      cbn [negb] in Hrun; injection Hrun as <- <-.
    + split; [discriminate|]. intros _. split; [reflexivity|exact Hinit].
    + split; [intros _; exact Hsym|discriminate].
Qed.

(** No initialization clears a flag that is set. *)
Lemma initialize_store_keeps_flag cfg s init :
  g_symbolStoreInitialized s = true ->
  g_symbolStoreInitialized (initialize_store cfg s init) = true.
Proof.
  intros Hflag. destruct init as [host|host logging msdl symweb server cache];
    cbn [initialize_store].
  - unfold InitializeSymbolStore_sympath.
    destruct (FEATURE_PAL (os cfg)); [exact Hflag|]. now rewrite Hflag.
  - destruct (InitializeSymbolStore cfg host logging msdl symweb server cache s)
      as [hr s'] eqn:Hrun.
    destruct (InitializeSymbolStore_result_flag _ _ _ _ _ _ _ _ _ _ Hrun)
      as [Hfail Hok].
    cbn [snd]. destruct (FAILED hr).
    + now rewrite Hfail.
    + now apply Hok.
Qed.

(** While the flag is set, the no-argument initializations of any
    later sequence can be left out: they do nothing. *)
Lemma sympath_calls_erased cfg later : forall s,
  g_symbolStoreInitialized s = true ->
  fold_left (initialize_store cfg) later s
  = fold_left (initialize_store cfg) (List.filter from_arguments later) s.
Proof.
  induction later as [|init rest IH]; intros s Hflag; [reflexivity|].
  cbn [fold_left List.filter].
  destruct init as [host|host logging msdl symweb server cache];
    cbn [from_arguments].
  - cbn [initialize_store]. unfold InitializeSymbolStore_sympath.
    rewrite Hflag. cbn [negb].
    destruct (FEATURE_PAL (os cfg)); now apply IH.
  - cbn [fold_left]. apply IH. now apply initialize_store_keeps_flag.
Qed.

(** C10, as amended. Where the body of the [.sympath] variant is
    compiled in (no [FEATURE_PAL]), a call that finds the store not
    enabled first sets the enabled flag and only then reads and parses
    the search path, so the flag is set afterwards whatever the parsing
    operation answers. After a call the flag is set, and in every
    later sequence of initializations, of either variant and on any
    host, the [.sympath] ones do nothing: the parse is not attempted
    again while the flag stays set. Once [DisableSymbolStore] has
    cleared the flag, the [.sympath] initialization that follows
    parses again. Under [FEATURE_PAL] the body is compiled out: the
    call changes nothing. The variant
    with explicit arguments leaves the flag as it was when it fails and
    sets it only once its initialize operation has answered success. *)
Theorem InitializeSymbolStore_flag (cfg : Config) (host : Host) (s : State) :
  (FEATURE_PAL (os cfg) = false ->
   let s1 := InitializeSymbolStore_sympath cfg host s in
   (g_symbolStoreInitialized s = false ->
    s1 = parse_symbol_path host (set_symbolStoreInitialized true s))
   /\ g_symbolStoreInitialized s1 = true
   /\ (forall later,
         fold_left (initialize_store cfg) later s1
         = fold_left (initialize_store cfg) (List.filter from_arguments later) s1)
   /\ (forall host2,
         InitializeSymbolStore_sympath cfg host2 (DisableSymbolStore s1)
         = parse_symbol_path host2
             (set_symbolStoreInitialized true (DisableSymbolStore s1))))
  /\ (FEATURE_PAL (os cfg) = true -> InitializeSymbolStore_sympath cfg host s = s)
  /\ forall logging msdl symweb symbolServer cacheDirectory hr s',
       InitializeSymbolStore cfg host logging msdl symweb symbolServer cacheDirectory s
       = (hr, s') ->
       (FAILED hr = true ->
        g_symbolStoreInitialized s' = g_symbolStoreInitialized s)
       /\ (FAILED hr = false ->
           g_symbolStoreInitialized s' = true
           /\ managed_InitializeSymbolStore host
                (g_SOSNetCoreCallbacks s' InitializeSymbolStoreDelegate)
                logging msdl symweb symbolServer cacheDirectory None = true).
Proof.
  split; [|split].
  - intros Hpal s1.
    assert (Hset : g_symbolStoreInitialized s1 = true).
    { subst s1. unfold InitializeSymbolStore_sympath. rewrite Hpal.
      destruct (g_symbolStoreInitialized s) eqn:Hflag; cbn [negb]; [exact Hflag|].
      now rewrite parse_symbol_path_flag. }
    split.
    { intros Hflag. subst s1. unfold InitializeSymbolStore_sympath.
      now rewrite Hpal, Hflag. }
    split; [exact Hset|]. split.
    { intros later. now apply sympath_calls_erased. }
    intros host2. unfold InitializeSymbolStore_sympath, DisableSymbolStore.
    rewrite Hpal, Hset. reflexivity.
  - intros Hpal. unfold InitializeSymbolStore_sympath. now rewrite Hpal.
  - intros logging msdl symweb symbolServer cacheDirectory hr s' Hrun.
    exact (InitializeSymbolStore_result_flag _ _ _ _ _ _ _ _ _ _ Hrun).
Qed.

(** On Windows, with a search path the managed side cannot parse, the
    store is marked enabled all the same. *)
Lemma InitializeSymbolStore_flag_witness :
  g_symbolStoreInitialized
    (InitializeSymbolStore_sympath Fixtures.cfg_windows
       (Fixtures.make_host true (fun _ => S_OK) (S_OK, "srv**bad") false)
       Fixtures.initial_state) = true.
Proof.
  apply (proj1 (InitializeSymbolStore_flag Fixtures.cfg_windows
                  (Fixtures.make_host true (fun _ => S_OK) (S_OK, "srv**bad") false)
                  Fixtures.initial_state)).
  reflexivity.
Defined.

(** Under [FEATURE_PAL], here on Linux, the [.sympath] initialization
    leaves the store not enabled and invokes nothing, also when it is
    reached through [GetMetadata] after a successful bootstrap. On
    Windows, after a parse that failed, [DisableSymbolStore] followed
    by the [.sympath] initialization invokes the parsing operation a
    second time. *)
Lemma InitializeSymbolStore_sympath_compiled_out :
  InitializeSymbolStore_sympath Fixtures.cfg_linux Fixtures.healthy_host
    Fixtures.initial_state
  = Fixtures.initial_state
  /\ g_symbolStoreInitialized
       (InitializeSymbolStore_sympath Fixtures.cfg_linux Fixtures.healthy_host
          Fixtures.initial_state) = false
  /\ g_hostingInitialized
       (snd (DataTarget.GetMetadata Fixtures.cfg_linux Fixtures.healthy_host
               Fixtures.a_request [] 0 Fixtures.initial_state)) = true
  /\ g_symbolStoreInitialized
       (snd (DataTarget.GetMetadata Fixtures.cfg_linux Fixtures.healthy_host
               Fixtures.a_request [] 0 Fixtures.initial_state)) = false
  /\ (let unparsable :=
        Fixtures.make_host true (fun _ => S_OK) (S_OK, "srv**bad") false in
      let parse :=
        EvInvoke InitializeSymbolStoreDelegate 0
          (CallInitializeSymbolStore false false false None None (Some "srv**bad")) in
      trace
        (InitializeSymbolStore_sympath Fixtures.cfg_windows unparsable
           (DisableSymbolStore
              (InitializeSymbolStore_sympath Fixtures.cfg_windows unparsable
                 Fixtures.initial_state)))
      = [parse; EvInvoke DisableSymbolStoreDelegate 0 CallDisableSymbolStore; parse]).
Proof. repeat split. Qed.

End SymbolStore.

(** ** C9: the scratch directory is removed once *)
Section Shutdown.

Import Hosting.

Variable cfg : Config.

Lemma set_tmpPath_same s : g_tmpPath s = None -> set_tmpPath None s = s.
Proof. destruct s; simpl; intros ->; reflexivity. Qed.

(** The deletion loop logs one [DeleteFileA] per entry that is not a
    directory and changes nothing else. *)
Lemma delete_files_run (tmpPath : string) entries : forall s,
  let s' :=
    fold_left
      (fun s data =>
         if negb (isDirectory data)
         then log (EvDeleteFile (tmpPath +:+ cFileName data)) s else s)
      entries s in
  g_tmpPath s' = g_tmpPath s
  /\ trace s' = trace s ++ map (fun data => EvDeleteFile (tmpPath +:+ cFileName data))
                             (List.filter (fun data => negb (isDirectory data)) entries).
Proof.
  induction entries as [|d rest IH]; intros s; cbn.
  - split; [reflexivity|now rewrite app_nil_r].
  - destruct (isDirectory d); cbn [negb].
    + apply IH.
    + destruct (IH (log (EvDeleteFile (tmpPath +:+ cFileName d)) s)) as [Ht Htr].
      split; [exact Ht|]. cbn in Htr |- *. rewrite Htr. now rewrite <- app_assoc.
Qed.

Lemma remove_scratch_some host tmpPath s :
  g_tmpPath (remove_scratch cfg host (Some tmpPath) s) = g_tmpPath s
  /\ trace (remove_scratch cfg host (Some tmpPath) s)
     = trace s ++ scratch_deletions cfg host tmpPath ++ [EvRemoveDirectory tmpPath].
Proof.
  unfold remove_scratch, scratch_deletions.
  destruct (delete_files_run tmpPath
              (FindFiles (DIRECTORY_SEPARATOR_CHAR_A cfg) (fs host) (tmpPath +:+ "*")) s)
    as [Ht Htr].
  cbn in Ht, Htr |- *. rewrite Ht, Htr. split; [reflexivity|now rewrite <- app_assoc].
Qed.

Lemma removals_app l1 l2 : removals (l1 ++ l2) = (removals l1 + removals l2)%nat.
Proof. unfold removals. now rewrite List.filter_app, length_app. Qed.

Lemma removals_deletions host tmpPath : removals (scratch_deletions cfg host tmpPath) = 0%nat.
Proof.
  unfold scratch_deletions.
  induction (List.filter _ _) as [|d rest IH]; [reflexivity|exact IH].
Qed.

Lemma remove_scratch_removals host tmpPath s :
  removals (trace (remove_scratch cfg host tmpPath s))
  = (removals (trace s) + owed (Exchanged tmpPath))%nat.
Proof.
  destruct tmpPath as [p|]; cbn [owed].
  - destruct (remove_scratch_some host p s) as [_ Htr]. rewrite Htr.
    rewrite !removals_app, removals_deletions. reflexivity.
  - cbn. lia.
Qed.

Lemma SOSShutdown_clears host s : g_tmpPath (SOSShutdown cfg host s) = None.
Proof.
  unfold SOSShutdown, InterlockedExchange_tmpPath.
  destruct (g_tmpPath s) as [p|].
  - destruct (remove_scratch_some host p (set_tmpPath None s)) as [Ht _].
    rewrite Ht. reflexivity.
  - reflexivity.
Qed.

Lemma SOSShutdown_nothing host s : g_tmpPath s = None -> SOSShutdown cfg host s = s.
Proof.
  intros Hnone. unfold SOSShutdown, InterlockedExchange_tmpPath.
  rewrite Hnone. cbn. now apply set_tmpPath_same.
Qed.

Lemma SOSShutdown_removals host s :
  removals (trace (SOSShutdown cfg host s)) = (removals (trace s) + standing s)%nat.
Proof.
  unfold SOSShutdown, InterlockedExchange_tmpPath, standing.
  rewrite remove_scratch_removals. cbn [trace set_tmpPath owed].
  destruct (g_tmpPath s); reflexivity.
Qed.

(** C9. An invocation of [SOSShutdown] that finds a scratch path
    exchanges it for null, deletes the files of the directory and then
    removes the directory; an invocation that finds null changes
    nothing. So a second invocation after a first does nothing, and
    however many invocations follow one another the directory is
    removed at most once. *)
Theorem SOSShutdown_at_most_once (host : Host) (s : State) :
  (forall tmpPath, g_tmpPath s = Some tmpPath ->
     g_tmpPath (SOSShutdown cfg host s) = None
     /\ trace (SOSShutdown cfg host s)
        = trace s ++ scratch_deletions cfg host tmpPath ++ [EvRemoveDirectory tmpPath])
  /\ (g_tmpPath s = None -> SOSShutdown cfg host s = s)
  /\ (forall host2,
        SOSShutdown cfg host2 (SOSShutdown cfg host s) = SOSShutdown cfg host s)
  /\ forall hosts : list Host,
       (removals (trace (fold_left (fun s h => SOSShutdown cfg h s) hosts s))
        <= removals (trace s) + 1)%nat.
Proof.
  split; [|split; [|split]].
  - intros tmpPath Hsome. split; [apply SOSShutdown_clears|].
    unfold SOSShutdown, InterlockedExchange_tmpPath. rewrite Hsome.
    destruct (remove_scratch_some host tmpPath (set_tmpPath None s)) as [_ Htr].
    exact Htr.
  - apply SOSShutdown_nothing.
  - intros host2. apply SOSShutdown_nothing, SOSShutdown_clears.
  - intros hosts. destruct hosts as [|h rest]; [cbn; lia|].
    cbn [fold_left].
    assert (Hrest : forall t, g_tmpPath t = None ->
              fold_left (fun s h => SOSShutdown cfg h s) rest t = t).
    { induction rest as [|h' rest IH]; intros t Ht; [reflexivity|].
      cbn [fold_left]. rewrite (SOSShutdown_nothing h' t Ht). now apply IH. }
    rewrite Hrest by apply SOSShutdown_clears.
    rewrite SOSShutdown_removals. unfold standing.
    destruct (g_tmpPath s); lia.
Qed.

End Shutdown.

(** After [GetTempDirectory] made the scratch directory of process
    4242, the first shutdown deletes its two files and removes it; the
    second does nothing. *)
Lemma SOSShutdown_at_most_once_witness :
  Hosting.trace
    (Hosting.SOSShutdown Fixtures.cfg_linux Fixtures.healthy_host
       (Hosting.SOSShutdown Fixtures.cfg_linux Fixtures.healthy_host
          (snd (Hosting.GetTempDirectory Fixtures.cfg_linux Fixtures.healthy_host
                  Fixtures.initial_state))))
  = [ Hosting.EvCreateDirectory "/tmp/sos4242/";
      Hosting.EvDeleteFile "/tmp/sos4242/libmscordaccore.so";
      Hosting.EvDeleteFile "/tmp/sos4242/a.pdb";
      Hosting.EvRemoveDirectory "/tmp/sos4242/" ].
Proof.
  rewrite (proj1 (proj2 (proj2 (SOSShutdown_at_most_once Fixtures.cfg_linux
                                  Fixtures.healthy_host
                                  (snd (Hosting.GetTempDirectory Fixtures.cfg_linux
                                          Fixtures.healthy_host
                                          Fixtures.initial_state))))) Fixtures.healthy_host).
  reflexivity.
Defined.

(** ** [SOSShutdown] entered twice at once *)
Section ShutdownInterleaved.

Import Hosting.

Variable cfg : Config.
Variable host : Host.

Lemma shutdown_step_balance p s :
  let '(p', s') := shutdown_step cfg host p s in
  (removals (trace s') + owed p' + standing s'
   = removals (trace s) + owed p + standing s)%nat.
Proof.
  destruct p as [|tmpPath|]; cbn [shutdown_step].
  - unfold InterlockedExchange_tmpPath, standing, removals. cbn.
    destruct (g_tmpPath s); cbn; lia.
  - rewrite remove_scratch_removals.
    assert (Ht : g_tmpPath (remove_scratch cfg host tmpPath s) = g_tmpPath s).
    { destruct tmpPath as [q|]; [apply (remove_scratch_some cfg host q s)|reflexivity]. }
    unfold standing. rewrite Ht. cbn [owed]. lia.
  - lia.
Qed.

(** However the steps of two invocations interleave, what has been
    removed, what is still owed and what the pointer stands for add up
    to the same number. *)
Lemma interleave_balance schedule : forall a b s,
  let '(a', b', s') := interleave cfg host schedule a b s in
  (removals (trace s') + owed a' + owed b' + standing s'
   = removals (trace s) + owed a + owed b + standing s)%nat.
Proof.
  induction schedule as [|[|] rest IH]; intros a b s; cbn [interleave].
  - reflexivity.
  - pose proof (shutdown_step_balance a s) as Hstep.
    destruct (shutdown_step cfg host a s) as [a1 s1].
    specialize (IH a1 b s1).
    destruct (interleave cfg host rest a1 b s1) as [[a' b'] s']. lia.
  - pose proof (shutdown_step_balance b s) as Hstep.
    destruct (shutdown_step cfg host b s) as [b1 s1].
    specialize (IH a b1 s1).
    destruct (interleave cfg host rest a b1 s1) as [[a' b'] s']. lia.
Qed.

(** Two invocations entered together remove the directory at most once
    whatever the schedule. *)
Lemma SOSShutdown_interleaved_at_most_once schedule s :
  (removals (trace (snd (interleave cfg host schedule NotStarted NotStarted s)))
   <= removals (trace s) + 1)%nat.
Proof.
  pose proof (interleave_balance schedule NotStarted NotStarted s) as H.
  destruct (interleave cfg host schedule NotStarted NotStarted s) as [[a' b'] s'].
  cbn [snd owed] in *. unfold standing in H at 2.
  destruct (g_tmpPath s); lia.
Qed.

End ShutdownInterleaved.

(** ** C4: the choice of the hosting runtime *)
Section RuntimeSelection.

Import Hosting.

Variable cfg : Config.
Variable host : Host.

Section OneVersion.

Variables major minor : Z.

Lemma version_directory_named data revision :
  version_directory host major minor data revision ->
  (0 <? Str.strlen (cFileName data)) = true.
Proof.
  intros [_ Hscan]. destruct (cFileName data) as [|c rest].
  - discriminate.
  - unfold Str.strlen. cbn [String.length]. apply Z.ltb_lt. lia.
Qed.

Lemma consider_version_step acc data :
  consider_version host major minor acc data
  = match decide (isDirectory data = true) with
    | left _ =>
        match sscanf_s_version host (cFileName data) with
        | Some (M, m, r) =>
            if (M =? major) && (m =? minor) && (r >=? fst acc)
            then (r, cFileName data) else acc
        | None => acc
        end
    | right _ => acc
    end.
Proof.
  unfold consider_version. destruct acc as [hi v]. cbn [fst].
  destruct (decide (isDirectory data = true)) as [Hd|Hd].
  - rewrite Hd.
    destruct (sscanf_s_version host (cFileName data)) as [[[M m] r]|]; [|reflexivity].
    destruct (M =? major), (m =? minor), (r >=? hi); reflexivity.
  - destruct (isDirectory data); [congruence|reflexivity].
Qed.

Lemma consider_version_fold entries : forall hi v,
  0 <= hi ->
  let '(hi', v') := fold_left (consider_version host major minor) entries (hi, v) in
  hi <= hi'
  /\ (forall data revision,
        In data entries -> version_directory host major minor data revision ->
        revision <= hi')
  /\ ((v' = v /\ hi' = hi
       /\ forall data revision,
            In data entries -> version_directory host major minor data revision ->
            revision < hi)
      \/ exists data, In data entries /\ version_directory host major minor data hi'
                      /\ cFileName data = v').
Proof.
  induction entries as [|d rest IH]; intros hi v Hhi; cbn [fold_left].
  - split; [lia|]. split; [intros ? ? []|]. left. repeat split. intros ? ? [].
  - rewrite consider_version_step. cbn [fst].
    (* the entry is passed over unless it is a directory that reads as
       [major.minor.r] with [r] at least [hi] *)
    assert (Hpass : forall (Hskip : forall revision,
                       version_directory host major minor d revision -> revision < hi),
              let '(hi', v') :=
                fold_left (consider_version host major minor) rest (hi, v) in
              hi <= hi'
              /\ (forall data revision,
                    In data (d :: rest) ->
                    version_directory host major minor data revision ->
                    revision <= hi')
              /\ ((v' = v /\ hi' = hi
                   /\ forall data revision,
                        In data (d :: rest) ->
                        version_directory host major minor data revision ->
                        revision < hi)
                  \/ exists data,
                       In data (d :: rest)
                       /\ version_directory host major minor data hi'
                       /\ cFileName data = v')).
    { intros Hskip. specialize (IH hi v Hhi).
      destruct (fold_left _ rest _) as [hi' v'].
      destruct IH as (Hle & Hmax & Hsel).
      split; [exact Hle|]. split.
      - intros data revision [<-|Hin] Hv; [|exact (Hmax data revision Hin Hv)].
        specialize (Hskip revision Hv). lia.
      - destruct Hsel as [(-> & -> & Hnone)|(data & Hin & Hv & Hname)].
        + left. repeat split.
          intros data revision [<-|Hin] Hv; [|exact (Hnone data revision Hin Hv)].
          exact (Hskip revision Hv).
        + right. exists data. split; [now right|]. split; assumption. }
    destruct (decide (isDirectory d = true)) as [Hd|Hd];
      [|apply Hpass; intros revision [Hv _]; contradiction].
    destruct (sscanf_s_version host (cFileName d)) as [[[M m] r]|] eqn:Hscan;
      [|apply Hpass; intros revision [_ Hv]; congruence].
    destruct ((M =? major) && (m =? minor) && (r >=? hi)) eqn:Hc.
    + clear Hpass.
      apply andb_prop in Hc as [Hc Hr]. apply andb_prop in Hc as [HM Hm].
      apply Z.eqb_eq in HM, Hm. subst M m.
      apply Z.geb_le in Hr.
      specialize (IH r (cFileName d) ltac:(lia)).
      destruct (fold_left _ rest _) as [hi' v'].
      destruct IH as (Hle & Hmax & Hsel).
      split; [lia|]. split.
      * intros data revision [<-|Hin] Hv; [|exact (Hmax data revision Hin Hv)].
        destruct Hv as [_ Hv]. rewrite Hscan in Hv. injection Hv as <-. exact Hle.
      * right. destruct Hsel as [(-> & -> & _)|(data & Hin & Hv & Hname)].
        -- exists d. split; [now left|]. split; [split; assumption|reflexivity].
        -- exists data. split; [now right|]. split; assumption.
    + apply Hpass. intros revision [_ Hv].
      rewrite Hscan in Hv. injection Hv as -> -> ->.
      rewrite !Z.eqb_refl in Hc. cbn in Hc.
      destruct (Z.geb_spec revision hi); [discriminate|lia].
Qed.

(** [FindDotNetVersion] finds the highest revision of [major.minor], or
    reports that there is none and leaves the directory as it was. *)
Lemma FindDotNetVersion_selects (hostRuntimeDirectory : string) :
  let entries :=
    FindFiles (DIRECTORY_SEPARATOR_CHAR_A cfg) (fs host) (hostRuntimeDirectory +:+ "*") in
  ((exists data revision,
      In data entries /\ version_directory host major minor data revision /\ 0 <= revision) ->
   exists name,
     highest_revision_match host major minor entries name
     /\ FindDotNetVersion cfg host major minor hostRuntimeDirectory
        = (true, hostRuntimeDirectory +:+ name))
  /\ (no_match host major minor entries ->
      FindDotNetVersion cfg host major minor hostRuntimeDirectory
      = (false, hostRuntimeDirectory)).
Proof.
  intros entries. unfold FindDotNetVersion. fold entries.
  pose proof (consider_version_fold entries 0 EmptyString ltac:(lia)) as Hfold.
  destruct (fold_left _ entries _) as [hi' v'].
  destruct Hfold as (Hle & Hmax & Hsel).
  split.
  - intros (data0 & revision0 & Hin0 & Hv0 & Hpos0).
    destruct Hsel as [(-> & -> & Hnone)|(data & Hin & Hv & Hname)].
    + specialize (Hnone data0 revision0 Hin0 Hv0). lia.
    + exists v'. split.
      * exists data, hi'. repeat split; try assumption; apply Hv.
      * rewrite <- Hname, (version_directory_named data hi' Hv). reflexivity.
  - intros Hnone.
    destruct Hsel as [(-> & _ & _)|(data & Hin & Hv & Hname)]; [reflexivity|].
    specialize (Hnone data hi' Hin Hv). lia.
Qed.

End OneVersion.

(** A pinned directory is used as it is, whatever the host answers. *)
Lemma GetHostRuntime_cached s dir :
  g_hostRuntimeDirectory s = Some dir ->
  GetHostRuntime cfg host s
  = (Value (dir +:+ DIRECTORY_SEPARATOR_STR_A cfg +:+ MAIN_CLR_DLL_NAME_A cfg, dir), s).
Proof.
  intros Hdir. unfold GetHostRuntime, mbind, M_bind, get.
  rewrite Hdir. cbn. now rewrite Hdir.
Qed.

(** With nothing pinned, the outcome of the version search decides. *)
Lemma GetHostRuntime_fresh s root hr dir :
  g_hostRuntimeDirectory s = None ->
  install_root cfg host = Some root ->
  select_runtime cfg host (root +:+ DIRECTORY_SEPARATOR_STR_A cfg) = (hr, dir) ->
  GetHostRuntime cfg host s
  = if FAILED hr then (Return hr, s)
    else (Value (dir +:+ DIRECTORY_SEPARATOR_STR_A cfg +:+ MAIN_CLR_DLL_NAME_A cfg, dir),
          set_hostRuntimeDirectory (Some dir) s).
Proof.
  intros Hdir Hroot Hsel. unfold GetHostRuntime, mbind, M_bind, get.
  rewrite Hdir, Hroot, Hsel.
  destruct (FAILED hr); reflexivity.
Qed.

End RuntimeSelection.

(** What a [%d] stores is an [int], and it is the value of the field
    whenever that fits. *)
Lemma store_int_range (host : Hosting.Host) (v : Z) :
  - 2 ^ 31 <= Hosting.store_int host v < 2 ^ 31
  /\ (- 2 ^ 31 <= v < 2 ^ 31 -> Hosting.store_int host v = v).
Proof.
  unfold Hosting.store_int.
  destruct ((- 2 ^ 31 <=? v) && (v <? 2 ^ 31)) eqn:Hfits.
  - apply andb_prop in Hfits as [Hlo Hhi].
    apply Z.leb_le in Hlo. apply Z.ltb_lt in Hhi. split; [lia|reflexivity].
  - split.
    + unfold int_of.
      pose proof (Z.mod_pos_bound (Hosting.sscanf_s_out_of_range host v + 2 ^ 31)
                    (2 ^ 32) ltac:(lia)).
      lia.
    + intros [Hlo Hhi]. apply Z.leb_le in Hlo. apply Z.ltb_lt in Hhi.
      rewrite Hlo, Hhi in Hfits. discriminate.
Qed.

(** How names read. The text after the revision is not looked at, and
    a name with fewer than three fields is no version. A field too
    long for an [int] reads as the C runtime leaves it, on the machine
    of the examples as the low 32 bits of its value: the directory
    [2.1.4294967297] counts as revision 1 of 2.1 and loses to
    [2.1.5]. *)
Lemma sscanf_s_version_readings :
  Hosting.sscanf_s_version Fixtures.healthy_host "2.1.11" = Some (2, 1, 11)
  /\ Hosting.sscanf_s_version Fixtures.healthy_host "3.0.0-preview8-28405-07"
     = Some (3, 0, 0)
  /\ Hosting.sscanf_s_version Fixtures.healthy_host "2.1" = None
  /\ Hosting.sscanf_s_version Fixtures.healthy_host ".." = None
  /\ Hosting.sscanf_s_version Fixtures.healthy_host "2.1.4294967297" = Some (2, 1, 1)
  /\ Hosting.sscanf_s_version Fixtures.healthy_host "4294967298.1.5" = Some (2, 1, 5)
  /\ Hosting.FindDotNetVersion Fixtures.cfg_linux Examples.host_with_long_names 2 1
       "/usr/share/dotnet/shared/Microsoft.NETCore.App/"
     = (true, "/usr/share/dotnet/shared/Microsoft.NETCore.App/2.1.5").
Proof. repeat split. Qed.

(** C4. With no hosting directory pinned and an install root chosen,
    [GetHostRuntime] enumerates the entries of the root. The version
    of a subdirectory is what [sscanf_s] reads of its name into the
    [int]s [major], [minor] and [revision]. When a subdirectory reads
    as 2.1.r with r not negative, the directory used is one of highest
    revision among the 2.1 directories; when there is none, the same
    holds for 2.2, and when there is none either, for 3.0; only when
    none of the three lines is installed is the directory of the
    debuggee's runtime asked for, and a failure to find it is returned
    with nothing pinned. The directory used is pinned: a later call
    answers it whatever the host. *)
Theorem GetHostRuntime_selection (cfg : Config) (host : Hosting.Host)
    (s : Hosting.State) (root : string) :
  Hosting.g_hostRuntimeDirectory s = None ->
  Hosting.install_root cfg host = Some root ->
  let directory := root +:+ DIRECTORY_SEPARATOR_STR_A cfg in
  let entries :=
    FindFiles (DIRECTORY_SEPARATOR_CHAR_A cfg) (Hosting.fs host) (directory +:+ "*") in
  let installed major minor :=
    exists data revision,
      In data entries /\ Hosting.version_directory host major minor data revision
      /\ 0 <= revision in
  let uses dir :=
    Hosting.GetHostRuntime cfg host s
    = (Hosting.Value
         (dir +:+ DIRECTORY_SEPARATOR_STR_A cfg +:+ MAIN_CLR_DLL_NAME_A cfg, dir),
       Hosting.set_hostRuntimeDirectory (Some dir) s)
    /\ forall host',
         Hosting.GetHostRuntime cfg host' (Hosting.set_hostRuntimeDirectory (Some dir) s)
         = (Hosting.Value
              (dir +:+ DIRECTORY_SEPARATOR_STR_A cfg +:+ MAIN_CLR_DLL_NAME_A cfg, dir),
            Hosting.set_hostRuntimeDirectory (Some dir) s) in
  (installed 2 1 ->
   exists name, Hosting.highest_revision_match host 2 1 entries name
                /\ uses (directory +:+ name))
  /\ (Hosting.no_match host 2 1 entries -> installed 2 2 ->
      exists name, Hosting.highest_revision_match host 2 2 entries name
                   /\ uses (directory +:+ name))
  /\ (Hosting.no_match host 2 1 entries -> Hosting.no_match host 2 2 entries -> installed 3 0 ->
      exists name, Hosting.highest_revision_match host 3 0 entries name
                   /\ uses (directory +:+ name))
  /\ (Hosting.no_match host 2 1 entries -> Hosting.no_match host 2 2 entries ->
      Hosting.no_match host 3 0 entries ->
      (FAILED (fst (Hosting.GetCoreClrDirectory cfg host directory)) = true ->
       Hosting.GetHostRuntime cfg host s
       = (Hosting.Return (fst (Hosting.GetCoreClrDirectory cfg host directory)), s))
      /\ (FAILED (fst (Hosting.GetCoreClrDirectory cfg host directory)) = false ->
          uses (snd (Hosting.GetCoreClrDirectory cfg host directory)))).
Proof.
  intros Hdir Hroot directory entries installed uses.
  assert (Huses : forall dir hr,
            Hosting.select_runtime cfg host directory = (hr, dir) ->
            FAILED hr = false -> uses dir).
  { intros dir hr Hsel Hok. split.
    - rewrite (GetHostRuntime_fresh cfg host s root hr dir Hdir Hroot Hsel), Hok.
      reflexivity.
    - intros host'. now apply GetHostRuntime_cached. }
  destruct (FindDotNetVersion_selects cfg host 2 1 directory) as [Hyes21 Hno21].
  destruct (FindDotNetVersion_selects cfg host 2 2 directory) as [Hyes22 Hno22].
  destruct (FindDotNetVersion_selects cfg host 3 0 directory) as [Hyes30 Hno30].
  fold entries in Hyes21, Hno21, Hyes22, Hno22, Hyes30, Hno30.
  split; [|split; [|split]].
  - intros Hin. destruct (Hyes21 Hin) as (name & Hbest & Hfind).
    exists name. split; [exact Hbest|].
    apply (Huses _ S_OK); [|reflexivity].
    unfold Hosting.select_runtime. now rewrite Hfind.
  - intros H21 Hin. destruct (Hyes22 Hin) as (name & Hbest & Hfind).
    exists name. split; [exact Hbest|].
    apply (Huses _ S_OK); [|reflexivity].
    unfold Hosting.select_runtime. now rewrite (Hno21 H21), Hfind.
  - intros H21 H22 Hin. destruct (Hyes30 Hin) as (name & Hbest & Hfind).
    exists name. split; [exact Hbest|].
    apply (Huses _ S_OK); [|reflexivity].
    unfold Hosting.select_runtime. now rewrite (Hno21 H21), (Hno22 H22), Hfind.
  - intros H21 H22 H30.
    assert (Hsel : Hosting.select_runtime cfg host directory
                   = Hosting.GetCoreClrDirectory cfg host directory).
    { unfold Hosting.select_runtime.
      now rewrite (Hno21 H21), (Hno22 H22), (Hno30 H30). }
    destruct (Hosting.GetCoreClrDirectory cfg host directory) as [hr dir] eqn:Hcore.
    cbn [fst snd]. split.
    + intros Hf.
      rewrite (GetHostRuntime_fresh cfg host s root hr dir Hdir Hroot Hsel), Hf.
      reflexivity.
    + intros Hok. exact (Huses dir hr Hsel Hok).
Qed.

(** ** Strings *)
Section Strings.

Lemma append_cons (x : ascii) (a b : string) :
  String x a +:+ b = String x (a +:+ b).
Proof. reflexivity. Qed.



Lemma length_append (a b : string) :
  String.length (a +:+ b) = (String.length a + String.length b)%nat.
Proof.
  induction a as [|x a IH]; [reflexivity|].
  rewrite append_cons. cbn [String.length]. now rewrite IH.
Qed.

Lemma take_append (a b : string) : Str.take (String.length a) (a +:+ b) = a.
Proof.
  induction a as [|x a IH]; [now destruct b|].
  rewrite append_cons. cbn [String.length Str.take]. now f_equal.
Qed.



Lemma rfind_append_separator (c : ascii) (a b : string) :
  Str.rfind c b = None ->
  Str.rfind c (a +:+ String c b) = Some (String.length a).
Proof.
  intros Hb. induction a as [|x a IH].
  - change ("" +:+ String c b) with (String c b).
    cbn [Str.rfind String.length]. rewrite Hb. now rewrite Ascii.eqb_refl.
  - rewrite append_cons. cbn [Str.rfind String.length]. now rewrite IH.
Qed.


Lemma drop_past_separator (c : ascii) (a b : string) :
  Str.drop (S (String.length a)) (a +:+ String c b) = b.
Proof.
  induction a as [|x a IH].
  - change ("" +:+ String c b) with (String c b). cbn [String.length Str.drop].
    now destruct b.
  - rewrite append_cons. cbn [String.length Str.drop]. exact IH.
Qed.




End Strings.

(** *** Names written as three decimal numbers *)
Section Numerals.

Import Hosting Readings.

Variable host : Host.

Lemma scan_digits_stop (rest : string) (acc : Z) :
  no_digit_ahead rest = true -> scan_digits rest acc = (acc, rest).
Proof.
  destruct rest as [|c rest]; [reflexivity|].
  cbn [no_digit_ahead scan_digits]. now destruct (digit_value c).
Qed.

Lemma digit_value_numeral (d : nat) :
  (d < 10)%nat -> digit_value (ascii_of_nat (48 + d)) = Some (Z.of_nat d).
Proof. intros Hd. do 10 (destruct d as [|d]; [reflexivity|]). lia. Qed.

Lemma scan_digits_numeral (ds : list nat) (rest : string) : forall acc,
  Forall (fun d => (d < 10)%nat) ds -> no_digit_ahead rest = true ->
  scan_digits (numeral ds +:+ rest) acc
  = (fold_left (fun acc d => 10 * acc + Z.of_nat d) ds acc, rest).
Proof.
  induction ds as [|d ds IH]; intros acc Hds Hrest.
  - now apply scan_digits_stop.
  - apply Forall_cons in Hds as [Hd Hds].
    cbn [numeral fold_left]. rewrite append_cons. cbn [scan_digits].
    rewrite (digit_value_numeral d Hd). now apply IH.
Qed.

Lemma numeral_fold_bounds (ds : list nat) : forall acc,
  0 <= acc -> acc <= fold_left (fun acc d => 10 * acc + Z.of_nat d) ds acc.
Proof.
  induction ds as [|d ds IH]; intros acc Hacc; cbn [fold_left]; [lia|].
  specialize (IH (10 * acc + Z.of_nat d) ltac:(lia)). lia.
Qed.

(** A [%d] reads a numeral that fits an [int] as its number, whatever
    the runtime does with fields that do not fit. *)
Lemma scan_int_numeral (ds : list nat) (rest : string) :
  int_numeral ds -> no_digit_ahead rest = true ->
  scan_int host (numeral ds +:+ rest) = Some (numeral_value ds, rest).
Proof.
  intros (Hne & Hds & Hfit) Hrest.
  destruct ds as [|d ds]; [contradiction|].
  apply Forall_cons in Hds as [Hd Hds].
  assert (Hhead : forall tail,
            scan_int host (String (ascii_of_nat (48 + d)) tail)
            = let '(v, rest) := scan_digits tail (Z.of_nat d) in
              Some (store_int host v, rest)).
  { intros tail. do 10 (destruct d as [|d]; [reflexivity|]). lia. }
  cbn [numeral]. rewrite append_cons, Hhead.
  rewrite (scan_digits_numeral ds rest _ Hds Hrest).
  unfold numeral_value in *. cbn [fold_left] in *.
  replace (10 * 0 + Z.of_nat d) with (Z.of_nat d) in Hfit by lia.
  pose proof (numeral_fold_bounds ds (Z.of_nat d) ltac:(lia)) as Hpos.
  now rewrite (proj2 (store_int_range host _)) by lia.
Qed.

(** A name written as three such numerals with dots between them
    reads as these three numbers; what follows the revision is not
    looked at. *)
Lemma sscanf_s_version_numerals (major minor revision : list nat) (tail : string) :
  int_numeral major -> int_numeral minor -> int_numeral revision ->
  no_digit_ahead tail = true ->
  sscanf_s_version host
    (numeral major +:+ "." +:+ numeral minor +:+ "." +:+ numeral revision +:+ tail)
  = Some (numeral_value major, numeral_value minor, numeral_value revision).
Proof.
  intros Hmajor Hminor Hrevision Htail. unfold sscanf_s_version.
  assert (Hdot : forall x, scan_dot ("." +:+ x) = Some x) by reflexivity.
  rewrite (scan_int_numeral major _ Hmajor) by reflexivity.
  cbn [mbind option_bind]. rewrite Hdot. cbn [mbind option_bind].
  rewrite (scan_int_numeral minor _ Hminor) by reflexivity.
  cbn [mbind option_bind]. rewrite Hdot. cbn [mbind option_bind].
  now rewrite (scan_int_numeral revision _ Hrevision Htail).
Qed.

End Numerals.

(** ** C5: the trusted-assembly list *)
Section Tpa.

Import Hosting.

Variable cfg : Config.
Variable host : Host.
Variable directory : string.











End Tpa.

Section TpaScan.

Import Hosting.

Variable cfg : Config.
Variable host : Host.
Variable directory : string.



End TpaScan.



(** What the [*.dll] pattern of the second pass also matches: an
    optimized image [X.ni.dll] is met again under the name [X.ni],
    which the first pass did not take, and is written a second time;
    the optimized image of the entry assembly, passed over by the first
    pass, is written by the second. *)
Lemma optimized_image_written_again :
  Hosting.written_files Fixtures.cfg_linux Fixtures.healthy_host
    "/usr/share/dotnet/shared/Microsoft.NETCore.App/2.1.11"
  = [ "System.Private.CoreLib.ni.dll"; "System.Collections.Immutable.ni.dll";
      "System.Private.CoreLib.ni.dll"; "System.Collections.Immutable.ni.dll";
      "System.Reflection.Metadata.dll" ]
  /\ Hosting.written_files Fixtures.cfg_linux Examples.host_with_native_images
       "/opt/sos"
     = [ "System.Reflection.Metadata.ni.dll"; "SOS.NETCore.ni.dll";
         "System.Reflection.Metadata.ni.dll" ].
Proof. split; vm_compute; reflexivity. Qed.

(** On the machine of the examples 2.1.5 and 2.1.11 are installed
    beside 2.2.0 and 3.0.0: a 2.1 directory of highest revision is
    used and pinned. *)
Lemma GetHostRuntime_selection_witness :
  exists name,
    Hosting.highest_revision_match Fixtures.healthy_host 2 1
      (FindFiles (DIRECTORY_SEPARATOR_CHAR_A Fixtures.cfg_linux)
         (Hosting.fs Fixtures.healthy_host)
         (("/usr/share/dotnet/shared/Microsoft.NETCore.App"
           +:+ DIRECTORY_SEPARATOR_STR_A Fixtures.cfg_linux) +:+ "*")) name
    /\ Hosting.g_hostRuntimeDirectory
         (snd (Hosting.GetHostRuntime Fixtures.cfg_linux Fixtures.healthy_host
                 Fixtures.initial_state))
       = Some (("/usr/share/dotnet/shared/Microsoft.NETCore.App"
                +:+ DIRECTORY_SEPARATOR_STR_A Fixtures.cfg_linux) +:+ name).
Proof.
  destruct (proj1 (GetHostRuntime_selection Fixtures.cfg_linux Fixtures.healthy_host
                     Fixtures.initial_state
                     "/usr/share/dotnet/shared/Microsoft.NETCore.App"
                     eq_refl eq_refl))
    as (name & Hbest & Hrun & _).
  - exists (Fixtures.dir_entry "2.1.5"), 5. split; [vm_compute; tauto|].
    split; [split; reflexivity|lia].
  - exists name. split; [exact Hbest|]. rewrite Hrun. reflexivity.
Defined.

(* ------------------------------------------------------------------ *)
(** * Further properties of the two files                              *)
(* ------------------------------------------------------------------ *)

(** ** The scratch directory over its life *)
Section ScratchDirectory.

Import Hosting.

Variable cfg : Config.

(** X1. [GetTempDirectory] answers a path and leaves it pinned; a call
    that finds a pinned path answers it and does nothing, so a second
    call equals the first whatever the host then answers. A call that
    finds none creates one directory, and the shutdown that follows
    deletes the files of that directory, removes it and unpins it. *)
Theorem GetTempDirectory_once (host host2 : Host) (s : State) :
  let r := GetTempDirectory cfg host s in
  (exists p, fst r = Some p /\ g_tmpPath (snd r) = Some p)
  /\ GetTempDirectory cfg host2 (snd r) = r
  /\ (forall p, g_tmpPath s = Some p -> r = (Some p, s))
  /\ (g_tmpPath s = None ->
      exists p,
        fst r = Some p
        /\ trace (snd r) = trace s ++ [EvCreateDirectory p]
        /\ g_tmpPath (SOSShutdown cfg host2 (snd r)) = None
        /\ trace (SOSShutdown cfg host2 (snd r))
           = trace s ++ [EvCreateDirectory p]
               ++ scratch_deletions cfg host2 p ++ [EvRemoveDirectory p]).
Proof.
  intros r. subst r. unfold GetTempDirectory.
  destruct (g_tmpPath s) as [p|] eqn:Hp.
  - cbn [fst snd]. split; [exists p; split; [reflexivity|exact Hp]|].
    split; [now rewrite Hp|]. split; [intros q [= <-]; reflexivity|discriminate].
  - cbn [fst snd].
    match goal with
    | |- context [EvCreateDirectory ?q] => set (p := q)
    end.
    split; [exists p; split; reflexivity|].
    split; [reflexivity|]. split; [discriminate|]. intros _.
    exists p. split; [reflexivity|]. split; [reflexivity|].
    split; [apply SOSShutdown_clears|].
    unfold SOSShutdown, InterlockedExchange_tmpPath.
    cbn [g_tmpPath set_tmpPath log].
    match goal with
    | |- context [remove_scratch cfg host2 (Some p) ?t] =>
        destruct (remove_scratch_some cfg host2 p t) as [_ Htr]
    end.
    rewrite Htr. cbn [trace set_tmpPath log]. now rewrite <- app_assoc.
Qed.

End ScratchDirectory.

(** ** Turning the symbol store off and on again *)
Section DisableSymbolStore.

Import Hosting.

(** X2. [DisableSymbolStore] clears the enabled flag; it calls the
    disable operation once when the store was enabled and does nothing
    when it was not, so disabling twice is disabling once. Where the
    [.sympath] initialization is compiled in, the store can then be
    enabled again: the next such initialization parses the search path
    anew. *)
Theorem DisableSymbolStore_then_enable (cfg : Config) (host : Host) (s : State) :
  g_symbolStoreInitialized (DisableSymbolStore s) = false
  /\ (g_symbolStoreInitialized s = true ->
      trace (DisableSymbolStore s)
      = trace s ++ [EvInvoke DisableSymbolStoreDelegate
                      (g_SOSNetCoreCallbacks s DisableSymbolStoreDelegate)
                      CallDisableSymbolStore])
  /\ (g_symbolStoreInitialized s = false -> DisableSymbolStore s = s)
  /\ DisableSymbolStore (DisableSymbolStore s) = DisableSymbolStore s
  /\ (FEATURE_PAL (os cfg) = false ->
      InitializeSymbolStore_sympath cfg host (DisableSymbolStore s)
      = parse_symbol_path host (set_symbolStoreInitialized true (DisableSymbolStore s))).
Proof.
  assert (Hoff : g_symbolStoreInitialized (DisableSymbolStore s) = false).
  { unfold DisableSymbolStore.
    destruct (g_symbolStoreInitialized s) eqn:Hflag; [reflexivity|exact Hflag]. }
  split; [exact Hoff|]. split; [|split; [|split]].
  - intros Hflag. unfold DisableSymbolStore. rewrite Hflag. reflexivity.
  - intros Hflag. unfold DisableSymbolStore. now rewrite Hflag.
  - unfold DisableSymbolStore at 1. now rewrite Hoff.
  - intros Hpal. unfold InitializeSymbolStore_sympath. now rewrite Hpal, Hoff.
Qed.

End DisableSymbolStore.

(** ** What a bootstrap leaves in the process *)
Section BootstrapResult.

Import Hosting.

Variable cfg : Config.
Variable host : Host.

Lemma bind_operations_table ops : forall Status s hr s',
  bind_operations cfg host ops Status s = (Value hr, s') ->
  g_SOSNetCoreCallbacks s'
  = fold_left
      (fun c op =>
         bind_slot (snd op)
           (snd (coreclr_create_delegate host (SOSManagedDllName cfg)
                   (fst (fst op)) (snd (fst op)))) c)
      ops (g_SOSNetCoreCallbacks s)
  /\ g_hostRuntimeDirectory s' = g_hostRuntimeDirectory s.
Proof.
  induction ops as [|[[className method] slot] rest IH]; intros Status s hr s' Hrun.
  - injection Hrun as _ <-. split; reflexivity.
  - cbn [bind_operations] in Hrun. unfold IfFailRet, mbind, M_bind in Hrun.
    rewrite createDelegate_run in Hrun.
    destruct (FAILED (fst (coreclr_create_delegate host (SOSManagedDllName cfg)
                             className method))); [discriminate|].
    cbn [mret M_ret] in Hrun.
    apply IH in Hrun as [Htab Hdir]. rewrite Htab, Hdir. split; reflexivity.
Qed.

Lemma bind_operations_directory ops : forall Status s r s',
  bind_operations cfg host ops Status s = (r, s') ->
  g_hostRuntimeDirectory s' = g_hostRuntimeDirectory s
  /\ exists events, trace s' = trace s ++ events.
Proof.
  induction ops as [|[[className method] slot] rest IH]; intros Status s r s' Hrun.
  - injection Hrun as _ <-. split; [reflexivity|]. exists []. now rewrite app_nil_r.
  - cbn [bind_operations] in Hrun. unfold IfFailRet, mbind, M_bind in Hrun.
    rewrite createDelegate_run in Hrun.
    destruct (FAILED (fst (coreclr_create_delegate host (SOSManagedDllName cfg)
                             className method))).
    + injection Hrun as _ <-. split; [reflexivity|]. eexists [_]. reflexivity.
    + cbn [mret M_ret] in Hrun.
      apply IH in Hrun as [Hdir [events Htr]]. rewrite Hdir, Htr.
      split; [reflexivity|]. eexists (_ :: events). cbn [trace set_callbacks log].
      now rewrite <- app_assoc.
Qed.

(** The bootstrap from the unset flag, step by step: it stops before
    anything was done to the outside, or the runtime directory is
    pinned and the first thing done was loading the runtime library
    from it. *)
Lemma InitializeHosting_steps s hr s' :
  g_hostingInitialized s = false ->
  InitializeHosting cfg host s = (hr, s') ->
  (FAILED hr = true /\ trace s' = trace s
   /\ (g_hostRuntimeDirectory s' = g_hostRuntimeDirectory s
       \/ g_hostRuntimeDirectory s = None))
  \/ exists dir loaded events,
       g_hostRuntimeDirectory s' = Some dir
       /\ (g_hostRuntimeDirectory s = Some dir \/ g_hostRuntimeDirectory s = None)
       /\ trace s'
          = trace s
            ++ EvLoadLibrary (dir +:+ DIRECTORY_SEPARATOR_STR_A cfg
                                  +:+ MAIN_CLR_DLL_NAME_A cfg) loaded :: events
       /\ (FAILED hr = false ->
           g_SOSNetCoreCallbacks s'
           = fold_left
               (fun c op =>
                  bind_slot (snd op)
                    (snd (coreclr_create_delegate host (SOSManagedDllName cfg)
                            (fst (fst op)) (snd (fst op)))) c)
               (bound_operations cfg) (g_SOSNetCoreCallbacks s)).
Proof.
  intros Hflag Hrun.
  unfold InitializeHosting, run, InitializeHosting_body in Hrun.
  unfold mbind at 1, M_bind at 1, get in Hrun. rewrite Hflag in Hrun.
  unfold mbind at 1, M_bind at 1 in Hrun.
  destruct (GetHostRuntime_run cfg host s)
    as [(dir & s1 & Hr & Hdir & Hsame)|(hr0 & Hr & Hf)];
    rewrite Hr in Hrun.
  2:{ injection Hrun as <- <-. left. split; [exact Hf|]. split; [reflexivity|].
      left. reflexivity. }
  assert (Hwas : g_hostRuntimeDirectory s = Some dir \/ g_hostRuntimeDirectory s = None).
  { unfold GetHostRuntime, mbind, M_bind, get in Hr.
    destruct (g_hostRuntimeDirectory s) as [d|] eqn:Hd; [|right; reflexivity].
    cbn in Hr. rewrite Hd in Hr. cbn in Hr. injection Hr as _ Hd' <-.
    left. congruence. }
  destruct Hsame as (Hs1 & Hs2 & Hs3 & Hs4 & Hs5 & Hs6 & Hs7).
  destruct (sos_module_directory cfg host) as [sosdir|].
  2:{ injection Hrun as <- <-. left. split; [reflexivity|]. split; [exact Hs7|].
      destruct Hwas as [Hw|Hw]; [left; congruence|right; exact Hw]. }
  right. exists dir.
  unfold emit, modify, mbind, M_bind in Hrun.
  destruct (LoadLibraryA host _) eqn:Hload; cbn [negb] in Hrun.
  2:{ injection Hrun as <- <-. exists false, []. cbn. rewrite Hs7.
      split; [exact Hdir|]. split; [exact Hwas|]. split; [reflexivity|discriminate]. }
  exists true.
  destruct (GetProcAddress host "coreclr_initialize") eqn:Hp1;
    destruct (GetProcAddress host "coreclr_create_delegate") eqn:Hp2;
    cbn [negb orb] in Hrun.
  2,3,4:
    (injection Hrun as <- <-; eexists [_; _]; cbn; rewrite Hs7;
     split; [exact Hdir|]; split; [exact Hwas|];
     split; [now rewrite <- !app_assoc|discriminate]).
  destruct (GetEntrypointExecutableAbsolutePath cfg host) as [exe|].
  2:{ injection Hrun as <- <-. eexists [_; _]. cbn. rewrite Hs7.
      split; [exact Hdir|]. split; [exact Hwas|].
      split; [now rewrite <- !app_assoc|discriminate]. }
  match type of Hrun with
  | context [coreclr_initialize host exe "sos" ?props] =>
      set (properties := props) in *
  end.
  destruct (FAILED (coreclr_initialize host exe "sos" properties)) eqn:Hinit.
  { injection Hrun as <- <-. eexists [_; _; _]. cbn. rewrite Hs7.
    split; [exact Hdir|]. split; [exact Hwas|].
    split; [now rewrite <- !app_assoc|congruence]. }
  match type of Hrun with
  | context [bind_operations cfg host (bound_operations cfg) ?st ?s2] =>
      destruct (bind_operations cfg host (bound_operations cfg) st s2)
        as [r sN] eqn:HrunN
  end.
  destruct (bind_operations_directory _ _ _ _ _ HrunN) as [HdirN [events HtrN]].
  cbn [g_hostRuntimeDirectory trace log] in HdirN, HtrN.
  destruct r as [hrN|hrN].
  - apply bind_operations_table in HrunN as [Htab _].
    cbn [g_SOSNetCoreCallbacks log] in Htab.
    cbn in Hrun. injection Hrun as <- <-.
    exists ([EvGetProcAddress "coreclr_initialize" true;
             EvGetProcAddress "coreclr_create_delegate" true;
             EvInitializeCoreCLR exe "sos" properties
               (coreclr_initialize host exe "sos" properties)] ++ events).
    cbn [g_hostRuntimeDirectory trace g_SOSNetCoreCallbacks set_hostingInitialized].
    rewrite HdirN, HtrN, Hs7, Htab, Hs6.
    split; [exact Hdir|]. split; [exact Hwas|].
    split; [now rewrite <- !app_assoc|reflexivity].
  - injection Hrun as <- <-.
    exists ([EvGetProcAddress "coreclr_initialize" true;
             EvGetProcAddress "coreclr_create_delegate" true;
             EvInitializeCoreCLR exe "sos" properties
               (coreclr_initialize host exe "sos" properties)] ++ events).
    rewrite HdirN, HtrN, Hs7.
    split; [exact Hdir|]. split; [exact Hwas|].
    split; [now rewrite <- !app_assoc|].
    intros Hok.
    assert (Hbad : forall ops Status t hr1 t1,
              bind_operations cfg host ops Status t = (Return hr1, t1) ->
              FAILED hr1 = true).
    { induction ops as [|[[c m] sl] rest IH]; intros Status t hr1 t1 Hb;
        [discriminate|].
      cbn [bind_operations] in Hb. unfold IfFailRet, mbind, M_bind in Hb.
      rewrite createDelegate_run in Hb.
      destruct (FAILED (fst (coreclr_create_delegate host (SOSManagedDllName cfg) c m)))
        eqn:Hf.
      - injection Hb as <- _. exact Hf.
      - cbn [mret M_ret] in Hb. eapply IH, Hb. }
    apply Hbad in HrunN. congruence.
Qed.

(** X3. After a bootstrap that succeeded, each slot of the operation
    table holds the address the hosted runtime handed out for that
    slot's own entry type and method. *)
Theorem InitializeHosting_binds_each_slot (s : State)
    (className method : string) (slot : Slot) :
  g_hostingInitialized s = false ->
  FAILED (fst (InitializeHosting cfg host s)) = false ->
  In (className, method, slot) (bound_operations cfg) ->
  g_SOSNetCoreCallbacks (snd (InitializeHosting cfg host s)) slot
  = snd (coreclr_create_delegate host (SOSManagedDllName cfg) className method).
Proof.
  intros Hflag Hok Hin.
  destruct (InitializeHosting cfg host s) as [hr s'] eqn:Hrun. cbn [fst snd] in *.
  destruct (InitializeHosting_steps s hr s' Hflag Hrun)
    as [(Hf & _)|(dir & loaded & events & _ & _ & _ & Htab)]; [congruence|].
  rewrite (Htab Hok). clear Htab Hrun.
  unfold bound_operations in Hin |- *. cbn [In] in Hin.
  repeat (destruct Hin as [[= <- <- <-]|Hin]; [reflexivity|]).
  contradiction.
Qed.

(** X4. A bootstrap never drops or replaces a pinned runtime directory,
    and whenever it does anything to the outside the directory is
    pinned afterwards and the first thing it did was to load the
    runtime library of that directory: a bootstrap that failed later is
    retried against the same directory. *)
Theorem InitializeHosting_keeps_directory (s : State) :
  let s' := snd (InitializeHosting cfg host s) in
  (forall dir, g_hostRuntimeDirectory s = Some dir ->
               g_hostRuntimeDirectory s' = Some dir)
  /\ (forall e events, trace s' = trace s ++ e :: events ->
        exists dir loaded,
          g_hostRuntimeDirectory s' = Some dir
          /\ e = EvLoadLibrary (dir +:+ DIRECTORY_SEPARATOR_STR_A cfg
                                    +:+ MAIN_CLR_DLL_NAME_A cfg) loaded).
Proof.
  intros s'. subst s'.
  destruct (InitializeHosting cfg host s) as [hr s'] eqn:Hrun. cbn [snd].
  destruct (g_hostingInitialized s) eqn:Hflag.
  - rewrite (InitializeHosting_set cfg host s Hflag) in Hrun. injection Hrun as <- <-.
    split; [tauto|]. intros e events Htr.
    apply (f_equal (@length Event)) in Htr. rewrite length_app in Htr.
    cbn [length] in Htr. lia.
  - destruct (InitializeHosting_steps s hr s' Hflag Hrun)
      as [(_ & Htr & Hdir)|(dir & loaded & events & Hdir & Hwas & Htr & _)].
    + split.
      * intros dir Hd. destruct Hdir as [Hdir|Hdir]; congruence.
      * intros e events Htr'. rewrite Htr in Htr'.
        apply (f_equal (@length Event)) in Htr'. rewrite length_app in Htr'.
        cbn [length] in Htr'. lia.
    + split.
      * intros d Hd. destruct Hwas as [Hw|Hw]; congruence.
      * intros e events' Htr'. rewrite Htr in Htr'.
        apply app_inv_head in Htr'. injection Htr' as <- _.
        exists dir, loaded. split; [exact Hdir|reflexivity].
Qed.

End BootstrapResult.

(** On a host that binds every operation at an address of its own, the
    slot of [Dispose] holds the address handed out for [Dispose]. *)
Lemma InitializeHosting_binds_each_slot_witness :
  Hosting.g_SOSNetCoreCallbacks
    (snd (Hosting.InitializeHosting Fixtures.cfg_linux Examples.host_with_addresses
            Fixtures.initial_state))
    Hosting.DisposeDelegate
  = 0x7f0000001070.
Proof.
  apply (InitializeHosting_binds_each_slot Fixtures.cfg_linux
           Examples.host_with_addresses Fixtures.initial_state
           "SOS.SymbolReader" "Dispose" Hosting.DisposeDelegate).
  - reflexivity.
  - vm_compute. reflexivity.
  - cbn. tauto.
Defined.

(** ** Where the runtime is looked for *)
Section InstallRoot.

Import Hosting.

Variable host : Host.

Lemma probe_paths_first path rest : forall hostRuntimeDirectory,
  exists pre root post,
    path :: rest = pre ++ root :: post
    /\ Forall (fun p => access_F_OK host p = false) pre
    /\ (access_F_OK host root = true \/ post = [])
    /\ probe_paths host (path :: rest) hostRuntimeDirectory = root.
Proof.
  revert path. induction rest as [|next rest IH]; intros path d.
  - exists [], path, []. cbn [probe_paths app].
    split; [reflexivity|]. split; [constructor|]. split; [now right|].
    now destruct (access_F_OK host path).
  - cbn [probe_paths]. destruct (access_F_OK host path) eqn:Hacc.
    + exists [], path, (next :: rest). cbn [app].
      split; [reflexivity|]. split; [constructor|]. split; [now left|reflexivity].
    + destruct (IH next path) as (pre & root & post & Heq & Hpre & Hroot & Hrun).
      exists (path :: pre), root, post. cbn [app]. rewrite Heq.
      split; [reflexivity|]. split; [constructor; assumption|].
      split; [exact Hroot|exact Hrun].
Qed.

(** X5. On Linux the install root is the first of the three known
    locations that exists, the locations before it not existing; when
    none of them exists it is the last one all the same. *)
Theorem install_root_linux (cfg : Config) :
  os cfg = Linux ->
  exists pre root post,
    g_linuxPaths = pre ++ root :: post
    /\ Forall (fun p => access_F_OK host p = false) pre
    /\ (access_F_OK host root = true \/ post = [])
    /\ install_root cfg host = Some root.
Proof.
  intros Hos. unfold install_root. rewrite Hos. unfold g_linuxPaths.
  match goal with
  | |- context [probe_paths host (?p :: ?rest) ?d] =>
      destruct (probe_paths_first p rest d)
        as (pre & root & post & Heq & Hpre & Hroot & Hrun)
  end.
  exists pre, root, post. rewrite Hrun. tauto.
Qed.

End InstallRoot.

(** On the machine of the examples only the last of the three
    locations exists. *)
Lemma install_root_linux_witness :
  exists pre root post,
    Hosting.g_linuxPaths = pre ++ root :: post
    /\ Forall (fun p => Hosting.access_F_OK Fixtures.healthy_host p = false) pre
    /\ (Hosting.access_F_OK Fixtures.healthy_host root = true \/ post = [])
    /\ Hosting.install_root Fixtures.cfg_linux Fixtures.healthy_host = Some root.
Proof.
  apply (install_root_linux Fixtures.healthy_host Fixtures.cfg_linux).
  reflexivity.
Defined.

(** ** The directory of the target's runtime *)
Section CoreClrDirectory.

Import Hosting.

Variable cfg : Config.
Variable host : Host.

(** X6. [GetCoreClrDirectory]. Under dbgeng, when the runtime module is
    found at [dir\file], the answer is [dir]: the text before the last
    separator. With the PAL a success is the real path of the directory
    the debugger reports, and is not empty. A failure leaves the
    caller's string as it was, except that under dbgeng a module name
    without any separator has by then been stored into it. *)
Theorem GetCoreClrDirectory_answer (coreClrDirectory : string) :
  (FEATURE_PAL (os cfg) = false ->
   forall dir file,
     FAILED (fst (ExtSymbols_GetModuleByModuleName host (MAIN_CLR_MODULE_NAME_A cfg)))
     = false ->
     ExtSymbols_GetModuleNames host
       (snd (ExtSymbols_GetModuleByModuleName host (MAIN_CLR_MODULE_NAME_A cfg)))
     = (S_OK, dir +:+ String "\" file) ->
     GetFileAttributesA_valid host (dir +:+ String "\" file) = true ->
     Str.rfind "\" file = None ->
     GetCoreClrDirectory cfg host coreClrDirectory = (S_OK, dir))
  /\ (FEATURE_PAL (os cfg) = true ->
      forall hr answer,
        GetCoreClrDirectory cfg host coreClrDirectory = (hr, answer) ->
        FAILED hr = false ->
        hr = S_OK /\ answer <> EmptyString
        /\ exists directory,
             ExtServices_GetCoreClrDirectory host = Some directory
             /\ realpath host directory = Some answer)
  /\ (forall hr answer,
        GetCoreClrDirectory cfg host coreClrDirectory = (hr, answer) ->
        FAILED hr = true ->
        answer = coreClrDirectory
        \/ (FEATURE_PAL (os cfg) = false /\ hr = E_FAIL
            /\ Str.rfind "\" answer = None)).
Proof.
  unfold GetCoreClrDirectory, DIRECTORY_SEPARATOR_CHAR_A.
  split; [|split].
  - intros Hpal dir file Hfound Hnames Hvalid Hfile. rewrite Hpal.
    destruct (ExtSymbols_GetModuleByModuleName host (MAIN_CLR_MODULE_NAME_A cfg))
      as [hr1 index].
    cbn [fst snd] in Hfound, Hnames. rewrite Hfound, Hnames.
    change (FAILED S_OK) with false. cbv iota. rewrite Hvalid. cbn [negb].
    rewrite (rfind_append_separator "\" dir file Hfile).
    now rewrite take_append.
  - intros Hpal hr answer Hrun Hok. rewrite Hpal in Hrun.
    unfold GetAbsolutePath in Hrun.
    destruct (ExtServices_GetCoreClrDirectory host) as [directory|];
      [|injection Hrun as <- <-; discriminate].
    destruct (realpath host directory) as [realPath|] eqn:Hreal;
      [|injection Hrun as <- <-; discriminate].
    destruct (String.eqb realPath "") eqn:Hempty;
      [injection Hrun as <- <-; discriminate|].
    injection Hrun as <- <-. split; [reflexivity|].
    split; [now apply String.eqb_neq|]. exists directory. split; [reflexivity|exact Hreal].
  - intros hr answer Hrun Hf.
    destruct (FEATURE_PAL (os cfg)).
    + unfold GetAbsolutePath in Hrun.
      destruct (ExtServices_GetCoreClrDirectory host) as [directory|];
        [|injection Hrun as <- <-; now left].
      destruct (realpath host directory) as [realPath|];
        [|injection Hrun as <- <-; now left].
      destruct (String.eqb realPath "");
        injection Hrun as <- <-; [now left|discriminate].
    + destruct (ExtSymbols_GetModuleByModuleName host (MAIN_CLR_MODULE_NAME_A cfg))
        as [hr1 index].
      destruct (FAILED hr1); [injection Hrun as <- <-; now left|].
      destruct (ExtSymbols_GetModuleNames host index) as [hr2 szModuleName].
      destruct (FAILED hr2); [injection Hrun as <- <-; now left|].
      destruct (negb (GetFileAttributesA_valid host szModuleName));
        [injection Hrun as <- <-; now left|].
      destruct (Str.rfind "\" szModuleName) as [lastSlash|] eqn:Hfind;
        injection Hrun as <- <-; [discriminate|].
      right. split; [reflexivity|]. split; [reflexivity|exact Hfind].
Qed.

End CoreClrDirectory.

(** ** The context buffer handed to the engine *)
Section PrepareContext.

Import DataTarget Readings.

Lemma bytes_of_ULONG32 (v : Z) :
  0 <= v < 2 ^ 32 ->
  Z.land v 255 + 2 ^ 8 * Z.land (Z.shiftr v 8) 255
  + 2 ^ 16 * Z.land (Z.shiftr v 16) 255 + 2 ^ 24 * Z.land (Z.shiftr v 24) 255 = v.
Proof.
  intros Hv.
  change 255 with (Z.ones 8). rewrite !Z.land_ones by lia.
  rewrite !Z.shiftr_div_pow2 by lia.
  pose proof (Z.div_mod v (2 ^ 8) ltac:(lia)) as H0.
  pose proof (Z.div_mod (v / 2 ^ 8) (2 ^ 8) ltac:(lia)) as H1.
  pose proof (Z.div_mod (v / 2 ^ 16) (2 ^ 8) ltac:(lia)) as H2.
  pose proof (Z.div_mod (v / 2 ^ 24) (2 ^ 8) ltac:(lia)) as H3.
  rewrite Z.div_div in H1 by lia. rewrite Z.div_div in H2 by lia.
  rewrite Z.div_div in H3 by lia.
  change (2 ^ 8 * 2 ^ 8) with (2 ^ 16) in *.
  change (2 ^ 16 * 2 ^ 8) with (2 ^ 24) in *.
  change (2 ^ 24 * 2 ^ 8) with (2 ^ 32) in *.
  rewrite (Z.div_small v (2 ^ 32)) in H3 by lia.
  lia.
Qed.

(** X7. The buffer the engine receives from [GetThreadContext] under
    dbgeng: it has the caller's length, the [ContextFlags] field reads
    back the requested flags, every other byte of the first
    [contextSize] is zero and the bytes past [contextSize] are the
    caller's. *)
Theorem prepare_context_layout (ContextFlags_offset : nat)
    (contextFlags contextSize : Z) (context : list Z) :
  let n := Z.to_nat (ULONG32_of contextSize) in
  let prepared :=
    prepare_context ContextFlags_offset contextFlags contextSize context in
  (ContextFlags_offset + 4 <= n)%nat -> (n <= length context)%nat ->
  length prepared = length context
  /\ load32 ContextFlags_offset prepared = ULONG32_of contextFlags
  /\ (forall i, (i < n)%nat ->
        (i < ContextFlags_offset \/ ContextFlags_offset + 4 <= i)%nat ->
        prepared !! i = Some 0)
  /\ (forall i, (n <= i)%nat -> prepared !! i = context !! i).
Proof.
  intros n prepared Hfield Hsize. subst prepared.
  unfold prepare_context. fold n.
  rewrite Nat.min_l by exact Hsize.
  set (zeroed := replicate n 0 ++ drop n context).
  assert (Hlen : length zeroed = length context).
  { unfold zeroed. rewrite length_app, length_replicate, length_drop. lia. }
  unfold store32.
  split; [now rewrite !length_insert|].
  split.
  - unfold load32.
    rewrite list_lookup_insert_ne by lia.
    rewrite list_lookup_insert_ne by lia.
    rewrite list_lookup_insert_ne by lia.
    rewrite list_lookup_insert_eq by lia.
    rewrite list_lookup_insert_ne by lia.
    rewrite list_lookup_insert_ne by lia.
    rewrite list_lookup_insert_eq by (rewrite length_insert; lia).
    rewrite list_lookup_insert_ne by lia.
    rewrite list_lookup_insert_eq by (rewrite !length_insert; lia).
    rewrite list_lookup_insert_eq by (rewrite !length_insert; lia).
    cbn [default].
    apply bytes_of_ULONG32. unfold ULONG32_of. apply Z.mod_pos_bound. lia.
  - split.
    + intros i Hi Hout.
      rewrite !list_lookup_insert_ne by lia.
      unfold zeroed. rewrite lookup_app_l by (rewrite length_replicate; lia).
      now apply lookup_replicate_2.
    + intros i Hi.
      rewrite !list_lookup_insert_ne by lia.
      unfold zeroed. rewrite lookup_app_r by (rewrite length_replicate; lia).
      rewrite length_replicate, lookup_drop. f_equal. lia.
Qed.

End PrepareContext.

(** An AMD64 context of 1232 bytes, its flags at offset 48, in a buffer
    that held other bytes. *)
Lemma prepare_context_layout_witness :
  Readings.load32 48
    (DataTarget.prepare_context 48 0x10001F 1232 (replicate 1232 0xCC))
  = ULONG32_of 0x10001F.
Proof.
  refine (proj1 (proj2 (prepare_context_layout 48 0x10001F 1232
                          (replicate 1232 0xCC) _ _))).
  - vm_compute. lia.
  - vm_compute. lia.
Defined.

(** ** Metadata requests after the first *)
Section GetMetadataAgain.

Import Hosting.

Lemma parse_symbol_path_hosting host s :
  g_hostingInitialized (parse_symbol_path host s) = g_hostingInitialized s.
Proof.
  unfold parse_symbol_path.
  destruct (ExtSymbols_GetSymbolPath host) as [hr symbolPath].
  destruct (SUCCEEDED hr); [|reflexivity].
  destruct (0 <? Str.strlen symbolPath); [|reflexivity].
  destruct (negb _); reflexivity.
Qed.

Lemma InitializeSymbolStore_sympath_settled cfg host s :
  g_hostingInitialized (InitializeSymbolStore_sympath cfg host s)
  = g_hostingInitialized s
  /\ forall host2,
       InitializeSymbolStore_sympath cfg host2 (InitializeSymbolStore_sympath cfg host s)
       = InitializeSymbolStore_sympath cfg host s.
Proof.
  unfold InitializeSymbolStore_sympath.
  destruct (FEATURE_PAL (os cfg)); [now split|].
  destruct (g_symbolStoreInitialized s) eqn:Hflag; cbn [negb].
  - now rewrite Hflag.
  - rewrite parse_symbol_path_hosting. split; [reflexivity|]. intros host2.
    now rewrite parse_symbol_path_flag.
Qed.

(** X8. Once a metadata request has got through the bootstrap, a later
    request does no bootstrap step and no symbol-store initialization
    whatever the host would answer: it only calls the metadata-locator
    operation, at the address bound the first time, and returns its
    answer. *)
Theorem GetMetadata_reuses_bootstrap (cfg : Config) (host host2 : Host)
    (request request2 : MetadataRequest) (buffer0 buffer1 : list Z)
    (dataSize0 dataSize1 : Z) (s : State) :
  let s1 := snd (DataTarget.GetMetadata cfg host request buffer0 dataSize0 s) in
  let address := g_SOSNetCoreCallbacks s1 GetMetadataLocatorDelegate in
  FAILED (fst (InitializeHosting cfg host s)) = false ->
  DataTarget.GetMetadata cfg host2 request2 buffer1 dataSize1 s1
  = (managed_GetMetadataLocator host2 address request2,
     log (EvInvoke GetMetadataLocatorDelegate address
            (CallGetMetadataLocator request2)) s1).
Proof.
  intros s1 address Hok.
  assert (Hs1 : g_hostingInitialized s1 = true
                /\ InitializeSymbolStore_sympath cfg host2 s1 = s1).
  { subst s1. unfold DataTarget.GetMetadata.
    destruct (InitializeHosting cfg host s) as [hr0 s0] eqn:Hboot.
    cbn [fst] in Hok. rewrite Hok.
    assert (Hset : g_hostingInitialized s0 = true).
    { destruct (g_hostingInitialized s) eqn:Hflag.
      - rewrite (InitializeHosting_set cfg host s Hflag) in Hboot.
        now injection Hboot as _ <-.
      - destruct (InitializeHosting_unset cfg host s hr0 s0 Hflag Hboot)
          as (_ & _ & _ & [[Hf _]|(_ & Hs & _)]); [congruence|exact Hs]. }
    destruct (InitializeSymbolStore_sympath_settled cfg host s0) as [Hkeep Hagain].
    set (s2 := InitializeSymbolStore_sympath cfg host s0) in *.
    destruct (managed_GetMetadataLocator host _ request) as [[hr' buffer] dataSize].
    cbn [snd g_hostingInitialized log].
    split; [congruence|].
    pose proof (Hagain host2) as H. unfold InitializeSymbolStore_sympath in H |- *.
    destruct (FEATURE_PAL (os cfg)); [reflexivity|].
    cbn [g_symbolStoreInitialized log].
    destruct (g_symbolStoreInitialized s2) eqn:Hflag; [reflexivity|].
    cbn [negb] in H.
    assert (Hc : g_symbolStoreInitialized
                   (parse_symbol_path host2 (set_symbolStoreInitialized true s2))
                 = g_symbolStoreInitialized s2) by now rewrite H.
    rewrite parse_symbol_path_flag in Hc. cbn in Hc. congruence. }
  clearbody s1. subst address. destruct Hs1 as [Hset Hsame].
  unfold DataTarget.GetMetadata.
  rewrite (InitializeHosting_set cfg host2 s1 Hset).
  change (FAILED S_OK) with false. cbv iota.
  rewrite Hsame.
  destruct (managed_GetMetadataLocator host2 _ request2) as [[hr2 buffer2] dataSize2].
  reflexivity.
Qed.

End GetMetadataAgain.

(** After a first request on the healthy host, a second request does
    not need the runtime library any more. *)
Lemma GetMetadata_reuses_bootstrap_witness :
  let s1 :=
    snd (DataTarget.GetMetadata Fixtures.cfg_linux Fixtures.healthy_host
           Fixtures.a_request [] 0 Fixtures.initial_state) in
  let address := Hosting.g_SOSNetCoreCallbacks s1 Hosting.GetMetadataLocatorDelegate in
  DataTarget.GetMetadata Fixtures.cfg_linux Fixtures.host_without_runtime
    Fixtures.a_request [] 0 s1
  = (Hosting.managed_GetMetadataLocator Fixtures.host_without_runtime address
       Fixtures.a_request,
     Hosting.log
       (Hosting.EvInvoke Hosting.GetMetadataLocatorDelegate address
          (Hosting.CallGetMetadataLocator Fixtures.a_request)) s1).
Proof.
  apply (GetMetadata_reuses_bootstrap Fixtures.cfg_linux Fixtures.healthy_host
           Fixtures.host_without_runtime Fixtures.a_request Fixtures.a_request
           [] [] 0 0 Fixtures.initial_state).
  vm_compute. reflexivity.
Defined.

(** ** File names and document URLs *)
Section FileNames.

Import SymbolReader Readings.

Lemma towlower_code_zero (c : ascii) :
  Str.wchar_code (Str.towlower c) = 0 -> c = zero.
Proof.
  unfold Str.wchar_code, Str.towlower.
  destruct ((65 <=? nat_of_ascii c)%nat && (nat_of_ascii c <=? 90)%nat) eqn:Hup.
  - apply andb_prop in Hup as [Hlo Hhi].
    apply Nat.leb_le in Hlo. apply Nat.leb_le in Hhi.
    rewrite nat_ascii_embedding by lia. lia.
  - intros H. rewrite <- (ascii_nat_embedding c).
    replace (nat_of_ascii c) with 0%nat by lia. reflexivity.
Qed.

Lemma towlower_codes (c d : ascii) :
  Str.wchar_code (Str.towlower c) - Str.wchar_code (Str.towlower d) = 0 ->
  Str.towlower c = Str.towlower d.
Proof.
  unfold Str.wchar_code. intros H.
  rewrite <- (ascii_nat_embedding (Str.towlower c)).
  rewrite <- (ascii_nat_embedding (Str.towlower d)).
  f_equal. lia.
Qed.

(** [_wcsicmp] answers 0 exactly for strings that agree once folded. *)
Lemma _wcsicmp_zero (a : string) : forall b,
  nul_free a = true -> nul_free b = true ->
  (Str._wcsicmp a b = 0 <-> fold_case a = fold_case b).
Proof.
  induction a as [|c a IH]; intros [|d b] Ha Hb; cbn [Str._wcsicmp fold_case].
  - tauto.
  - cbn [nul_free] in Hb. apply andb_prop in Hb as [Hd _].
    split; [|discriminate]. intros H.
    assert (Hz : d = zero) by (apply towlower_code_zero; lia).
    subst d. discriminate.
  - cbn [nul_free] in Ha. apply andb_prop in Ha as [Hc _].
    split; [|discriminate]. intros H.
    assert (Hz : c = zero) by (apply towlower_code_zero; lia).
    subst c. discriminate.
  - cbn [nul_free] in Ha, Hb.
    apply andb_prop in Ha as [_ Ha]. apply andb_prop in Hb as [_ Hb].
    destruct (Ascii.eqb (Str.towlower c) (Str.towlower d)) eqn:Heq.
    + apply Ascii.eqb_eq in Heq. rewrite (IH b Ha Hb), Heq.
      split; [congruence|]. now intros [= ->].
    + apply Ascii.eqb_neq in Heq. split.
      * intros H. now apply towlower_codes in H.
      * intros [= H _]. contradiction.
Qed.

Lemma char_at_separator (c : ascii) (a b : string) :
  Str.char_at (String.length a) (a +:+ String c b) = c.
Proof.
  unfold Str.char_at. induction a as [|x a IH]; [reflexivity|].
  rewrite append_cons. exact IH.
Qed.

(** X9. A document whose URL is a directory, a separator ([/] or [\])
    and a name as long as the requested file name passes the filename
    test exactly when that name and the file name agree up to the case
    of letters; so does a URL that is a bare name. *)
Theorem url_matches_base_name (pFilename directory name : string) (separator : ascii) :
  separator = "/"%char \/ separator = "\"%char ->
  nul_free pFilename = true -> nul_free name = true ->
  String.length name = String.length pFilename ->
  Str.strlen (directory +:+ String separator name) + 1 < 2 ^ 32 ->
  (url_matches pFilename (directory +:+ String separator name)
     (Str.strlen (directory +:+ String separator name) + 1) = true
   <-> fold_case name = fold_case pFilename)
  /\ (url_matches pFilename name (Str.strlen name + 1) = true
      <-> fold_case name = fold_case pFilename).
Proof.
  intros Hsep Hfn Hname Hlen Hfit.
  unfold Str.strlen in Hfit. rewrite length_append in Hfit.
  cbn [String.length] in Hfit.
  split.
  - unfold url_matches, Str.strlen. rewrite length_append. cbn [String.length].
    replace (Z.of_nat (String.length directory + S (String.length name)) + 1 - 1)
      with (Z.of_nat (String.length directory + S (String.length name))) by lia.
    rewrite !ULONG32_of_small by lia.
    destruct (Z.eqb_spec (Z.of_nat (String.length directory + S (String.length name)))
                (Z.of_nat (String.length pFilename))) as [Heq|_]; [lia|].
    destruct (Z.gtb_spec (Z.of_nat (String.length directory + S (String.length name)))
                (Z.of_nat (String.length pFilename))) as [_|Hle]; [|lia].
    replace (Z.of_nat (String.length directory + S (String.length name)) + 1
             - Z.of_nat (String.length pFilename) - 2)
      with (Z.of_nat (String.length directory)) by lia.
    rewrite Nat2Z.id.
    rewrite char_at_separator, drop_past_separator.
    assert (Hch : negb (Ascii.eqb separator "\") && negb (Ascii.eqb separator "/") = false).
    { destruct Hsep as [-> | ->]; reflexivity. }
    rewrite Hch. rewrite Z.eqb_eq. now apply _wcsicmp_zero.
  - unfold url_matches, Str.strlen.
    replace (Z.of_nat (String.length name) + 1 - 1)
      with (Z.of_nat (String.length name)) by lia.
    rewrite !ULONG32_of_small by lia.
    rewrite Hlen, Z.eqb_refl, Z.eqb_eq. now apply _wcsicmp_zero.
Qed.

End FileNames.

(** A document recorded as [C:\src\PROGRAM.CS] matches the file name
    [Program.cs]. *)
Lemma url_matches_base_name_witness :
  SymbolReader.url_matches "Program.cs" ("C:\src" +:+ String "\" "PROGRAM.CS")
    (Str.strlen ("C:\src" +:+ String "\" "PROGRAM.CS") + 1)
  = true.
Proof.
  apply (proj1 (url_matches_base_name "Program.cs" "C:\src" "PROGRAM.CS" "\"%char
                  (or_intror eq_refl) eq_refl eq_refl eq_refl
                  ltac:(vm_compute; reflexivity))).
  reflexivity.
Defined.

(** ** The order in which documents are tried *)
Section DocumentOrder.

Import SymbolReader Readings.

Variable reader : ISymUnmanagedReader.
Variable pFilename : string.
Variable lineNumber : Z.

Lemma resolve_passes_over (doc : ISymUnmanagedDocument) rest token0 off0 :
  passed_over pFilename lineNumber doc ->
  resolve_in_documents reader pFilename lineNumber (doc :: rest) token0 off0
  = resolve_in_documents reader pFilename lineNumber rest token0 off0.
Proof.
  intros (Hu1 & Hu2 & Hskip). cbn [resolve_in_documents].
  destruct (GetURL doc 0) as [[hr1 cch] u1]. cbn [fst snd] in *. rewrite Hu1.
  destruct (GetURL doc cch) as [[hr2 n2] pUrl]. cbn [fst snd] in *. rewrite Hu2.
  destruct (url_matches pFilename pUrl cch) eqn:Hm; cbn [negb]; [|reflexivity].
  destruct Hskip as [Hskip|Hskip]; [discriminate|].
  destruct (FindClosestLine doc lineNumber) as [hr3 closest]. cbn [fst] in Hskip.
  now rewrite Hskip.
Qed.

(** X10. Documents are tried in the order the reader enumerates them.
    Those whose name does not match or that have no line close to the
    requested one are passed over; the first document whose name
    matches and that has such a line settles the answer, whatever it
    is and whatever documents follow. When every document is passed
    over the answer is [E_FAIL] and the outputs are untouched. *)
Theorem resolve_in_documents_first_match
    (before after : list ISymUnmanagedDocument) (doc : ISymUnmanagedDocument)
    (token0 off0 : Z) :
  Forall (passed_over pFilename lineNumber) before ->
  resolve_in_documents reader pFilename lineNumber before token0 off0
  = (E_FAIL, token0, off0)
  /\ (decides pFilename lineNumber doc ->
      resolve_in_documents reader pFilename lineNumber
        (before ++ doc :: after) token0 off0
      = resolve_in_documents reader pFilename lineNumber [doc] token0 off0).
Proof.
  intros Hbefore. induction Hbefore as [|d before Hd _ IH].
  - split; [reflexivity|]. intros (Hu1 & Hu2 & Hm & Hline).
    cbn [app resolve_in_documents].
    destruct (GetURL doc 0) as [[hr1 cch] u1]. cbn [fst snd] in *. rewrite Hu1.
    destruct (GetURL doc cch) as [[hr2 n2] pUrl]. cbn [fst snd] in *. rewrite Hu2, Hm.
    cbn [negb].
    destruct (FindClosestLine doc lineNumber) as [hr3 closest]. cbn [fst] in Hline.
    now rewrite Hline.
  - cbn [app]. rewrite !resolve_passes_over by exact Hd. exact IH.
Qed.

End DocumentOrder.

(** Of four documents the third is the first named [a.cs]; the fourth,
    named [a.cs] too, is not reached. *)
Lemma resolve_in_documents_first_match_witness :
  SymbolReader.resolve_in_documents Fixtures.reader_a "a.cs" 10
    ([Fixtures.doc "b.cs"; Fixtures.doc "lib/ca.cs"]
       ++ Fixtures.doc "src/a.cs" :: [Fixtures.doc "a.cs"]) 0 0
  = SymbolReader.resolve_in_documents Fixtures.reader_a "a.cs" 10
      [Fixtures.doc "src/a.cs"] 0 0.
Proof.
  apply (resolve_in_documents_first_match Fixtures.reader_a "a.cs" 10
           [Fixtures.doc "b.cs"; Fixtures.doc "lib/ca.cs"] [Fixtures.doc "a.cs"]
           (Fixtures.doc "src/a.cs") 0 0).
  - repeat constructor.
  - repeat split.
Defined.

(** ** Symbol files reported by the symbol downloader *)
Section SymbolFiles.

Import Hosting NativeSymbols.

Variable cfg : Config.
Variable sv : Services.
Variable param : Z.

(** X11. The symbol files a download reports, in order. The DAC path
    becomes the first file reported for the DAC module unless a path
    was already set, which is then kept; likewise for the DBI. Files of
    the runtime module are ignored. With the PAL and the second lldb
    service at hand, the files of every other module are registered
    with the debugger, in order; nothing else changes. *)
Theorem SymbolFileCallback_first_wins (found : list (string * string)) (p : Process) :
  MAKEDLLNAME_A sv "mscordaccore" <> MAIN_CLR_DLL_NAME_A cfg ->
  MAKEDLLNAME_A sv "mscordbi" <> MAIN_CLR_DLL_NAME_A cfg ->
  MAKEDLLNAME_A sv "mscordbi" <> MAKEDLLNAME_A sv "mscordaccore" ->
  let p' :=
    fold_left
      (fun p f => SymbolFileCallback cfg sv param (fst f) (snd f) p) found p in
  g_dacFilePath (hosting p')
  = match g_dacFilePath (hosting p) with
    | Some path => Some path
    | None => first_reported (MAKEDLLNAME_A sv "mscordaccore") found
    end
  /\ g_dbiFilePath (hosting p')
     = match g_dbiFilePath (hosting p) with
       | Some path => Some path
       | None => first_reported (MAKEDLLNAME_A sv "mscordbi") found
       end
  /\ only_paths_differ (hosting p) (hosting p')
  /\ GetExpression p' = GetExpression p
  /\ effects p'
     = effects p
       ++ (if FEATURE_PAL (os cfg) && SUCCEEDED (QueryInterface_ILLDBServices2 sv)
           then map (fun f => EfAddModuleSymbol param (snd f))
                    (List.filter (other_module cfg sv) found)
           else []).
Proof.
  intros Hdac Hdbi Hboth p'. subst p'. revert p.
  induction found as [|[name file] rest IH]; intros p; cbn [fold_left].
  - unfold first_reported, only_paths_differ. cbn.
    destruct (g_dacFilePath (hosting p)), (g_dbiFilePath (hosting p));
      destruct (_ && _); rewrite app_nil_r; tauto.
  - destruct (IH (SymbolFileCallback cfg sv param name file p))
      as (Hd & Hb & Hsame & Hexp & Heff).
    cbn [fst snd] in *. rewrite Hd, Hb, Hexp, Heff. clear IH Hd Hb Hexp Heff.
    unfold only_paths_differ in *.
    destruct Hsame as (-> & -> & -> & -> & -> & ->).
    unfold first_reported, other_module. cbn [List.find List.filter fst snd].
    unfold SymbolFileCallback.
    destruct (String.eqb_spec name (MAIN_CLR_DLL_NAME_A cfg)) as [->|Hclr].
    { apply not_eq_sym, String.eqb_neq in Hdac, Hdbi. rewrite Hdac, Hdbi.
      cbn [negb andb]. tauto. }
    destruct (String.eqb_spec name (MAKEDLLNAME_A sv "mscordaccore")) as [->|Hnd].
    { pose proof (proj2 (String.eqb_neq _ _) (not_eq_sym Hboth)) as Hx.
      rewrite Hx. cbn [negb andb fmap option_fmap option_map].
      destruct (g_dacFilePath (hosting p)) eqn:Hcur; cbn; rewrite ?Hcur; tauto. }
    destruct (String.eqb_spec name (MAKEDLLNAME_A sv "mscordbi")) as [->|Hnb].
    { cbn [negb andb fmap option_fmap option_map].
      destruct (g_dbiFilePath (hosting p)) eqn:Hcur; cbn; rewrite ?Hcur; tauto. }
    cbn [negb andb].
    destruct (FEATURE_PAL (os cfg)); cbn [andb]; [|tauto].
    destruct (SUCCEEDED (QueryInterface_ILLDBServices2 sv)); cbn; [|tauto].
    rewrite <- app_assoc. tauto.
Qed.

End SymbolFiles.

(** Of the two DAC files the downloader reports, the first is kept;
    the runtime's own symbol file is not registered, the C library's
    is. *)
Lemma SymbolFileCallback_first_wins_witness :
  let p' :=
    fold_left
      (fun p f =>
         NativeSymbols.SymbolFileCallback Fixtures.cfg_linux Examples.lldb_services
           1 (fst f) (snd f) p)
      Examples.downloaded Examples.initial_process in
  Hosting.g_dacFilePath (NativeSymbols.hosting p') = Some "/cache/a/libmscordaccore.so"
  /\ NativeSymbols.effects p'
     = [NativeSymbols.EfAddModuleSymbol 1 "/cache/libc.so.6.dbg"].
Proof.
  destruct (SymbolFileCallback_first_wins Fixtures.cfg_linux Examples.lldb_services 1
              Examples.downloaded Examples.initial_process)
    as (Hdac & _ & _ & _ & Heff).
  - discriminate.
  - discriminate.
  - discriminate.
  - cbv zeta. rewrite Hdac, Heff. split; reflexivity.
Defined.

(** ** Downloading native symbols *)
Section LoadNativeSymbols.

Import Hosting NativeSymbols.

Variable cfg : Config.
Variable host : Host.
Variable sv : Services.

Lemma keeps_pinned_refl p : keeps_pinned p p.
Proof. unfold keeps_pinned. tauto. Qed.

Lemma keeps_pinned_trans p1 p2 p3 :
  keeps_pinned p1 p2 -> keeps_pinned p2 p3 -> keeps_pinned p1 p3.
Proof.
  unfold keeps_pinned. intros (A1 & A2 & A3 & A4) (B1 & B2 & B3 & B4).
  split; [congruence|]. split; [congruence|]. split; auto.
Qed.

Lemma SymbolFileCallback_keeps param name file p :
  keeps_pinned p (SymbolFileCallback cfg sv param name file p).
Proof.
  unfold SymbolFileCallback, keeps_pinned.
  destruct (String.eqb name (MAIN_CLR_DLL_NAME_A cfg)); [tauto|].
  destruct (String.eqb name (MAKEDLLNAME_A sv "mscordaccore")).
  { destruct (g_dacFilePath (hosting p)) eqn:Hcur; cbn; rewrite ?Hcur;
      repeat split; try tauto; discriminate. }
  destruct (String.eqb name (MAKEDLLNAME_A sv "mscordbi")).
  { destruct (g_dbiFilePath (hosting p)) eqn:Hcur; cbn; rewrite ?Hcur;
      repeat split; try tauto; discriminate. }
  destruct (FEATURE_PAL (os cfg)); [|tauto].
  destruct (SUCCEEDED _); cbn; tauto.
Qed.

Lemma fold_keeps_pinned {A} (f : Process -> A -> Process) (l : list A) :
  (forall p a, keeps_pinned p (f p a)) ->
  forall p, keeps_pinned p (fold_left f l p).
Proof.
  intros Hf. induction l as [|a l IH]; intros p; cbn [fold_left].
  - apply keeps_pinned_refl.
  - eapply keeps_pinned_trans; [apply Hf|apply IH].
Qed.

Lemma LoadNativeSymbolsCallback_keeps param path address size p :
  keeps_pinned p (LoadNativeSymbolsCallback cfg host sv param path address size p).
Proof.
  unfold LoadNativeSymbolsCallback.
  destruct (GetTempDirectory cfg host (hosting p)) as [tmp h] eqn:Htmp.
  eapply keeps_pinned_trans;
    [|apply fold_keeps_pinned; intros q a; apply SymbolFileCallback_keeps].
  unfold GetTempDirectory in Htmp.
  destruct (g_tmpPath (hosting p)); injection Htmp as <- <-;
    unfold keeps_pinned; cbn; tauto.
Qed.

Lemma LoadNativeSymbols_keeps runtimeOnly p :
  keeps_pinned p (snd (LoadNativeSymbols cfg host sv runtimeOnly p)).
Proof.
  unfold LoadNativeSymbols.
  destruct (g_symbolStoreInitialized (hosting p)); [|apply keeps_pinned_refl].
  destruct (FEATURE_PAL (os cfg)).
  - destruct (SUCCEEDED (QueryInterface_ILLDBServices2 sv)); [|apply keeps_pinned_refl].
    destruct (services2_LoadNativeSymbols sv runtimeOnly) as [hr modules].
    cbn [snd]. apply fold_keeps_pinned. intros q [[[a b] c] d].
    apply LoadNativeSymbolsCallback_keeps.
  - destruct runtimeOnly; [|apply keeps_pinned_refl].
    destruct (ExtSymbols_GetModuleByModuleName host _) as [hr1 index].
    destruct (SUCCEEDED hr1); [|apply keeps_pinned_refl].
    destruct (ExtSymbols_GetModuleNames host index) as [hr2 path].
    destruct (SUCCEEDED hr2); [|apply keeps_pinned_refl].
    destruct (ExtSymbols_GetModuleParameters sv _) as [hr3 size].
    destruct (SUCCEEDED hr3); [|apply keeps_pinned_refl].
    apply LoadNativeSymbolsCallback_keeps.
Qed.

(** X12. [LoadNativeSymbols] does nothing and answers [S_OK] while the
    symbol store is not enabled. Under dbgeng it answers [S_OK]
    whatever the debugger answered, and does nothing unless asked for
    the runtime only. With the PAL, when the second lldb service cannot
    be had, that failure is the answer and nothing was done. Whatever
    it does, the hosting and symbol-store flags are as before and a DAC
    or DBI path that was set is kept. *)
Theorem LoadNativeSymbols_quiet (runtimeOnly : bool) (p : Process) :
  (g_symbolStoreInitialized (hosting p) = false ->
   LoadNativeSymbols cfg host sv runtimeOnly p = (S_OK, p))
  /\ (FEATURE_PAL (os cfg) = false ->
      fst (LoadNativeSymbols cfg host sv runtimeOnly p) = S_OK
      /\ (runtimeOnly = false -> LoadNativeSymbols cfg host sv runtimeOnly p = (S_OK, p)))
  /\ (FEATURE_PAL (os cfg) = true -> g_symbolStoreInitialized (hosting p) = true ->
      FAILED (QueryInterface_ILLDBServices2 sv) = true ->
      LoadNativeSymbols cfg host sv runtimeOnly p = (QueryInterface_ILLDBServices2 sv, p))
  /\ keeps_pinned p (snd (LoadNativeSymbols cfg host sv runtimeOnly p)).
Proof.
  split; [|split; [|split]].
  - intros Hflag. unfold LoadNativeSymbols. now rewrite Hflag.
  - intros Hpal. unfold LoadNativeSymbols. rewrite Hpal.
    destruct (g_symbolStoreInitialized (hosting p)).
    2:{ split; reflexivity. }
    destruct runtimeOnly.
    2:{ split; reflexivity. }
    split; [|discriminate].
    destruct (ExtSymbols_GetModuleByModuleName host _) as [hr1 index].
    destruct (SUCCEEDED hr1); [|reflexivity].
    destruct (ExtSymbols_GetModuleNames host index) as [hr2 path].
    destruct (SUCCEEDED hr2); [|reflexivity].
    destruct (ExtSymbols_GetModuleParameters sv _) as [hr3 size].
    destruct (SUCCEEDED hr3); reflexivity.
  - intros Hpal Hflag Hqi. unfold LoadNativeSymbols.
    rewrite Hflag, Hpal, FAILED_SUCCEEDED, Hqi. reflexivity.
  - apply LoadNativeSymbols_keeps.
Qed.

(** X13. [GetDacFilePath] and [GetDbiFilePath] answer the path that is
    pinned when they return. When one is pinned on entry they answer it
    and do nothing; so once either has answered a path, every later
    call answers that path and does nothing, whatever the host and the
    debugger would then answer. *)
Theorem GetDacFilePath_pinned (p : Process) :
  let dac := GetDacFilePath cfg host sv p in
  let dbi := GetDbiFilePath cfg host sv p in
  fst dac = g_dacFilePath (hosting (snd dac))
  /\ fst dbi = g_dbiFilePath (hosting (snd dbi))
  /\ (forall path, g_dacFilePath (hosting p) = Some path -> dac = (Some path, p))
  /\ (forall path, g_dbiFilePath (hosting p) = Some path -> dbi = (Some path, p))
  /\ (forall path host2 sv2, fst dac = Some path ->
        GetDacFilePath cfg host2 sv2 (snd dac) = (Some path, snd dac))
  /\ (forall path host2 sv2, fst dbi = Some path ->
        GetDbiFilePath cfg host2 sv2 (snd dbi) = (Some path, snd dbi)).
Proof.
  intros dac dbi.
  assert (Hdac : fst dac = g_dacFilePath (hosting (snd dac))).
  { subst dac. unfold GetDacFilePath.
    destruct (g_dacFilePath (hosting p)) eqn:Hcur; [cbn; congruence|].
    destruct (GetCoreClrDirectory cfg host ""). reflexivity. }
  assert (Hdbi : fst dbi = g_dbiFilePath (hosting (snd dbi))).
  { subst dbi. unfold GetDbiFilePath.
    destruct (g_dbiFilePath (hosting p)) eqn:Hcur; [cbn; congruence|].
    destruct (GetCoreClrDirectory cfg host ""). reflexivity. }
  assert (Hin : forall h2 s2 q path, g_dacFilePath (hosting q) = Some path ->
            GetDacFilePath cfg h2 s2 q = (Some path, q)).
  { intros h2 s2 q path Hq. unfold GetDacFilePath. now rewrite Hq. }
  assert (Hin' : forall h2 s2 q path, g_dbiFilePath (hosting q) = Some path ->
            GetDbiFilePath cfg h2 s2 q = (Some path, q)).
  { intros h2 s2 q path Hq. unfold GetDbiFilePath. now rewrite Hq. }
  split; [exact Hdac|]. split; [exact Hdbi|].
  split; [intros path; apply Hin|]. split; [intros path; apply Hin'|].
  split.
  - intros path host2 sv2 Hans. apply Hin. congruence.
  - intros path host2 sv2 Hans. apply Hin'. congruence.
Qed.

(** X14. How [GetDacFilePath] finds the DAC when no path is pinned.
    Under dbgeng the DAC of the runtime's directory is pinned without
    looking whether the file exists. On Linux, when that file exists,
    a link to it is made in the scratch directory and the link is
    pinned, or the file itself when the link cannot be made. With the
    PAL, when the runtime's directory is not known or holds no DAC and
    the symbol store is not enabled, the answer is null and nothing
    was done. *)
Theorem GetDacFilePath_probe (p : Process) (directory : string) :
  let dacModulePath :=
    directory +:+ DIRECTORY_SEPARATOR_STR_A cfg +:+ MAKEDLLNAME_A sv "mscordaccore" in
  g_dacFilePath (hosting p) = None ->
  (os cfg = Windows ->
   GetCoreClrDirectory cfg host EmptyString = (S_OK, directory) ->
   GetDacFilePath cfg host sv p
   = (Some dacModulePath,
      with_hosting (set_dacFilePath (Some dacModulePath) (hosting p)) p))
  /\ (os cfg = Linux ->
      GetCoreClrDirectory cfg host EmptyString = (S_OK, directory) ->
      access_F_OK host dacModulePath = true ->
      exists tmpPath,
        let dacSymLink := tmpPath +:+ MAKEDLLNAME_A sv "mscordaccore" in
        let created := symlink sv dacModulePath dacSymLink in
        let pinned := if created then dacSymLink else dacModulePath in
        GetTempDirectory cfg host (hosting p)
        = (Some tmpPath, snd (GetTempDirectory cfg host (hosting p)))
        /\ GetDacFilePath cfg host sv p
           = (Some pinned,
              with_hosting
                (set_dacFilePath (Some pinned)
                   (snd (GetTempDirectory cfg host (hosting p))))
                (effect (EfSymlink dacModulePath dacSymLink created) p)))
  /\ (FEATURE_PAL (os cfg) = true ->
      g_symbolStoreInitialized (hosting p) = false ->
      FAILED (fst (GetCoreClrDirectory cfg host EmptyString)) = true
      \/ (GetCoreClrDirectory cfg host EmptyString = (S_OK, directory)
          /\ access_F_OK host dacModulePath = false) ->
      GetDacFilePath cfg host sv p = (None, p)).
Proof.
  intros dacModulePath Hnone. subst dacModulePath.
  split; [|split].
  - intros Hos Hdir. unfold GetDacFilePath, link_into_scratch.
    rewrite Hnone, Hdir, Hos. cbn [FEATURE_PAL negb orb].
    change (SUCCEEDED S_OK) with true. cbv iota. cbn. reflexivity.
  - intros Hos Hdir Hacc. unfold GetDacFilePath, link_into_scratch.
    rewrite Hnone, Hdir, Hos. cbn [FEATURE_PAL negb orb].
    change (SUCCEEDED S_OK) with true. cbv iota. rewrite Hacc.
    assert (Htmp : exists tmpPath h,
              GetTempDirectory cfg host (hosting p) = (Some tmpPath, h)).
    { unfold GetTempDirectory. destruct (g_tmpPath (hosting p)); eauto. }
    destruct Htmp as (tmpPath & h & Htmp). rewrite Htmp. cbn [snd].
    exists tmpPath. split; [reflexivity|]. cbn. reflexivity.
  - intros Hpal Hflag Hmiss. unfold GetDacFilePath.
    rewrite Hnone.
    assert (Hload : forall q, hosting q = hosting p ->
              snd (LoadNativeSymbols cfg host sv true q) = q).
    { intros q Hq. unfold LoadNativeSymbols. now rewrite Hq, Hflag. }
    destruct Hmiss as [Hf|[Hdir Hacc]].
    + destruct (GetCoreClrDirectory cfg host "") as [hr dir]. cbn [fst] in Hf.
      rewrite FAILED_SUCCEEDED, Hf. cbn [negb]. rewrite Hnone.
      rewrite Hload by reflexivity. now rewrite Hnone.
    + rewrite Hdir. change (SUCCEEDED S_OK) with true. cbv iota.
      rewrite Hpal, Hacc. cbn [negb orb]. rewrite Hnone.
      rewrite Hload by reflexivity. now rewrite Hnone.
Qed.

End LoadNativeSymbols.

(** On Linux, with a DAC in the runtime's directory, the path pinned is
    the link made in the scratch directory. *)
Lemma GetDacFilePath_probe_witness :
  fst (NativeSymbols.GetDacFilePath Fixtures.cfg_linux Examples.host_with_dac
         Examples.lldb_services Examples.initial_process)
  = Some "/tmp/sos4242/libmscordaccore.so".
Proof.
  destruct (proj1 (proj2 (GetDacFilePath_probe Fixtures.cfg_linux
                            Examples.host_with_dac Examples.lldb_services
                            Examples.initial_process "/app/runtime" eq_refl))
              eq_refl eq_refl eq_refl)
    as (tmpPath & Htmp & Hrun).
  rewrite Hrun. cbn [fst].
  vm_compute in Htmp. injection Htmp as <-. reflexivity.
Defined.

(** ** A symbol store that is switched off *)
Section StoreSwitchedOff.

Import Hosting NativeSymbols.

(** X15. [DisplaySymbolStore] calls the display operation once when the
    store is enabled. Once [DisableSymbolStore] has run, displaying
    does nothing and [LoadNativeSymbols] answers [S_OK] without asking
    the debugger or the hosted runtime for anything, whatever they
    would answer. *)
Theorem disabled_store_is_silent (cfg : Config) (host : Host) (sv : Services)
    (runtimeOnly : bool) (p : Process) :
  let off := with_hosting (DisableSymbolStore (hosting p)) p in
  (g_symbolStoreInitialized (hosting p) = true ->
   DisplaySymbolStore p
   = effect (EfDisplaySymbolStore
               (g_SOSNetCoreCallbacks (hosting p) DisplaySymbolStoreDelegate)) p)
  /\ DisplaySymbolStore off = off
  /\ LoadNativeSymbols cfg host sv runtimeOnly off = (S_OK, off).
Proof.
  intros off.
  assert (Hoff : g_symbolStoreInitialized (hosting off) = false).
  { unfold off, DisableSymbolStore. cbn [hosting with_hosting].
    destruct (g_symbolStoreInitialized (hosting p)) eqn:Hflag; [reflexivity|exact Hflag]. }
  split; [|split].
  - intros Hflag. unfold DisplaySymbolStore. now rewrite Hflag.
  - unfold DisplaySymbolStore. now rewrite Hoff.
  - unfold LoadNativeSymbols. now rewrite Hoff.
Qed.

End StoreSwitchedOff.

(** ** Initialization by a managed host *)
Section InitializeByHost.

Import Hosting NativeSymbols.

Variable cfg : Config.
Variable sv : Services.

(** X16. [SOSInitializeByHost] answers [S_OK] or [E_INVALIDARG]. When
    the table cannot be copied nothing but the table is touched. When
    it answers [S_OK] the hosting flag is set, the symbol-store flag is
    the host's word, and each of the three paths is the host's when it
    gave one and as before when it gave null. From then on
    [InitializeHosting] answers [S_OK] without doing anything, and a
    scratch directory the host gave is the one [GetTempDirectory]
    answers and the one [SOSShutdown] empties and removes. *)
Theorem SOSInitializeByHost_hosted (callbacks : HostCallbacks) (callbacksSize : Z)
    (tempDirectory dacFilePath dbiFilePath : option string)
    (symbolStoreEnabled : bool) (p : Process) :
  let r := SOSInitializeByHost cfg sv callbacks callbacksSize tempDirectory
             dacFilePath dbiFilePath symbolStoreEnabled p in
  let h := hosting p in
  let h' := hosting (snd r) in
  (fst r = S_OK \/ fst r = E_INVALIDARG)
  /\ trace h' = trace h /\ effects (snd r) = effects p
  /\ g_hostRuntimeDirectory h' = g_hostRuntimeDirectory h
  /\ (fst r = E_INVALIDARG ->
      same_settings h h' /\ GetExpression (snd r) = GetExpression p)
  /\ (fst r = S_OK ->
      IsHostingInitialized (snd r) = true
      /\ g_symbolStoreInitialized h' = symbolStoreEnabled
      /\ g_tmpPath h' = store_if_given tempDirectory (g_tmpPath h)
      /\ g_dacFilePath h' = store_if_given dacFilePath (g_dacFilePath h)
      /\ g_dbiFilePath h' = store_if_given dbiFilePath (g_dbiFilePath h)
      /\ (forall host, InitializeHosting cfg host h' = (S_OK, h'))
      /\ (forall host directory, tempDirectory = Some directory ->
            GetTempDirectory cfg host h' = (Some directory, h')
            /\ trace (SOSShutdown cfg host h')
               = trace h ++ scratch_deletions cfg host directory
                   ++ [EvRemoveDirectory directory])).
Proof.
  intros r h h'. subst r h h'. unfold SOSInitializeByHost.
  destruct (memcpy_s sv _ _ _) as [error table].
  destruct (error =? 0); cbn [negb fst snd].
  - split; [now left|].
    split; [now destruct (FEATURE_PAL (os cfg))|].
    split; [now destruct (FEATURE_PAL (os cfg))|].
    split; [now destruct (FEATURE_PAL (os cfg))|].
    split; [discriminate|]. intros _.
    set (q := with_hosting _ (if FEATURE_PAL (os cfg) then _ else _)).
    assert (Hflag : g_hostingInitialized (hosting q) = true)
      by (unfold q; now destruct (FEATURE_PAL (os cfg))).
    assert (Htmp : g_tmpPath (hosting q)
                   = store_if_given tempDirectory (g_tmpPath (hosting p)))
      by (unfold q; now destruct (FEATURE_PAL (os cfg))).
    assert (Htr : trace (hosting q) = trace (hosting p))
      by (unfold q; now destruct (FEATURE_PAL (os cfg))).
    split; [exact Hflag|].
    split; [unfold q; now destruct (FEATURE_PAL (os cfg))|].
    split; [exact Htmp|].
    split; [unfold q; now destruct (FEATURE_PAL (os cfg))|].
    split; [unfold q; now destruct (FEATURE_PAL (os cfg))|].
    split; [intros host; now apply InitializeHosting_set|].
    intros host directory ->. cbn [store_if_given] in Htmp.
    split; [unfold GetTempDirectory; now rewrite Htmp|].
    unfold SOSShutdown, InterlockedExchange_tmpPath. rewrite Htmp.
    destruct (remove_scratch_some cfg host directory (set_tmpPath None (hosting q)))
      as [_ Hrm].
    rewrite Hrm. cbn [trace set_tmpPath]. now rewrite Htr.
  - split; [now right|]. cbn. unfold same_settings. cbn.
    split; [reflexivity|]. split; [reflexivity|]. split; [reflexivity|].
    split; [intros _; repeat split|intros H; discriminate H].
Qed.

End InitializeByHost.

(** ** The reference count of the data target *)
Section ReferenceCount.

Import DataTargetObject.

Lemma AddRef_iter (n : nat) :
  Z.of_nat n < 2 ^ 31 ->
  Nat.iter n (fun o => snd (AddRef o)) DataTarget
  = {| m_ref := Z.of_nat n; destroyed := false |}.
Proof.
  induction n as [|n IH]; intros Hn; [reflexivity|].
  rewrite Nat.iter_succ, IH by lia. unfold AddRef. cbn [snd m_ref destroyed].
  rewrite int_of_small by lia. f_equal. lia.
Qed.

Lemma Release_iter (n k : nat) :
  Z.of_nat n < 2 ^ 31 -> (k <= n)%nat ->
  Nat.iter k (fun o => snd (Release o)) {| m_ref := Z.of_nat n; destroyed := false |}
  = {| m_ref := Z.of_nat n - Z.of_nat k;
       destroyed := bool_decide (k = n /\ (0 < n)%nat) |}.
Proof.
  intros Hn. induction k as [|k IH]; intros Hk.
  - unfold Nat.iter. cbn [nat_rect]. rewrite Z.sub_0_r. f_equal.
    symmetry. apply bool_decide_eq_false_2. lia.
  - rewrite Nat.iter_succ, IH by lia. unfold Release. cbn [snd m_ref destroyed].
    rewrite int_of_small by lia. f_equal; [lia|].
    destruct (Z.eqb_spec (Z.of_nat n - Z.of_nat k - 1) 0) as [Hz|Hz].
    + symmetry. apply bool_decide_eq_true_2. lia.
    + rewrite (bool_decide_eq_false_2 (k = n /\ (0 < n)%nat)) by lia.
      symmetry. apply bool_decide_eq_false_2. lia.
Qed.

(** X17. The data target starts with a count of 0. After [n]
    references were taken, the object is destroyed by the [n]-th
    release and by none before it. [QueryInterface] takes one
    reference when it answers an interface and leaves the count alone
    when it answers [E_NOINTERFACE] with a null pointer. A release of
    an object nobody holds brings the count to -1, answers
    [0xFFFFFFFF] and destroys nothing. *)
Theorem Release_destroys_at_zero (n k : nat) :
  (0 < n)%nat -> Z.of_nat n < 2 ^ 31 -> (k <= n)%nat ->
  let held := Nat.iter n (fun o => snd (AddRef o)) DataTarget in
  let after := Nat.iter k (fun o => snd (Release o)) held in
  m_ref after = Z.of_nat n - Z.of_nat k
  /\ (destroyed after = true <-> k = n)
  /\ (forall InterfaceId this,
        (fst (fst (QueryInterface InterfaceId this)) = S_OK
         /\ snd (fst (QueryInterface InterfaceId this)) <> None
         /\ snd (QueryInterface InterfaceId this) = snd (AddRef this))
        \/ QueryInterface InterfaceId this = (E_NOINTERFACE, None, this))
  /\ Release DataTarget = (2 ^ 32 - 1, {| m_ref := -1; destroyed := false |}).
Proof.
  intros Hpos Hn Hk held after. subst held after.
  rewrite AddRef_iter by exact Hn. rewrite Release_iter by assumption.
  cbn [m_ref destroyed].
  split; [reflexivity|]. split.
  { rewrite bool_decide_eq_true. split; [tauto|]. intros ->. split; [reflexivity|lia]. }
  split; [|reflexivity].
  intros [| | | |guid] this; cbn; [left|left|left|left|right];
    repeat split; discriminate.
Qed.

(** *** Releases that interleave *)

Lemma count_insert (f : Releasing -> bool) (threads : list Releasing) :
  forall i r r', threads !! i = Some r ->
  (count f (<[i := r']> threads) + (if f r then 1 else 0)
   = count f threads + (if f r' then 1 else 0))%nat.
Proof.
  unfold count. induction threads as [|x threads IH]; intros i r r' Hi.
  - discriminate.
  - destruct i as [|i]; cbn in Hi |- *.
    + injection Hi as ->. destruct (f r), (f r'); cbn; lia.
    + specialize (IH i r r' Hi). destruct (f x); cbn; [f_equal|]; exact IH.
Qed.

Lemma count_replicate_pending (n : nat) :
  count is_pending (replicate n Pending) = n
  /\ count holds_zero (replicate n Pending) = 0%nat.
Proof.
  unfold count. induction n as [|n [IH1 IH2]]; [split; reflexivity|].
  cbn. split; [now rewrite IH1|exact IH2].
Qed.

Lemma count_all_done (threads : list Releasing) :
  forallb is_done threads = true ->
  count is_pending threads = 0%nat /\ count holds_zero threads = 0%nat.
Proof.
  unfold count. induction threads as [|x threads IH]; [split; reflexivity|].
  cbn [forallb]. intros H. apply andb_prop in H as [Hx Hrest].
  destruct x; try discriminate. cbn. now apply IH.
Qed.

Lemma count_le_length f threads : (count f threads <= length threads)%nat.
Proof.
  unfold count. induction threads as [|x threads IH]; cbn; [lia|].
  destruct (f x); cbn; lia.
Qed.

Lemma release_schedule_invariant (schedule : list nat) :
  forall threads this deletes,
    release_invariant threads this deletes ->
    let '(threads', this', deletes') :=
      release_schedule schedule threads this deletes in
    release_invariant threads' this' deletes'.
Proof.
  induction schedule as [|i rest IH]; intros threads this deletes Hinv;
    cbn [release_schedule]; [exact Hinv|].
  destruct (threads !! i) as [r|] eqn:Hi; [|now apply IH].
  destruct (release_step r this) as [r' this'] eqn:Hstep.
  apply IH. clear IH.
  destruct Hinv as (Href & Hlen & Hdes & Hsome & Hnone).
  pose proof (count_insert is_pending threads i r r' Hi) as Hp.
  pose proof (count_insert holds_zero threads i r r' Hi) as Hz.
  pose proof (count_le_length is_pending threads) as Hle.
  assert (Hcases :
            (count is_pending threads = 0
             /\ deletes + count holds_zero threads = 1)%nat
            \/ (0 < count is_pending threads
                /\ deletes = 0 /\ count holds_zero threads = 0)%nat).
  { destruct (count is_pending threads) eqn:Hc.
    - left. split; [reflexivity|]. now apply Hnone.
    - right. destruct Hsome as [Hd0 Hz0]; lia. }
  clear Hsome Hnone.
  unfold release_invariant. rewrite length_insert.
  destruct r as [|ref|]; cbn in Hstep; injection Hstep as <- <-;
    cbn [is_pending holds_zero m_ref destroyed] in *.
  - rewrite int_of_small in Hp, Hz |- * by lia.
    destruct (Z.eqb_spec (m_ref this - 1) 0) as [Hlast|Hlast];
      (split; [lia|]; split; [exact Hlen|]; split; [exact Hdes|]; split; intros Hq; lia).
  - destruct (Z.eqb_spec ref 0) as [->|Hnz].
    + change (0 =? 0) with true in Hz. cbv iota in Hz.
      split; [lia|]. split; [exact Hlen|].
      split; [symmetry; apply bool_decide_eq_true_2; lia|].
      split; intros Hq; lia.
    + split; [lia|]. split; [exact Hlen|]. split; [exact Hdes|].
      split; intros Hq; lia.
  - split; [lia|]. split; [exact Hlen|]. split; [exact Hdes|].
    split; intros Hq; lia.
Qed.

(** X18. [n] threads each release an object held [n] times, their
    decrements and their tests interleaving in any order. However far
    the schedule has got, the object has been destroyed at most once,
    and it is destroyed exactly when that one deletion has run; when
    every thread has finished it has been destroyed exactly once. *)
Theorem Release_interleaved_once (n : nat) (schedule : list nat) :
  (0 < n)%nat -> Z.of_nat n < 2 ^ 31 ->
  let start := {| m_ref := Z.of_nat n; destroyed := false |} in
  let result := release_schedule schedule (replicate n Pending) start 0 in
  let threads := fst (fst result) in
  let this := snd (fst result) in
  let deletes := snd result in
  (deletes <= 1)%nat
  /\ (destroyed this = true <-> deletes = 1%nat)
  /\ (forallb is_done threads = true -> deletes = 1%nat /\ m_ref this = 0).
Proof.
  intros Hpos Hn start result threads this deletes.
  assert (Hstart : release_invariant (replicate n Pending) start 0).
  { destruct (count_replicate_pending n) as [Hp Hz].
    unfold release_invariant. rewrite Hp, Hz, length_replicate. cbn.
    split; [reflexivity|]. split; [exact Hn|]. split; [reflexivity|]. lia. }
  pose proof (release_schedule_invariant schedule _ _ _ Hstart) as Hinv.
  fold result in Hinv. subst threads this deletes.
  destruct result as [[threads this] deletes]. cbn [fst snd].
  destruct Hinv as (Href & _ & Hdes & Hsome & Hnone).
  split; [|split].
  - destruct (count is_pending threads) eqn:Hc; [|destruct Hsome; lia].
    specialize (Hnone eq_refl). lia.
  - rewrite Hdes. apply bool_decide_eq_true.
  - intros Hdone. destruct (count_all_done threads Hdone) as [Hp Hz].
    specialize (Hnone Hp). split; [lia|]. rewrite Href, Hp. reflexivity.
Qed.

End ReferenceCount.

(** Three references, three releases: the third destroys. *)
Lemma Release_destroys_at_zero_witness :
  DataTargetObject.destroyed
    (Nat.iter 3 (fun o => snd (DataTargetObject.Release o))
       (Nat.iter 3 (fun o => snd (DataTargetObject.AddRef o))
          DataTargetObject.DataTarget))
  = true.
Proof.
  apply (proj1 (proj2 (Release_destroys_at_zero 3 3
                         ltac:(lia) ltac:(vm_compute; reflexivity) ltac:(lia)))).
  reflexivity.
Defined.

(** Two threads: the first decrements, the second decrements and
    tests, then the first tests. *)
Lemma Release_interleaved_once_witness :
  snd (DataTargetObject.release_schedule [0; 1; 1; 0]%nat
         (replicate 2 DataTargetObject.Pending)
         {| DataTargetObject.m_ref := 2; DataTargetObject.destroyed := false |} 0)
  = 1%nat.
Proof.
  apply (proj2 (proj2 (Release_interleaved_once 2 [0; 1; 1; 0]%nat
                         ltac:(lia) ltac:(vm_compute; reflexivity)))).
  reflexivity.
Defined.

(** ** The module name [GetImageBase] looks up *)
Section ImageBase.

Import DataTargetObject.

Context {E : Type}.
Variable ExtSymbols : IDebugSymbols E.
Variable WideCharToMultiByte : string -> option string.

(** X20. Under dbgeng [GetImageBase] looks the module up by the
    converted name cut at its last dot: for [stem.ext] it asks for
    [stem], and a name without a dot is asked for as it is. With the
    PAL the whole name is asked for. The debugger's answer is returned
    unchanged. *)
Theorem GetImageBase_lookup_name (name stem ext : string) (base0 : Z) (e : E) :
  Str.rfind "." ext = None ->
  (WideCharToMultiByte name = Some (stem +:+ String "." ext) ->
   GetImageBase false (Some ExtSymbols) WideCharToMultiByte name base0 e
   = GetModuleByModuleName ExtSymbols stem 0 e
   /\ GetImageBase true (Some ExtSymbols) WideCharToMultiByte name base0 e
      = GetModuleByModuleName ExtSymbols (stem +:+ String "." ext) 0 e)
  /\ (WideCharToMultiByte name = Some ext ->
      forall FEATURE_PAL,
        GetImageBase FEATURE_PAL (Some ExtSymbols) WideCharToMultiByte name base0 e
        = GetModuleByModuleName ExtSymbols ext 0 e).
Proof.
  intros Hext. unfold GetImageBase. split.
  - intros ->. rewrite (rfind_append_separator "." stem ext Hext).
    rewrite take_append. split; reflexivity.
  - intros -> pal. rewrite Hext. now destruct pal.
Qed.

End ImageBase.

(** [System.Private.CoreLib.dll] is looked up as
    [System.Private.CoreLib]. *)
Lemma GetImageBase_lookup_name_witness :
  DataTargetObject.GetImageBase false (Some Examples.sim_symbols) Some
    "System.Private.CoreLib.dll" 0 Fixtures.stopped_engine
  = DataTargetObject.GetModuleByModuleName Examples.sim_symbols
      "System.Private.CoreLib" 0 Fixtures.stopped_engine.
Proof.
  apply (proj1 (GetImageBase_lookup_name Examples.sim_symbols Some
                  "System.Private.CoreLib.dll" "System.Private.CoreLib" "dll"
                  0 Fixtures.stopped_engine eq_refl)).
  reflexivity.
Defined.

(** ** Naming a local variable *)
Section LocalVariables.

Import SymbolReader SymbolSession.

Variable pILFrame : ICorDebugILFrame.
Variable localIndex : Z.
Variable paramNameLen : Z.

(** Induction over a scope and all scopes below it. *)
Lemma scope_induction (P : ISymUnmanagedScope -> Prop) :
  (forall lc ls cc cs,
     (forall n, Forall P (snd (cs n))) -> P (Scope lc ls cc cs)) ->
  forall scope, P scope.
Proof.
  intros H.
  refine (fix IH (scope : ISymUnmanagedScope) : P scope :=
            match scope with
            | Scope lc ls cc cs =>
                H lc ls cc cs
                  (fun n =>
                     (fix all (children : list ISymUnmanagedScope)
                        : Forall P children :=
                        match children with
                        | [] => @List.Forall_nil _ P
                        | child :: rest =>
                            @List.Forall_cons _ P child rest (IH child) (all rest)
                        end) (snd (cs n)))
            end).
Qed.

Lemma search_scope_children lc ls cc cs paramName0 value0 :
  search_scope pILFrame localIndex paramNameLen (Scope lc ls cc cs) paramName0 value0
  = (if FAILED (fst lc) then (fst lc, paramName0, value0) else
     if FAILED (fst (ls (snd lc))) then (fst (ls (snd lc)), paramName0, value0) else
     match find_local pILFrame localIndex paramNameLen (snd (ls (snd lc))) with
     | Some answer => answer
     | None =>
         if FAILED (fst cc) then (fst cc, paramName0, value0) else
         if FAILED (fst (cs (snd cc))) then (fst (cs (snd cc)), paramName0, value0)
         else search_children pILFrame localIndex paramNameLen
                (snd (cs (snd cc))) paramName0 value0
     end).
Proof.
  cbn [search_scope].
  destruct lc as [hr1 numVars]. cbn [fst snd].
  destruct (FAILED hr1); [reflexivity|].
  destruct (ls numVars) as [hr2 pLocals]. cbn [fst snd].
  destruct (FAILED hr2); [reflexivity|].
  destruct (find_local pILFrame localIndex paramNameLen pLocals); [reflexivity|].
  destruct cc as [hr3 numChildren]. cbn [fst snd].
  destruct (FAILED hr3); [reflexivity|].
  destruct (cs numChildren) as [hr4 pChildren]. cbn [fst snd].
  destruct (FAILED hr4); [reflexivity|].
  generalize paramName0 value0.
  induction pChildren as [|child rest IH]; intros name value; [reflexivity|].
  cbn [search_children].
  destruct (search_scope pILFrame localIndex paramNameLen child name value)
    as [[hr n] v].
  destruct (SUCCEEDED hr); [reflexivity|apply IH].
Qed.

Lemma find_local_sound value0 pLocals answer :
  find_local pILFrame localIndex paramNameLen pLocals = Some answer ->
  answer_sound pILFrame localIndex value0 answer.
Proof.
  induction pLocals as [|local rest IH]; [discriminate|].
  cbn [find_local]. destruct (GetAddressField1 local) as [hr index].
  destruct (SUCCEEDED hr); [|exact IH].
  destruct (Z.eqb_spec (ULONG32_of index) (ULONG32_of localIndex)) as [Heq|_];
    cbn [negb]; [|exact IH].
  destruct (GetName local paramNameLen) as [hrName name].
  destruct (GetLocalVariable pILFrame index) as [hrValue value] eqn:Hval.
  destruct (SUCCEEDED hrValue) eqn:Hok; cbn [andb].
  - destruct (Z.eqb_spec value 0) as [Hz|Hnz]; cbn [negb]; intros [= <-].
    + right. cbn. split; [reflexivity|now right].
    + left. cbn. split; [reflexivity|]. split; [exact Hnz|].
      exists index. rewrite Hval. cbn. split; [exact Heq|]. split; [reflexivity|].
      rewrite FAILED_SUCCEEDED in Hok. now destruct (FAILED hrValue).
  - intros [= <-]. right. cbn. split; [reflexivity|now right].
Qed.

Lemma search_scope_sound scope :
  forall paramName0 value0,
    answer_sound pILFrame localIndex value0
      (search_scope pILFrame localIndex paramNameLen scope paramName0 value0).
Proof.
  induction scope as [lc ls cc cs IH] using scope_induction.
  intros paramName0 value0. rewrite search_scope_children.
  destruct (FAILED (fst lc)) eqn:H1; [right; cbn; tauto|].
  destruct (FAILED (fst (ls (snd lc)))) eqn:H2; [right; cbn; tauto|].
  destruct (find_local pILFrame localIndex paramNameLen (snd (ls (snd lc))))
    as [answer|] eqn:Hfind; [now apply (find_local_sound value0) in Hfind|].
  destruct (FAILED (fst cc)) eqn:H3; [right; cbn; tauto|].
  destruct (FAILED (fst (cs (snd cc)))) eqn:H4; [right; cbn; tauto|].
  specialize (IH (snd cc)).
  assert (Hloop : forall name value, value = value0 \/ value = 0 ->
            answer_sound pILFrame localIndex value0
              (search_children pILFrame localIndex paramNameLen
                 (snd (cs (snd cc))) name value)).
  { induction IH as [|child rest Hchild _ IHrest]; intros name value Hvalue.
    - right. cbn. split; [reflexivity|exact Hvalue].
    - cbn [search_children].
      specialize (Hchild name value).
      destruct (search_scope pILFrame localIndex paramNameLen child name value)
        as [[hr n] v].
      destruct Hchild as [(Hok & Hnz & Hfrom)|(Hf & Hv)]; cbn [fst snd] in *.
      + subst hr. change (SUCCEEDED S_OK) with true. cbv iota.
        left. cbn. tauto.
      + rewrite FAILED_SUCCEEDED, Hf. cbn [negb]. apply IHrest.
        destruct Hv as [->| ->]; tauto. }
  apply Hloop. now left.
Qed.

End LocalVariables.

Section LocalVariableAnswers.

Import SymbolReader SymbolSession.

(** X21. What [GetNamedLocalVariable] hands back for a frame. The value
    is not null exactly when the call answers [S_OK], and it is then
    the value the frame gives for the requested index; on every
    failure, whichever reader the session holds and wherever the
    search stopped, the value is null. *)
Theorem GetNamedLocalVariable_value (FEATURE_PAL : bool) (ops : PortableOps)
    (lops : LocalsOps) (this : SymbolReader.t) (pFrame : ICorDebugFrame)
    (localIndex paramNameLen : Z) :
  let answer :=
    GetNamedLocalVariable_frame FEATURE_PAL ops lops this pFrame localIndex
      paramNameLen in
  let pILFrame := snd (QueryInterface_ILFrame pFrame) in
  (fst (fst answer) = S_OK
   /\ snd answer <> 0
   /\ exists index,
        ULONG32_of index = ULONG32_of localIndex
        /\ snd (GetLocalVariable pILFrame index) = snd answer
        /\ FAILED (fst (GetLocalVariable pILFrame index)) = false)
  \/ (FAILED (fst (fst answer)) = true /\ snd answer = 0).
Proof.
  intros answer pILFrame. subst answer pILFrame.
  unfold GetNamedLocalVariable_frame.
  destruct (QueryInterface_ILFrame pFrame) as [hr0 pILFrame]. cbn [snd].
  destruct (FAILED hr0) eqn:H0; [right; cbn; tauto|].
  destruct (FAILED (GetFunction pFrame)) eqn:H1; [right; cbn; tauto|].
  destruct (FAILED (GetClass pFrame)) eqn:H2; [right; cbn; tauto|].
  destruct (FAILED (GetModule pFrame)) eqn:H3; [right; cbn; tauto|].
  destruct (GetToken_function pFrame) as [hr4 methodDef].
  destruct (FAILED hr4) eqn:H4; [right; cbn; tauto|].
  unfold GetNamedLocalVariable.
  destruct (negb (m_symbolReaderHandle this =? 0)).
  - destruct (negb (SysAllocStringLen_ok ops)); [right; cbn; tauto|].
    destruct (GetLocalVariableNameDelegate lops _ methodDef localIndex) as [ok name].
    destruct (negb ok); [right; cbn; tauto|].
    destruct (GetLocalVariable pILFrame localIndex) as [hr value] eqn:Hval.
    destruct (FAILED hr) eqn:Hf; cbn [orb]; [right; cbn; tauto|].
    destruct (Z.eqb_spec value 0) as [Hz|Hnz]; [right; cbn; tauto|].
    left. cbn. split; [reflexivity|]. split; [exact Hnz|].
    exists localIndex. rewrite Hval. cbn. tauto.
  - destruct FEATURE_PAL; [right; cbn; tauto|].
    destruct (m_pSymReader this) as [reader|]; [|right; cbn; tauto].
    destruct (GetMethod reader methodDef) as [hr5 pSymMethod].
    destruct (FAILED hr5) eqn:H5; [right; cbn; tauto|].
    destruct (GetRootScope lops pSymMethod) as [hr6 pScope].
    destruct (FAILED hr6) eqn:H6; [right; cbn; tauto|].
    destruct (search_scope_sound pILFrame localIndex paramNameLen pScope "" 0)
      as [Hok|(Hf & Hv)]; [left; exact Hok|].
    right. split; [exact Hf|]. destruct Hv; assumption.
Qed.

(** X22. A scope that itself declares the requested index settles the
    search: the first of its locals with that index gives the name,
    [local_<index>] when the name cannot be read, and the answer is
    [S_OK] with the frame's value when the frame has one and [E_FAIL]
    with a null value when it has not. The locals after it and the
    scopes below are not consulted, not even when the frame has no
    value. *)
Theorem search_scope_own_local (pILFrame : ICorDebugILFrame)
    (localIndex paramNameLen : Z) (lc : HRESULT * Z)
    (ls : Z -> HRESULT * list ISymUnmanagedVariable)
    (cc : HRESULT * Z) (cs : Z -> HRESULT * list ISymUnmanagedScope)
    (before after : list ISymUnmanagedVariable) (local : ISymUnmanagedVariable)
    (paramName0 : string) (value0 : Z) :
  FAILED (fst lc) = false ->
  FAILED (fst (ls (snd lc))) = false ->
  snd (ls (snd lc)) = before ++ local :: after ->
  Forall (other_local localIndex) before ->
  SUCCEEDED (fst (GetAddressField1 local)) = true ->
  ULONG32_of (snd (GetAddressField1 local)) = ULONG32_of localIndex ->
  let paramName :=
    if FAILED (fst (GetName local paramNameLen))
    then "local_" +:+ Hosting.decimal localIndex
    else snd (GetName local paramNameLen) in
  let found := GetLocalVariable pILFrame (snd (GetAddressField1 local)) in
  search_scope pILFrame localIndex paramNameLen (Scope lc ls cc cs)
    paramName0 value0
  = if SUCCEEDED (fst found) && negb (snd found =? 0)
    then (S_OK, paramName, snd found)
    else (E_FAIL, paramName, 0).
Proof.
  intros H1 H2 Hlocals Hbefore Hread Hindex paramName found.
  rewrite search_scope_children, H1, H2, Hlocals.
  assert (Hfind : find_local pILFrame localIndex paramNameLen
                    (before ++ local :: after)
                  = Some (if SUCCEEDED (fst found) && negb (snd found =? 0)
                          then (S_OK, paramName, snd found)
                          else (E_FAIL, paramName, 0))).
  { clear Hlocals. induction Hbefore as [|x before Hx _ IH]; cbn [app find_local].
    - subst paramName found.
      destruct (GetAddressField1 local) as [hr index]. cbn [fst snd] in *.
      rewrite Hread, Hindex, Z.eqb_refl. cbn [negb].
      destruct (GetName local paramNameLen) as [hrName name]. cbn [fst snd].
      destruct (GetLocalVariable pILFrame index) as [hrValue value]. cbn [fst snd].
      now destruct (SUCCEEDED hrValue && negb (value =? 0)).
    - revert Hx. unfold other_local.
      destruct (GetAddressField1 x) as [hr index]. cbn [fst snd].
      intros [-> |Hne]; [exact IH|].
      destruct (SUCCEEDED hr); [|exact IH].
      destruct (Z.eqb_spec (ULONG32_of index) (ULONG32_of localIndex));
        [contradiction|exact IH]. }
  now rewrite Hfind.
Qed.

End LocalVariableAnswers.

(** The method's own unnamed local 1 settles the search with
    [local_1] and no value; [i] of the inner block is not looked at. *)
Lemma search_scope_own_local_witness :
  SymbolSession.search_scope Examples.frame_a 1 256 Examples.method_scope
    EmptyString 0
  = (E_FAIL, "local_1", 0).
Proof.
  apply (search_scope_own_local Examples.frame_a 1 256
           (S_OK, 2) (fun _ => (S_OK, [Examples.variable 0 (Some "args");
                                       Examples.variable 1 None]))
           (S_OK, 1)
           (fun _ => (S_OK, [Examples.scope [Examples.variable 1 (Some "i")] []]))
           [Examples.variable 0 (Some "args")] [] (Examples.variable 1 None)
           EmptyString 0).
  - reflexivity.
  - reflexivity.
  - reflexivity.
  - constructor; [|constructor]. right. discriminate.
  - reflexivity.
  - reflexivity.
Defined.

(** ** Loading the symbols of a module *)
Section LoadSymbols.

Import SymbolReader SymbolSession.

Variable cfg : Config.
Variable host : Hosting.Host.
Variable lo : LoaderOps.

Lemma LoadSymbolsForWindowsPDB_unbound this peAddress name layout :
  unbound this ->
  let r := LoadSymbolsForWindowsPDB lo this peAddress name layout in
  m_symbolReaderHandle (snd r) = 0
  /\ (FAILED (fst r) = true -> unbound (snd r)).
Proof.
  intros [Hh Hr]. unfold LoadSymbolsForWindowsPDB. rewrite Hr.
  destruct (FAILED (CreateInstanceCustom lo)) eqn:H1; [cbn; unfold unbound; tauto|].
  destruct (FAILED (QueryInterface_IDebugSymbols3 lo)) eqn:H2;
    [cbn; unfold unbound; tauto|].
  destruct (GetSymbolPathWide_size lo) as [hr3 pathSize].
  destruct (FAILED hr3) eqn:H3; [cbn; unfold unbound; tauto|].
  destruct (GetSymbolPathWide lo pathSize) as [hr4 symbolPath].
  destruct (negb (hr4 =? S_OK)); [cbn; unfold unbound; tauto|].
  destruct (GetReaderFromCallback lo name symbolPath layout peAddress) as [hr5 reader].
  destruct (FAILED hr5) eqn:H5; unfold unbound;
    cbn [fst snd set_reader m_symbolReaderHandle m_pSymReader]; [tauto|].
  split; [exact Hh|intros Hc; congruence].
Qed.

Lemma one_reader_unchanged (this : SymbolReader.t) (s : Hosting.State)
    (code : HRESULT) :
  unbound this -> FAILED code = true -> one_reader cfg s (code, this, s).
Proof.
  intros [Hh Hr] Hcode. unfold one_reader, unbound. cbn [fst snd].
  split; [tauto|]. split; congruence.
Qed.

Lemma LoadSymbolsForPortablePDB_one_reader (this : SymbolReader.t)
    (pModuleName : string) (isInMemory isFileLayout : bool)
    (peAddress peSize inMemoryPdbAddress inMemoryPdbSize : Z) (s : Hosting.State) :
  unbound this ->
  one_reader cfg s
    (LoadSymbolsForPortablePDB cfg host lo this pModuleName isInMemory
       isFileLayout peAddress peSize inMemoryPdbAddress inMemoryPdbSize s).
Proof.
  intros [Hh0 Hr0]. unfold LoadSymbolsForPortablePDB, one_reader.
  destruct (Hosting.InitializeHosting cfg host s) as [hr0 s0] eqn:Hboot.
  destruct (FAILED hr0) eqn:Hf0.
  { cbn. unfold unbound. split; [tauto|]. split; congruence. }
  assert (Hset : Hosting.g_hostingInitialized s0 = true).
  { destruct (Hosting.g_hostingInitialized s) eqn:Hflag.
    - rewrite (InitializeHosting_set cfg host s Hflag) in Hboot.
      now injection Hboot as _ <-.
    - destruct (InitializeHosting_unset cfg host s hr0 s0 Hflag Hboot)
        as (_ & _ & _ & [[Hf _]|(_ & Hs & _)]); [congruence|exact Hs]. }
  pose proof (proj1 (InitializeSymbolStore_sympath_settled cfg host s0)) as Hset1.
  rewrite Hset in Hset1.
  set (s1 := Hosting.InitializeSymbolStore_sympath cfg host s0) in *.
  match goal with
  | |- context [match ?c with Some _ => _ | None => _ end] =>
      destruct c as [szModuleName|]
  end.
  2:{ cbn. unfold unbound. split; [tauto|]. split; congruence. }
  match goal with
  | |- context [managed_LoadSymbolsForModule lo ?a ?b ?c ?d ?e ?f ?g] =>
      set (handle := managed_LoadSymbolsForModule lo a b c d e f g)
  end.
  destruct (Z.eqb_spec handle 0) as [Hz0|Hnz0].
  - cbn. rewrite Hz0. unfold unbound. cbn. split; [tauto|]. split; congruence.
  - cbn. split; [congruence|]. split; [tauto|congruence].
Qed.

Lemma LoadSymbols_one_reader (this : SymbolReader.t) (pModule : IXCLRDataModule)
    (s : Hosting.State) :
  unbound this -> one_reader cfg s (LoadSymbols cfg host lo this pModule s).
Proof.
  intros Hun. unfold LoadSymbols.
  destruct (GetFlags pModule) as [hr1 flags].
  destruct (FAILED hr1) eqn:H1; [now apply one_reader_unchanged|].
  destruct (negb (Z.land flags (CLRDATA_MODULE_IS_DYNAMIC lo) =? 0));
    [now apply one_reader_unchanged|].
  destruct (Request_moduleData pModule) as [hr2 moduleData].
  destruct (FAILED hr2) eqn:H2; [now apply one_reader_unchanged|].
  destruct (GetFileName pModule) as [hr3 pModuleName].
  destruct (FAILED hr3) eqn:H3; [now apply one_reader_unchanged|].
  destruct (FEATURE_PAL (os cfg)) eqn:Hpal; cbn [negb andb].
  { now apply LoadSymbolsForPortablePDB_one_reader. }
  pose proof (LoadSymbolsForWindowsPDB_unbound this (LoadedPEAddress moduleData)
                pModuleName (IsFileLayout moduleData) Hun) as [Hh' Hfail].
  destruct (LoadSymbolsForWindowsPDB lo this (LoadedPEAddress moduleData)
              pModuleName (IsFileLayout moduleData)) as [hrw thisw].
  cbn [fst snd] in Hh', Hfail.
  destruct (SUCCEEDED hrw) eqn:Hokw.
  - unfold one_reader. cbn [fst snd]. rewrite Hpal.
    assert (Hfw : FAILED hrw = false).
    { rewrite FAILED_SUCCEEDED in Hokw. now destruct (FAILED hrw). }
    split; [congruence|]. split; [congruence|]. tauto.
  - apply LoadSymbolsForPortablePDB_one_reader, Hfail.
    rewrite FAILED_SUCCEEDED in Hokw. now destruct (FAILED hrw).
Qed.

(** X23. Loading the symbols of a module into a session that holds no
    reader, through either overload of [LoadSymbols]. A dynamic module
    is refused with [E_FAIL] and nothing is touched. Whenever the call
    fails the session still holds no reader. The session never ends up
    with both readers: a portable reader comes with a success and an
    initialized hosting bridge, and no native reader; a native reader
    comes only under dbgeng and without the hosting bridge having been
    started or touched. *)
Theorem LoadSymbols_binds_one_reader (this : SymbolReader.t)
    (pModule : IXCLRDataModule) (pDebugModule : ICorDebugModule)
    (s : Hosting.State) :
  unbound this ->
  one_reader cfg s (LoadSymbols cfg host lo this pModule s)
  /\ one_reader cfg s (LoadSymbols_debug cfg host lo this pDebugModule s)
  /\ (FAILED (fst (GetFlags pModule)) = false ->
      Z.land (snd (GetFlags pModule)) (CLRDATA_MODULE_IS_DYNAMIC lo) <> 0 ->
      LoadSymbols cfg host lo this pModule s = (E_FAIL, this, s))
  /\ (FAILED (fst (IsDynamic pDebugModule)) = false ->
      snd (IsDynamic pDebugModule) = true ->
      LoadSymbols_debug cfg host lo this pDebugModule s = (E_FAIL, this, s)).
Proof.
  intros Hun. split; [now apply LoadSymbols_one_reader|]. split; [|split].
  - unfold LoadSymbols_debug.
    destruct (IsDynamic pDebugModule) as [hr1 isDynamic].
    destruct (FAILED hr1) eqn:H1; [now apply one_reader_unchanged|].
    destruct isDynamic; [now apply one_reader_unchanged|].
    destruct (GetBaseAddress pDebugModule) as [hr2 peAddress].
    destruct (FAILED hr2) eqn:H2; [now apply one_reader_unchanged|].
    destruct (GetModuleFromAddress pDebugModule peAddress) as [hr3 pClrModule].
    destruct (FAILED hr3) eqn:H3; [now apply one_reader_unchanged|].
    now apply LoadSymbols_one_reader.
  - unfold LoadSymbols. destruct (GetFlags pModule) as [hr1 flags]. cbn [fst snd].
    intros -> Hdyn.
    destruct (Z.eqb_spec (Z.land flags (CLRDATA_MODULE_IS_DYNAMIC lo)) 0);
      [contradiction|reflexivity].
  - unfold LoadSymbols_debug.
    destruct (IsDynamic pDebugModule) as [hr1 isDynamic]. cbn [fst snd].
    intros -> ->. reflexivity.
Qed.

End LoadSymbols.

(** On Linux the module's portable PDB is opened by the hosted runtime:
    the session holds a handle and no native reader. *)
Lemma LoadSymbols_binds_one_reader_witness :
  SymbolReader.m_pSymReader
    (snd (fst (SymbolSession.LoadSymbols Fixtures.cfg_linux Fixtures.healthy_host
                 Examples.portable_loader Examples.no_session Examples.app_module
                 Fixtures.initial_state)))
  = None.
Proof.
  apply (proj1 (proj2 (proj1 (LoadSymbols_binds_one_reader Fixtures.cfg_linux
                                Fixtures.healthy_host Examples.portable_loader
                                Examples.no_session Examples.app_module
                                Examples.debug_module Fixtures.initial_state
                                (conj eq_refl eq_refl))))).
  vm_compute. discriminate.
Defined.
